(** * Airport Control Management System: data/authorization/state-transition layer

    A shallow embedding of the schema (tables, constraints, row-level
    policies, triggers) and of the page handlers that talk to the store
    (Flights, Passengers, Runways, ATCPanel, Alerts, Admin), followed by the
    properties of the specification that were checked against them. *)

From Stdlib Require Import ZArith List Bool Ascii String Lia Sorted.
From stdpp Require Import base gmap strings pretty.
Import ListNotations.
Local Open Scope string_scope.
Local Open Scope Z_scope.

(** ** Scalar types *)

(** [UUID] columns.  The textual form of a UUID is never the empty string,
    so the JavaScript truthiness test on an id column is the test for
    non-null. *)
Definition uuid := N.

(** [TIMESTAMPTZ] values and JavaScript [Date]s: milliseconds since the
    epoch. *)
Definition timestamptz := Z.

(** [INTEGER] columns hold signed numbers of 32 bits. *)
Definition int4_ok (v : Z) : bool :=
  (-2147483648 <=? v) && (v <=? 2147483647).

(** A time reaches the store as the text [toISOString] writes for it, and
    the engine reads that text when the year has four digits and is not
    0000: from 0001-01-01T00:00:00.000Z to 9999-12-31T23:59:59.999Z. *)
Definition iso_min : Z := -62135596800000.
Definition iso_max : Z := 253402300799999.

Definition timestamptz_ok (t : timestamptz) : bool :=
  (iso_min <=? t) && (t <=? iso_max).

(** ** Enums (CREATE TYPE ... AS ENUM) *)

Inductive app_role := admin | atc | staff.
Inductive flight_status :=
  scheduled | boarding | delayed | departed | landed | cancelled | emergency.
Inductive runway_status := available | occupied | maintenance | closed.
Inductive passenger_boarding_status :=
  checked_in | pax_boarding | boarded | no_show.
Inductive alert_severity := info | warning | critical | sev_emergency.

Definition app_role_eqb (a b : app_role) : bool :=
  match a, b with
  | admin, admin | atc, atc | staff, staff => true
  | _, _ => false
  end.

Definition flight_status_eqb (a b : flight_status) : bool :=
  match a, b with
  | scheduled, scheduled | boarding, boarding | delayed, delayed
  | departed, departed | landed, landed | cancelled, cancelled
  | emergency, emergency => true
  | _, _ => false
  end.

Definition runway_status_eqb (a b : runway_status) : bool :=
  match a, b with
  | available, available | occupied, occupied
  | maintenance, maintenance | closed, closed => true
  | _, _ => false
  end.

(** Text of an enum value, as it appears in template literals. *)
Definition flight_status_text (s : flight_status) : string :=
  match s with
  | scheduled => "scheduled" | boarding => "boarding" | delayed => "delayed"
  | departed => "departed" | landed => "landed" | cancelled => "cancelled"
  | emergency => "emergency"
  end.

Definition runway_status_text (s : runway_status) : string :=
  match s with
  | available => "available" | occupied => "occupied"
  | maintenance => "maintenance" | closed => "closed"
  end.

Definition boarding_status_text (s : passenger_boarding_status) : string :=
  match s with
  | checked_in => "checked_in" | pax_boarding => "boarding"
  | boarded => "boarded" | no_show => "no_show"
  end.

(** [newStatus.replace("_", " ")] *)
Definition boarding_status_label (s : passenger_boarding_status) : string :=
  match s with
  | checked_in => "checked in" | pax_boarding => "boarding"
  | boarded => "boarded" | no_show => "no show"
  end.

Definition severity_text (s : alert_severity) : string :=
  match s with
  | info => "info" | warning => "warning" | critical => "critical"
  | sev_emergency => "emergency"
  end.

Definition app_role_text (r : app_role) : string :=
  match r with admin => "admin" | atc => "atc" | staff => "staff" end.

(** ** Tables and row-level policies *)

Inductive table :=
  | public_profiles | public_user_roles | public_runways | public_flights
  | public_passengers | public_activity_log | public_alerts.

Definition table_eqb (a b : table) : bool :=
  match a, b with
  | public_profiles, public_profiles | public_user_roles, public_user_roles
  | public_runways, public_runways | public_flights, public_flights
  | public_passengers, public_passengers
  | public_activity_log, public_activity_log
  | public_alerts, public_alerts => true
  | _, _ => false
  end.

Inductive command := SELECT | INSERT | UPDATE | DELETE.

Definition command_eqb (a b : command) : bool :=
  match a, b with
  | SELECT, SELECT | INSERT, INSERT | UPDATE, UPDATE | DELETE, DELETE => true
  | _, _ => false
  end.

(** [FOR ALL] or [FOR <command>]. *)
Inductive policy_for := FOR_ALL | FOR (c : command).

(** A row of [public.user_roles]. *)
Module UserRole.
Record t := mk { id : uuid; user_id : uuid; role : app_role }.
End UserRole.

(** What a policy expression can see: the caller ([auth.uid()]), the
    [user_roles] table (through [has_role], a SECURITY DEFINER function) and
    the [id] and [user_id] columns of the row under test. *)
Record PolicyCtx := {
  auth_uid : uuid;
  roles_table : list UserRole.t;
  row_id : option uuid;
  row_user_id : option uuid
}.

(** [public.has_role(_user_id, _role)]:
    SELECT EXISTS (SELECT 1 FROM user_roles WHERE user_id = _user_id AND role = _role) *)
Definition has_role (rows : list UserRole.t) (_user_id : uuid) (_role : app_role) : bool :=
  existsb (fun r => N.eqb (UserRole.user_id r) _user_id
                    && app_role_eqb (UserRole.role r) _role) rows.

(** [public.get_user_role(_user_id)]:
    SELECT role FROM user_roles WHERE user_id = _user_id LIMIT 1 *)
Definition get_user_role (rows : list UserRole.t) (_user_id : uuid) : option app_role :=
  match List.filter (fun r => N.eqb (UserRole.user_id r) _user_id) rows with
  | r :: _ => Some (UserRole.role r)
  | [] => None
  end.

Record Policy := {
  pol_name : string;
  pol_table : table;
  pol_for : policy_for;
  pol_using : option (PolicyCtx -> bool);
  pol_check : option (PolicyCtx -> bool)
}.

Definition caller_has (r : app_role) (c : PolicyCtx) : bool :=
  has_role (roles_table c) (auth_uid c) r.

Definition uid_is (col : PolicyCtx -> option uuid) (c : PolicyCtx) : bool :=
  match col c with
  | Some v => N.eqb (auth_uid c) v
  | None => false
  end.

(** The CREATE POLICY statements of the schema, in file order.  All of them
    are [TO authenticated]; every caller modelled here is authenticated. *)
Definition policies : list Policy := [
  {| pol_name := "Users can view all profiles"; pol_table := public_profiles;
     pol_for := FOR SELECT; pol_using := Some (fun _ => true); pol_check := None |};
  {| pol_name := "Users can update own profile"; pol_table := public_profiles;
     pol_for := FOR UPDATE; pol_using := Some (uid_is row_id); pol_check := None |};
  {| pol_name := "Users can insert own profile"; pol_table := public_profiles;
     pol_for := FOR INSERT; pol_using := None; pol_check := Some (uid_is row_id) |};
  {| pol_name := "Users can view roles"; pol_table := public_user_roles;
     pol_for := FOR SELECT; pol_using := Some (fun _ => true); pol_check := None |};
  {| pol_name := "Admins can manage roles"; pol_table := public_user_roles;
     pol_for := FOR_ALL; pol_using := Some (caller_has admin); pol_check := None |};
  {| pol_name := "All authenticated can view runways"; pol_table := public_runways;
     pol_for := FOR SELECT; pol_using := Some (fun _ => true); pol_check := None |};
  {| pol_name := "Admin and ATC can manage runways"; pol_table := public_runways;
     pol_for := FOR_ALL;
     pol_using := Some (fun c => caller_has admin c || caller_has atc c);
     pol_check := None |};
  {| pol_name := "All authenticated can view flights"; pol_table := public_flights;
     pol_for := FOR SELECT; pol_using := Some (fun _ => true); pol_check := None |};
  {| pol_name := "Admin and ATC can manage flights"; pol_table := public_flights;
     pol_for := FOR_ALL;
     pol_using := Some (fun c => caller_has admin c || caller_has atc c);
     pol_check := None |};
  {| pol_name := "Staff can update flight status"; pol_table := public_flights;
     pol_for := FOR UPDATE; pol_using := Some (caller_has staff); pol_check := None |};
  {| pol_name := "All authenticated can view passengers"; pol_table := public_passengers;
     pol_for := FOR SELECT; pol_using := Some (fun _ => true); pol_check := None |};
  {| pol_name := "Admin and staff can manage passengers"; pol_table := public_passengers;
     pol_for := FOR_ALL;
     pol_using := Some (fun c => caller_has admin c || caller_has staff c || caller_has atc c);
     pol_check := None |};
  {| pol_name := "All authenticated can view activity"; pol_table := public_activity_log;
     pol_for := FOR SELECT; pol_using := Some (fun _ => true); pol_check := None |};
  {| pol_name := "All authenticated can insert activity"; pol_table := public_activity_log;
     pol_for := FOR INSERT; pol_using := None; pol_check := Some (uid_is row_user_id) |};
  {| pol_name := "All authenticated can view alerts"; pol_table := public_alerts;
     pol_for := FOR SELECT; pol_using := Some (fun _ => true); pol_check := None |};
  {| pol_name := "Admin and ATC can manage alerts"; pol_table := public_alerts;
     pol_for := FOR_ALL;
     pol_using := Some (fun c => caller_has admin c || caller_has atc c);
     pol_check := None |};
  {| pol_name := "Staff can insert alerts"; pol_table := public_alerts;
     pol_for := FOR INSERT; pol_using := None;
     pol_check := Some (fun c => caller_has admin c || caller_has atc c || caller_has staff c) |}
].

(** Row-level security, as the engine evaluates it: policies are permissive
    and combined with OR; a table with row security enabled and no
    applicable policy denies.  USING filters the rows a command can see
    (rows that fail are skipped without an error); WITH CHECK is tested on
    the rows a command writes, and a policy without WITH CHECK uses its
    USING expression for it. *)
Definition applies (p : Policy) (t : table) (c : command) : bool :=
  table_eqb (pol_table p) t
  && match pol_for p with
     | FOR_ALL => true
     | FOR c' => command_eqb c' c
     end.

Definition using_of (p : Policy) : PolicyCtx -> bool :=
  match pol_using p with
  | Some e => e
  | None => fun _ => true
  end.

Definition check_of (p : Policy) : PolicyCtx -> bool :=
  match pol_check p with
  | Some e => e
  | None => using_of p
  end.

Definition rls_using (t : table) (c : command) (ctx : PolicyCtx) : bool :=
  existsb (fun p => applies p t c && using_of p ctx) policies.

Definition rls_check (t : table) (c : command) (ctx : PolicyCtx) : bool :=
  existsb (fun p => applies p t c && check_of p ctx) policies.

(** Whether a command by the caller goes through on a row: a read needs the
    SELECT policies; an insert the check on the new row; an update or delete
    with a WHERE clause needs the row to be visible (SELECT) and to pass
    USING, and an update also the check on the new row. *)
Definition rls_permits (t : table) (c : command) (ctx : PolicyCtx) : bool :=
  match c with
  | SELECT => rls_using t SELECT ctx
  | INSERT => rls_check t INSERT ctx
  | UPDATE => rls_using t SELECT ctx && rls_using t UPDATE ctx && rls_check t UPDATE ctx
  | DELETE => rls_using t SELECT ctx && rls_using t DELETE ctx
  end.

(** *** The authorization table of the specification (section 4.2) *)

Inductive entity :=
  | E_Runway | E_Flight | E_Passenger | E_Alert | E_IdentityRole
  | E_ActivityLogEntry.

Definition entity_table (e : entity) : table :=
  match e with
  | E_Runway => public_runways | E_Flight => public_flights
  | E_Passenger => public_passengers | E_Alert => public_alerts
  | E_IdentityRole => public_user_roles
  | E_ActivityLogEntry => public_activity_log
  end.

(** An operation of the table; an update names the columns it writes. *)
Inductive operation :=
  | op_read
  | op_insert
  | op_update (columns : list string)
  | op_delete.

Definition operation_command (o : operation) : command :=
  match o with
  | op_read => SELECT | op_insert => INSERT
  | op_update _ => UPDATE | op_delete => DELETE
  end.

(** [canPerform(role, entity, operation)], written from the table of the
    specification; [writer] is the [user_id] of the activity entry being
    written and [actor] the acting user. *)
Definition canPerform (r : app_role) (e : entity) (o : operation)
    (actor writer : uuid) : bool :=
  match o with
  | op_read => true
  | _ =>
    match e with
    | E_Runway => match r with admin | atc => true | staff => false end
    | E_Flight =>
      match r with
      | admin | atc => true
      | staff =>
        match o with
        | op_update columns => forallb (String.eqb "status") columns
        | _ => false
        end
      end
    | E_Passenger => true
    | E_Alert =>
      match r with
      | admin | atc => true
      | staff => match o with op_insert => true | _ => false end
      end
    | E_IdentityRole => match r with admin => true | _ => false end
    | E_ActivityLogEntry =>
      match o with
      | op_insert => N.eqb actor writer
      | _ => false
      end
    end
  end.

(** The decision of the row-level policies for a caller who holds exactly
    the role [r]. *)
Definition rls_decision (r : app_role) (e : entity) (o : operation)
    (actor writer : uuid) : bool :=
  rls_permits (entity_table e) (operation_command o)
    {| auth_uid := actor;
       roles_table := [UserRole.mk 0%N actor r];
       row_id := None;
       row_user_id := Some writer |}.

(** ** Rows

    One module per table, after the generated types ([Row], [Insert],
    [Update]).  The bookkeeping columns [created_at] and [updated_at], and
    the [update_updated_at] trigger that maintains the latter, are left out:
    no handler reads or writes them. *)

Module Profile.
Record t := mk { id : uuid; full_name : string; email : string }.
End Profile.

Module Runway.
Record t := mk {
  id : uuid;
  name : string;
  length_meters : Z;
  status : runway_status;
  surface_type : string;
  notes : option string
}.

(** The columns an update may set; [None] leaves the column alone. *)
Record Update := mkUpdate {
  set_name : option string;
  set_length_meters : option Z;
  set_status : option runway_status;
  set_surface_type : option string;
  set_notes : option (option string)
}.

Definition only_status (s : runway_status) : Update :=
  mkUpdate None None (Some s) None None.

Definition apply (u : Update) (r : t) : t :=
  mk (id r)
     (default (name r) (set_name u))
     (default (length_meters r) (set_length_meters u))
     (default (status r) (set_status u))
     (default (surface_type r) (set_surface_type u))
     (default (notes r) (set_notes u)).
End Runway.

Module Flight.
Record t := mk {
  id : uuid;
  flight_number : string;
  airline : string;
  origin : string;
  destination : string;
  status : flight_status;
  scheduled_departure : timestamptz;
  scheduled_arrival : timestamptz;
  actual_departure : option timestamptz;
  actual_arrival : option timestamptz;
  runway_id : option uuid;
  gate : option string;
  aircraft_type : string;
  capacity : Z;
  created_by : option uuid;
  notes : option string
}.

Record Update := mkUpdate {
  set_flight_number : option string;
  set_airline : option string;
  set_origin : option string;
  set_destination : option string;
  set_status : option flight_status;
  set_scheduled_departure : option timestamptz;
  set_scheduled_arrival : option timestamptz;
  set_actual_departure : option (option timestamptz);
  set_actual_arrival : option (option timestamptz);
  set_runway_id : option (option uuid);
  set_gate : option (option string);
  set_aircraft_type : option string;
  set_capacity : option Z;
  set_created_by : option (option uuid);
  set_notes : option (option string)
}.

(** The object [{ status: s }]. *)
Definition only_status (s : flight_status) : Update :=
  mkUpdate None None None None (Some s) None None None None None None None
           None None None.

Definition apply (u : Update) (r : t) : t :=
  mk (id r)
     (default (flight_number r) (set_flight_number u))
     (default (airline r) (set_airline u))
     (default (origin r) (set_origin u))
     (default (destination r) (set_destination u))
     (default (status r) (set_status u))
     (default (scheduled_departure r) (set_scheduled_departure u))
     (default (scheduled_arrival r) (set_scheduled_arrival u))
     (default (actual_departure r) (set_actual_departure u))
     (default (actual_arrival r) (set_actual_arrival u))
     (default (runway_id r) (set_runway_id u))
     (default (gate r) (set_gate u))
     (default (aircraft_type r) (set_aircraft_type u))
     (default (capacity r) (set_capacity u))
     (default (created_by r) (set_created_by u))
     (default (notes r) (set_notes u)).

(** The row an insert of the columns in [u] creates: the remaining columns
    take their DEFAULT ([status] 'scheduled', [aircraft_type]
    'Boeing 737', [capacity] 180, nullable columns NULL).  The four text
    columns and the two schedule columns are NOT NULL without a default;
    the only insert of the program supplies them. *)
Definition inserted (new_id : uuid) (u : Update) : t :=
  apply u (mk new_id EmptyString EmptyString EmptyString EmptyString
              scheduled 0 0 None None None None
              "Boeing 737" 180 None None).

Definition set_runway_null (r : t) : t :=
  mk (id r) (flight_number r) (airline r) (origin r) (destination r)
     (status r) (scheduled_departure r) (scheduled_arrival r)
     (actual_departure r) (actual_arrival r) None (gate r)
     (aircraft_type r) (capacity r) (created_by r) (notes r).
End Flight.

Module Passenger.
Record t := mk {
  id : uuid;
  flight_id : uuid;
  first_name : string;
  last_name : string;
  passport_number : string;
  seat_number : option string;
  ticket_id : string;
  boarding_status : passenger_boarding_status;
  nationality : string
}.

(** The payload of the Passengers page; it never names [ticket_id]. *)
Record Payload := mkPayload {
  p_flight_id : uuid;
  p_first_name : string;
  p_last_name : string;
  p_passport_number : string;
  p_seat_number : option string;
  p_nationality : string;
  p_boarding_status : passenger_boarding_status
}.

Definition inserted (new_id : uuid) (ticket : string) (p : Payload) : t :=
  mk new_id (p_flight_id p) (p_first_name p) (p_last_name p)
     (p_passport_number p) (p_seat_number p) ticket (p_boarding_status p)
     (p_nationality p).

Definition apply (p : Payload) (r : t) : t :=
  mk (id r) (p_flight_id p) (p_first_name p) (p_last_name p)
     (p_passport_number p) (p_seat_number p) (ticket_id r)
     (p_boarding_status p) (p_nationality p).

Definition set_boarding_status (s : passenger_boarding_status) (r : t) : t :=
  mk (id r) (flight_id r) (first_name r) (last_name r) (passport_number r)
     (seat_number r) (ticket_id r) s (nationality r).
End Passenger.

Module ActivityLog.
(** [details] is a JSON object; the handlers pass either nothing ([{}]) or
    [{ action }], kept here as a list of key/value pairs. *)
Record t := mk {
  id : uuid;
  user_id : option uuid;
  action : string;
  entity_type : string;
  entity_id : option uuid;
  details : list (string * string)
}.
End ActivityLog.

Module Alert.
Record t := mk {
  id : uuid;
  title : string;
  message : string;
  severity : alert_severity;
  flight_id : option uuid;
  runway_id : option uuid;
  is_active : bool;
  is_acknowledged : bool;
  acknowledged_by : option uuid;
  acknowledged_at : option timestamptz;
  created_by : option uuid
}.

(** The object every insert of the program sends. *)
Record Payload := mkPayload {
  p_title : string;
  p_message : string;
  p_severity : alert_severity;
  p_flight_id : option uuid;
  p_created_by : uuid
}.

(** Defaults: [is_active] true, [is_acknowledged] false, the rest NULL. *)
Definition inserted (new_id : uuid) (p : Payload) : t :=
  mk new_id (p_title p) (p_message p) (p_severity p) (p_flight_id p) None
     true false None None (Some (p_created_by p)).

(** The update of [handleAcknowledge]: is_acknowledged, acknowledged_by,
    acknowledged_at and is_active. *)
Definition acknowledge (by_user : uuid) (at_time : timestamptz) (r : t) : t :=
  mk (id r) (title r) (message r) (severity r) (flight_id r) (runway_id r)
     false true (Some by_user) (Some at_time) (created_by r).
End Alert.

(** ** The store *)

Record Db := mkDb {
  profiles : list Profile.t;
  user_roles : list UserRole.t;
  runways : list Runway.t;
  flights : list Flight.t;
  passengers : list Passenger.t;
  activity_log : list ActivityLog.t;
  alerts : list Alert.t
}.

Definition with_profiles (v : list Profile.t) (d : Db) : Db :=
  mkDb v (user_roles d) (runways d) (flights d) (passengers d) (activity_log d) (alerts d).
Definition with_user_roles (v : list UserRole.t) (d : Db) : Db :=
  mkDb (profiles d) v (runways d) (flights d) (passengers d) (activity_log d) (alerts d).
Definition with_runways (v : list Runway.t) (d : Db) : Db :=
  mkDb (profiles d) (user_roles d) v (flights d) (passengers d) (activity_log d) (alerts d).
Definition with_flights (v : list Flight.t) (d : Db) : Db :=
  mkDb (profiles d) (user_roles d) (runways d) v (passengers d) (activity_log d) (alerts d).
Definition with_passengers (v : list Passenger.t) (d : Db) : Db :=
  mkDb (profiles d) (user_roles d) (runways d) (flights d) v (activity_log d) (alerts d).
Definition with_activity_log (v : list ActivityLog.t) (d : Db) : Db :=
  mkDb (profiles d) (user_roles d) (runways d) (flights d) (passengers d) v (alerts d).
Definition with_alerts (v : list Alert.t) (d : Db) : Db :=
  mkDb (profiles d) (user_roles d) (runways d) (flights d) (passengers d) (activity_log d) v.

(** The seed of the schema file: five runways, every other table empty. *)
Definition seed : Db :=
  mkDb [] []
    [ Runway.mk 1%N "Runway 01L" 3800 available "asphalt" (Some "Primary landing runway");
      Runway.mk 2%N "Runway 01R" 3600 available "asphalt" (Some "Primary takeoff runway");
      Runway.mk 3%N "Runway 19L" 3200 available "concrete" (Some "Secondary landing runway");
      Runway.mk 4%N "Runway 19R" 3000 available "concrete" (Some "Secondary runway");
      Runway.mk 5%N "Runway 10" 2800 maintenance "asphalt" (Some "Under maintenance") ]
    [] [] [] [].

(** Errors a request to the store can come back with: the transport gave
    up, or the engine refused the statement (SQLSTATE 23505, 23503, 42501,
    42P10; 22003 for a number that does not fit an INTEGER column; 22007,
    22008 or 22009 for the text of a time the engine does not read). *)
Inductive PgError :=
  | transport_failure
  | unique_violation (constraint : string)
  | foreign_key_violation (t : table) (constraint : string)
  | rls_violation (t : table)
  | no_conflict_target
  | integer_out_of_range (v : Z)
  | datetime_refused (t : timestamptz).

Definition table_text (t : table) : string :=
  match t with
  | public_profiles => "profiles" | public_user_roles => "user_roles"
  | public_runways => "runways" | public_flights => "flights"
  | public_passengers => "passengers"
  | public_activity_log => "activity_log" | public_alerts => "alerts"
  end.

(** An identifier or a value between double quotes, as the engine writes
    it in its messages. *)
Definition quoted (s : string) : string :=
  String "034"%char (s +:+ String "034"%char EmptyString).

Fixpoint zeros (k : nat) : string :=
  match k with
  | O => EmptyString
  | S k => String "0" (zeros k)
  end.

(** A number that is not negative, in decimal, with zeros in front up to
    [width] digits. *)
Definition padded (width : nat) (n : Z) : string :=
  zeros (width - String.length (pretty n)) +:+ pretty n.

(** The year, the month and the day of a time, in UTC. *)
Definition Date_ymd (t : timestamptz) : Z * Z * Z :=
  let z := t / 86400000 + 719468 in
  let era := z / 146097 in
  let doe := z - era * 146097 in
  let yoe := (doe - doe / 1460 + doe / 36524 - doe / 146096) / 365 in
  let doy := doe - (365 * yoe + yoe / 4 - yoe / 100) in
  let mp := (5 * doy + 2) / 153 in
  let m := if mp <? 10 then mp + 3 else mp - 9 in
  (yoe + era * 400 + (if m <=? 2 then 1 else 0), m, doy - (153 * mp + 2) / 5 + 1).

(** [Date.prototype.toISOString] on a valid [Date]: a year outside 0 to
    9999 is written with a sign and six digits. *)
Definition Date_toISOString (t : timestamptz) : string :=
  let '(y, m, d) := Date_ymd t in
  let ms := t mod 86400000 in
  (if (0 <=? y) && (y <=? 9999) then padded 4 y
   else (if y <? 0 then "-" else "+") +:+ padded 6 (Z.abs y))
  +:+ "-" +:+ padded 2 m +:+ "-" +:+ padded 2 d
  +:+ "T" +:+ padded 2 (ms / 3600000) +:+ ":" +:+ padded 2 (ms / 60000 mod 60)
  +:+ ":" +:+ padded 2 (ms / 1000 mod 60) +:+ "." +:+ padded 3 (ms mod 1000) +:+ "Z".

(** [error.message] as the handlers show it.  The engine quotes
    identifiers and values; for a request the transport lost, the client
    library reports the exception of [fetch] by name and message (the
    message is the one of Chromium).  A time the engine does not read is
    refused by the rule its text runs into: the year 0000 is out of range,
    and a sign in front of the year is read as a time zone displacement,
    which may be 15 hours at most. *)
Definition error_message (e : PgError) : string :=
  match e with
  | transport_failure => "TypeError: Failed to fetch"
  | unique_violation c =>
      "duplicate key value violates unique constraint " +:+ quoted c
  | foreign_key_violation t c =>
      "insert or update on table " +:+ quoted (table_text t)
      +:+ " violates foreign key constraint " +:+ quoted c
  | rls_violation t =>
      "new row violates row-level security policy for table "
      +:+ quoted (table_text t)
  | no_conflict_target =>
      "there is no unique or exclusion constraint matching the ON CONFLICT specification"
  | integer_out_of_range v =>
      "value " +:+ quoted (pretty v) +:+ " is out of range for type integer"
  | datetime_refused t =>
      let y := fst (fst (Date_ymd t)) in
      (if y =? 0 then "date/time field value out of range: "
       else if (-15 <=? y) && (y <? 0) then
         "invalid input syntax for type timestamp with time zone: "
       else "time zone displacement out of range: ")
      +:+ quoted (Date_toISOString t)
  end.

(** ** Requests to the store, with policies and constraints applied

    Each function is one statement as the engine runs it for caller [uid].
    The values of the payload are converted to the types of their columns
    when a row is built from them: for an INSERT before anything else, for
    an UPDATE once the policies and the filter have left a row to update
    (USING skips rows silently).  Then come the row-level policies on the
    new row (a failed WITH CHECK is an error) and the constraints of the
    schema (primary key, UNIQUE, REFERENCES with their ON DELETE actions).
    [inl] is the error sent back, [inr] the store after the statement. *)

Definition ctx_of (uid : uuid) (d : Db) : PolicyCtx :=
  {| auth_uid := uid; roles_table := user_roles d;
     row_id := None; row_user_id := None |}.

Definition opt_uuid_eqb (a : option uuid) (x : uuid) : bool :=
  match a with
  | Some v => N.eqb v x
  | None => false
  end.

Definition runway_exists (k : uuid) (d : Db) : bool :=
  existsb (fun q => N.eqb (Runway.id q) k) (runways d).

Definition flight_exists (k : uuid) (d : Db) : bool :=
  existsb (fun q => N.eqb (Flight.id q) k) (flights d).

(** [gen_random_uuid()], the default of every [id] column: a value no row
    of the table carries yet. *)
Definition gen_random_uuid (taken : list uuid) : uuid :=
  N.succ (fold_right N.max 0%N taken).

(** REFERENCES on a nullable column. *)
Definition fk_ok (present : uuid -> Db -> bool) (v : option uuid) (d : Db) : bool :=
  match v with
  | Some k => present k d
  | None => true
  end.

(** The conversion of a value the payload sets, if it sets one. *)
Definition timestamptz_in (v : option timestamptz) : option PgError :=
  match v with
  | Some t => if timestamptz_ok t then None else Some (datetime_refused t)
  | None => None
  end.

Definition int4_in (v : option Z) : option PgError :=
  match v with
  | Some n => if int4_ok n then None else Some (integer_out_of_range n)
  | None => None
  end.

(** *** flights *)

(** The columns of a flight payload that carry what the user entered: the
    two schedule columns and [capacity].  When several values do not fit,
    the refusal reported here is the first in the order of the table's
    columns.  [actual_departure] and [actual_arrival] are only ever written
    with the reading of the clock ([Date_now] below), a current date, which
    the engine reads. *)
Definition flights_conversion (u : Flight.Update) : option PgError :=
  match timestamptz_in (Flight.set_scheduled_departure u) with
  | Some e => Some e
  | None =>
      match timestamptz_in (Flight.set_scheduled_arrival u) with
      | Some e => Some e
      | None => int4_in (Flight.set_capacity u)
      end
  end.

Definition flights_insert (uid : uuid) (u : Flight.Update) (d : Db)
    : PgError + Db :=
  let row := Flight.inserted (gen_random_uuid (map Flight.id (flights d))) u in
  match flights_conversion u with
  | Some e => inl e
  | None =>
  if negb (rls_check public_flights INSERT (ctx_of uid d)) then
    inl (rls_violation public_flights)
  else if existsb (fun r => String.eqb (Flight.flight_number r) (Flight.flight_number row))
                  (flights d)
  then inl (unique_violation "flights_flight_number_key")
  else if negb (fk_ok runway_exists (Flight.runway_id row) d) then
    inl (foreign_key_violation public_flights "flights_runway_id_fkey")
  else inr (with_flights (flights d ++ [row]) d)
  end.

(** UPDATE flights SET ... WHERE id = x *)
Definition flights_update (uid : uuid) (u : Flight.Update) (x : uuid) (d : Db)
    : PgError + Db :=
  let c := ctx_of uid d in
  if negb (rls_using public_flights SELECT c && rls_using public_flights UPDATE c)
  then inr d
  else if negb (flight_exists x d) then inr d
  else
  match flights_conversion u with
  | Some e => inl e
  | None =>
  if negb (rls_check public_flights UPDATE c) then
    inl (rls_violation public_flights)
  else if match Flight.set_flight_number u with
          | Some n => existsb (fun r => negb (N.eqb (Flight.id r) x)
                                        && String.eqb (Flight.flight_number r) n)
                              (flights d)
          | None => false
          end
  then inl (unique_violation "flights_flight_number_key")
  else if match Flight.set_runway_id u with
          | Some v => negb (fk_ok runway_exists v d)
          | None => false
          end
  then inl (foreign_key_violation public_flights "flights_runway_id_fkey")
  else
    inr (with_flights
           (map (fun r => if N.eqb (Flight.id r) x then Flight.apply u r else r)
                (flights d)) d)
  end.

(** DELETE FROM flights WHERE id = x; passengers and alerts of the flight go
    with it (ON DELETE CASCADE). *)
Definition flights_delete (uid x : uuid) (d : Db) : PgError + Db :=
  let c := ctx_of uid d in
  if negb (rls_using public_flights SELECT c && rls_using public_flights DELETE c)
  then inr d
  else if negb (flight_exists x d) then inr d
  else
    inr (with_alerts
           (List.filter (fun a => negb (opt_uuid_eqb (Alert.flight_id a) x)) (alerts d))
        (with_passengers
           (List.filter (fun p => negb (N.eqb (Passenger.flight_id p) x)) (passengers d))
        (with_flights
           (List.filter (fun r => negb (N.eqb (Flight.id r) x)) (flights d)) d))).

(** *** runways *)

Definition runways_insert (uid : uuid) (name : string) (length_meters : Z)
    (status : runway_status) (surface_type : string) (notes : option string)
    (d : Db) : PgError + Db :=
  let new_id := gen_random_uuid (map Runway.id (runways d)) in
  match int4_in (Some length_meters) with
  | Some e => inl e
  | None =>
  if negb (rls_check public_runways INSERT (ctx_of uid d)) then
    inl (rls_violation public_runways)
  else if existsb (fun r => String.eqb (Runway.name r) name) (runways d) then
    inl (unique_violation "runways_name_key")
  else
    inr (with_runways
           (runways d ++ [Runway.mk new_id name length_meters status surface_type notes])
           d)
  end.

Definition runways_update (uid : uuid) (u : Runway.Update) (x : uuid) (d : Db)
    : PgError + Db :=
  let c := ctx_of uid d in
  if negb (rls_using public_runways SELECT c && rls_using public_runways UPDATE c)
  then inr d
  else if negb (runway_exists x d) then inr d
  else
  match int4_in (Runway.set_length_meters u) with
  | Some e => inl e
  | None =>
  if negb (rls_check public_runways UPDATE c) then
    inl (rls_violation public_runways)
  else if match Runway.set_name u with
          | Some n => existsb (fun r => negb (N.eqb (Runway.id r) x)
                                        && String.eqb (Runway.name r) n)
                              (runways d)
          | None => false
          end
  then inl (unique_violation "runways_name_key")
  else
    inr (with_runways
           (map (fun r => if N.eqb (Runway.id r) x then Runway.apply u r else r)
                (runways d)) d)
  end.

(** DELETE FROM runways WHERE id = x; flights that reference the runway are
    detached (ON DELETE SET NULL), alerts that reference it are deleted
    (ON DELETE CASCADE). *)
Definition runways_delete (uid x : uuid) (d : Db) : PgError + Db :=
  let c := ctx_of uid d in
  if negb (rls_using public_runways SELECT c && rls_using public_runways DELETE c)
  then inr d
  else if negb (runway_exists x d) then inr d
  else
    inr (with_alerts
           (List.filter (fun a => negb (opt_uuid_eqb (Alert.runway_id a) x)) (alerts d))
        (with_flights
           (map (fun r => if opt_uuid_eqb (Flight.runway_id r) x
                          then Flight.set_runway_null r else r) (flights d))
        (with_runways
           (List.filter (fun r => negb (N.eqb (Runway.id r) x)) (runways d)) d))).

(** *** passengers *)

(** [upper(text)] and [toUpperCase()] on the ASCII letters; other characters
    are left as they are. *)
Definition upper_char (c : ascii) : ascii :=
  let n := nat_of_ascii c in
  if ((97 <=? n) && (n <=? 122))%nat then ascii_of_nat (n - 32) else c.

Fixpoint upper (s : string) : string :=
  match s with
  | EmptyString => EmptyString
  | String c rest => String (upper_char c) (upper rest)
  end.

(** The column default
    ['TKT-' || upper(substr(md5(random()::text), 1, 8))], for a given value
    of [md5(random()::text)]. *)
Definition ticket_id_default (digest : string) : string :=
  "TKT-" +:+ upper (String.substring 0 8 digest).

Definition passengers_insert (uid : uuid) (ticket : string)
    (p : Passenger.Payload) (d : Db) : PgError + Db :=
  let row :=
    Passenger.inserted (gen_random_uuid (map Passenger.id (passengers d))) ticket p in
  if negb (rls_check public_passengers INSERT (ctx_of uid d)) then
    inl (rls_violation public_passengers)
  else if existsb (fun r => String.eqb (Passenger.ticket_id r) ticket) (passengers d)
  then inl (unique_violation "passengers_ticket_id_key")
  else if negb (flight_exists (Passenger.flight_id row) d) then
    inl (foreign_key_violation public_passengers "passengers_flight_id_fkey")
  else inr (with_passengers (passengers d ++ [row]) d).

(** UPDATE passengers SET ... WHERE id = x, for an update [f] that leaves
    [id] and [ticket_id] alone (both updates of the program do). *)
Definition passengers_update (uid : uuid) (f : Passenger.t -> Passenger.t)
    (x : uuid) (d : Db) : PgError + Db :=
  let c := ctx_of uid d in
  if negb (rls_using public_passengers SELECT c
           && rls_using public_passengers UPDATE c)
  then inr d
  else if negb (existsb (fun r => N.eqb (Passenger.id r) x) (passengers d)) then inr d
  else if negb (rls_check public_passengers UPDATE c) then
    inl (rls_violation public_passengers)
  else if negb (forallb (fun r => negb (N.eqb (Passenger.id r) x)
                                  || flight_exists (Passenger.flight_id (f r)) d)
                        (passengers d))
  then inl (foreign_key_violation public_passengers "passengers_flight_id_fkey")
  else
    inr (with_passengers
           (map (fun r => if N.eqb (Passenger.id r) x then f r else r) (passengers d))
           d).

Definition passengers_delete (uid x : uuid) (d : Db) : PgError + Db :=
  let c := ctx_of uid d in
  if negb (rls_using public_passengers SELECT c
           && rls_using public_passengers DELETE c)
  then inr d
  else
    inr (with_passengers
           (List.filter (fun r => negb (N.eqb (Passenger.id r) x)) (passengers d)) d).

(** *** alerts *)

Definition alerts_insert (uid : uuid) (p : Alert.Payload) (d : Db)
    : PgError + Db :=
  let new_id := gen_random_uuid (map Alert.id (alerts d)) in
  if negb (rls_check public_alerts INSERT (ctx_of uid d)) then
    inl (rls_violation public_alerts)
  else if negb (fk_ok flight_exists (Alert.p_flight_id p) d) then
    inl (foreign_key_violation public_alerts "alerts_flight_id_fkey")
  else inr (with_alerts (alerts d ++ [Alert.inserted new_id p]) d).

(** UPDATE alerts SET ... WHERE id = x, for an update [f] of columns without
    constraints. *)
Definition alerts_update (uid : uuid) (f : Alert.t -> Alert.t) (x : uuid) (d : Db)
    : PgError + Db :=
  let c := ctx_of uid d in
  if negb (rls_using public_alerts SELECT c && rls_using public_alerts UPDATE c)
  then inr d
  else if negb (existsb (fun r => N.eqb (Alert.id r) x) (alerts d)) then inr d
  else if negb (rls_check public_alerts UPDATE c) then
    inl (rls_violation public_alerts)
  else
    inr (with_alerts
           (map (fun r => if N.eqb (Alert.id r) x then f r else r) (alerts d)) d).

(** *** activity_log *)

Definition activity_log_insert (uid : uuid) (user_id : option uuid)
    (action entity_type : string) (entity_id : option uuid)
    (details : list (string * string)) (d : Db) : PgError + Db :=
  let new_id := gen_random_uuid (map ActivityLog.id (activity_log d)) in
  if negb (rls_check public_activity_log INSERT
             {| auth_uid := uid; roles_table := user_roles d;
                row_id := None; row_user_id := user_id |})
  then inl (rls_violation public_activity_log)
  else
    inr (with_activity_log
           (activity_log d
            ++ [ActivityLog.mk new_id user_id action entity_type entity_id details])
           d).

(** *** user_roles *)

(** The primary key and the UNIQUE constraints of each table, as sets of
    columns. *)
Definition unique_constraints (t : table) : list (list string) :=
  match t with
  | public_profiles => [["id"]]
  | public_user_roles => [["id"]; ["user_id"; "role"]]
  | public_runways => [["id"]; ["name"]]
  | public_flights => [["id"]; ["flight_number"]]
  | public_passengers => [["id"]; ["ticket_id"]]
  | public_activity_log => [["id"]]
  | public_alerts => [["id"]]
  end.

Definition same_columns (a b : list string) : bool :=
  forallb (fun x => existsb (String.eqb x) b) a
  && forallb (fun x => existsb (String.eqb x) a) b.

(** Whether [a] and [b] collide on the columns [cols] of user_roles. *)
Definition user_roles_collide (cols : list string) (a b : UserRole.t) : bool :=
  forallb (fun c =>
             if String.eqb c "id" then N.eqb (UserRole.id a) (UserRole.id b)
             else if String.eqb c "user_id" then
               N.eqb (UserRole.user_id a) (UserRole.user_id b)
             else if String.eqb c "role" then
               app_role_eqb (UserRole.role a) (UserRole.role b)
             else false) cols.

Definition user_roles_violation (row : UserRole.t) (others : list UserRole.t)
    : option PgError :=
  if existsb (user_roles_collide ["user_id"; "role"] row) others then
    Some (unique_violation "user_roles_user_id_role_key")
  else None.

Definition user_roles_insert (uid user_id : uuid) (role : app_role) (d : Db)
    : PgError + Db :=
  let row :=
    UserRole.mk (gen_random_uuid (map UserRole.id (user_roles d))) user_id role in
  if negb (rls_check public_user_roles INSERT (ctx_of uid d)) then
    inl (rls_violation public_user_roles)
  else match user_roles_violation row (user_roles d) with
       | Some e => inl e
       | None => inr (with_user_roles (user_roles d ++ [row]) d)
       end.

(** INSERT INTO user_roles (user_id, role) VALUES (...)
    ON CONFLICT (onConflict) DO UPDATE SET user_id = EXCLUDED.user_id,
    role = EXCLUDED.role.  The conflict target must name exactly the columns
    of a unique constraint of the table; the statement is rejected
    otherwise, before any row is looked at. *)
Definition user_roles_upsert (uid user_id : uuid) (role : app_role)
    (onConflict : list string) (d : Db) : PgError + Db :=
  let c := ctx_of uid d in
  let row :=
    UserRole.mk (gen_random_uuid (map UserRole.id (user_roles d))) user_id role in
  if negb (existsb (same_columns onConflict) (unique_constraints public_user_roles))
  then inl no_conflict_target
  else if negb (rls_check public_user_roles INSERT c) then
    inl (rls_violation public_user_roles)
  else if existsb (user_roles_collide onConflict row) (user_roles d) then
    if negb (rls_using public_user_roles SELECT c
             && rls_using public_user_roles UPDATE c
             && rls_check public_user_roles UPDATE c)
    then inl (rls_violation public_user_roles)
    else
      let merged r := UserRole.mk (UserRole.id r) user_id role in
      let rows :=
        map (fun r => if user_roles_collide onConflict row r then merged r else r)
            (user_roles d) in
      if existsb (fun r => user_roles_collide onConflict row r
                           && existsb (fun o => negb (N.eqb (UserRole.id o) (UserRole.id r))
                                                && user_roles_collide ["user_id"; "role"]
                                                     (merged r) o)
                                      (user_roles d))
                 (user_roles d)
      then inl (unique_violation "user_roles_user_id_role_key")
      else inr (with_user_roles rows d)
  else match user_roles_violation row (user_roles d) with
       | Some e => inl e
       | None => inr (with_user_roles (user_roles d ++ [row]) d)
       end.

(** The trigger [on_auth_user_created] (function [handle_new_user],
    SECURITY DEFINER: no policy applies): a profile and the default role. *)
Definition handle_new_user (NEW_id : uuid) (full_name email : option string)
    (d : Db) : PgError + Db :=
  let new_id := gen_random_uuid (map UserRole.id (user_roles d)) in
  if existsb (fun p => N.eqb (Profile.id p) NEW_id) (profiles d) then
    inl (unique_violation "profiles_pkey")
  else
    let d1 :=
      with_profiles
        (profiles d ++ [Profile.mk NEW_id (default EmptyString full_name)
                                   (default EmptyString email)]) d in
    match user_roles_violation (UserRole.mk new_id NEW_id staff) (user_roles d1) with
    | Some e => inl e
    | None =>
        inr (with_user_roles (user_roles d1 ++ [UserRole.mk new_id NEW_id staff]) d1)
    end.

(** ** The client: requests, toasts and the handler monad *)

Record Request := mkRequest {
  rq_table : table;
  rq_command : command;
  rq_id : option uuid          (* the [.eq("id", x)] filter, when there is one *)
}.

(** [toast({ title, description, variant })]; [description] is the empty
    string when the call gives none, [destructive] says whether the variant
    is "destructive". *)
Module Toast.
Record t := mk { title : string; description : string; destructive : bool }.
End Toast.

(** What a handler runs against.  [now] is the reading of the clock, a
    current date (one with a year of four digits).  [faults] says, request
    by request, whether the transport loses it (an empty list: none is
    lost); [wire] and [toasts] record what was sent and shown, oldest
    first.  [passed] is
    a history variable, not part of the program: for every stored flight,
    the statuses it has been stored with (see [remember]). *)
Record World := mkWorld {
  db : Db;
  now : timestamptz;
  entropy : N;
  faults : list bool;
  wire : list Request;
  toasts : list Toast.t;
  passed : list (uuid * flight_status)
}.

Definition observe (d : Db) : list (uuid * flight_status) :=
  map (fun f => (Flight.id f, Flight.status f)) (flights d).

(** The history after a statement has left the store [d]: the statuses the
    flights have now, and what was known of the flights that are still
    stored (the history of a flight goes with the flight). *)
Definition remember (d : Db) (ps : list (uuid * flight_status))
    : list (uuid * flight_status) :=
  (observe d ++ List.filter (fun p => flight_exists (fst p) d) ps)%list.

Definition M (A : Type) : Type := World -> A * World.

Definition ret {A : Type} (a : A) : M A := fun w => (a, w).

Definition bind {A B : Type} (m : M A) (k : A -> M B) : M B :=
  fun w => let (a, w') := m w in k a w'.

Notation "x <- c ;; k" := (bind c (fun x => k))
  (at level 100, c at next level, right associativity).
Notation "c ;; k" := (bind c (fun _ => k))
  (at level 100, right associativity).

(** The world a handler leaves behind. *)
Definition exec {A : Type} (m : M A) (w : World) : World := snd (m w).

(** [await supabase.from(t)...]: the request goes on the wire; unless the
    transport loses it, the store runs the statement (its [random()]
    being draw number [entropy]) and answers with the error, if any. *)
Definition send (rq : Request) (stmt : N -> Db -> PgError + Db)
    : M (option PgError) :=
  fun w =>
    let sent := (wire w ++ [rq])%list in
    match faults w with
    | true :: rest =>
        (Some transport_failure,
         mkWorld (db w) (now w) (entropy w) rest sent (toasts w) (passed w))
    | _ =>
        match stmt (entropy w) (db w) with
        | inl e =>
            (Some e,
             mkWorld (db w) (now w) (N.succ (entropy w)) (tl (faults w)) sent
                     (toasts w) (passed w))
        | inr d =>
            (None,
             mkWorld d (now w) (N.succ (entropy w)) (tl (faults w)) sent
                     (toasts w) (remember d (passed w)))
        end
    end.

Definition toast (title description : string) (destructive : bool) : M unit :=
  fun w =>
    (tt, mkWorld (db w) (now w) (entropy w) (faults w) (wire w)
                 (toasts w ++ [Toast.mk title description destructive])%list (passed w)).

(** [new Date().toISOString()] *)
Definition Date_now : M timestamptz := fun w => (now w, w).

(** [s || null] on a string. *)
Definition or_null (s : string) : option string :=
  if String.eqb s EmptyString then None else Some s.

(** [s || t] on strings. *)
Definition or_else (s t : string) : string :=
  if String.eqb s EmptyString then t else s.

(** lib/supabase.ts *)
Definition logActivity (session userId : uuid) (action entityType : string)
    (entityId : option uuid) (details : list (string * string)) : M unit :=
  _ <- send (mkRequest public_activity_log INSERT None)
            (fun _ => activity_log_insert session (Some userId) action entityType
                        entityId details) ;;
  ret tt.

(** [await supabase.from(t).select(...)]: a read.  Every SELECT policy of
    the schema is [USING (true)], so a read that is delivered sees the whole
    table; a lost one leaves [data] null ([None]). *)
Definition select {A : Type} (rq : Request) (query : Db -> A) : M (option A) :=
  fun w =>
    let sent := (wire w ++ [rq])%list in
    match faults w with
    | true :: rest =>
        (None, mkWorld (db w) (now w) (entropy w) rest sent (toasts w) (passed w))
    | _ =>
        (Some (query (db w)),
         mkWorld (db w) (now w) (entropy w) (tl (faults w)) sent (toasts w)
                 (passed w))
    end.

(** [.single()]: the row when exactly one row matches, null otherwise. *)
Definition single {A : Type} (rows : list A) : option A :=
  match rows with
  | [r] => Some r
  | _ => None
  end.

(** [.order(column)], ascending: an insertion sort on the key (the engine
    leaves the order of rows with equal keys open). *)
Fixpoint insert_by {A : Type} (key : A -> Z) (x : A) (l : list A) : list A :=
  match l with
  | [] => [x]
  | y :: rest => if key x <=? key y then x :: l else y :: insert_by key x rest
  end.

Definition order_by {A : Type} (key : A -> Z) (l : list A) : list A :=
  fold_right (insert_by key) [] l.

(** [trim()], [toLowerCase()] and [includes()] on ASCII text: the white
    space is the space and the characters 9 to 13. *)
Definition is_space (c : ascii) : bool :=
  let n := nat_of_ascii c in
  ((n =? 32) || ((9 <=? n) && (n <=? 13)))%nat.

Fixpoint trim_start (s : string) : string :=
  match s with
  | EmptyString => EmptyString
  | String c rest => if is_space c then trim_start rest else s
  end.

Fixpoint trim_end (s : string) : string :=
  match s with
  | EmptyString => EmptyString
  | String c rest =>
      match trim_end rest with
      | EmptyString => if is_space c then EmptyString else String c EmptyString
      | kept => String c kept
      end
  end.

Definition trim (s : string) : string := trim_end (trim_start s).

Definition lower_char (c : ascii) : ascii :=
  let n := nat_of_ascii c in
  if ((65 <=? n) && (n <=? 90))%nat then ascii_of_nat (n + 32) else c.

Fixpoint lower (s : string) : string :=
  match s with
  | EmptyString => EmptyString
  | String c rest => String (lower_char c) (lower rest)
  end.

Fixpoint includes (s pattern : string) : bool :=
  String.prefix pattern s
  || match s with
     | EmptyString => false
     | String _ rest => includes rest pattern
     end.

(** Lines of a handler that only touch component state (setSaving,
    setShowForm, the refetch that refreshes a list) are not modelled; the
    component state a handler reads is an argument. *)

(** *** pages/Flights.tsx *)

Module Flights.

Record Form := mkForm {
  flight_number : string;
  airline : string;
  origin : string;
  destination : string;
  status : flight_status;
  scheduled_departure : option timestamptz;   (* [None]: the empty input *)
  scheduled_arrival : option timestamptz;
  runway_id : option uuid;                    (* [None]: the empty string *)
  gate : string;
  aircraft_type : string;
  capacity : Z;
  notes : string
}.

Definition find_flight (cache : list Flight.t) (x : uuid) : option Flight.t :=
  List.find (fun fl => N.eqb (Flight.id fl) x) cache.

(** [${f?.flight_number}] *)
Definition number_of (f : option Flight.t) : string :=
  match f with
  | Some f => Flight.flight_number f
  | None => "undefined"
  end.

Definition payload (user : uuid) (form : Form) (dep arr : timestamptz)
    : Flight.Update :=
  Flight.mkUpdate
    (Some (upper (flight_number form)))
    (Some (airline form))
    (Some (upper (origin form)))
    (Some (upper (destination form)))
    (Some (status form))
    (Some dep) (Some arr) None None
    (Some (runway_id form))
    (Some (or_null (gate form)))
    (Some (aircraft_type form))
    (Some (capacity form))
    (Some (Some user))
    (Some (or_null (notes form))).

Definition handleSave (user : uuid) (form : Form) (editId : option uuid) : M unit :=
  match scheduled_departure form, scheduled_arrival form with
  | Some dep, Some arr =>
    if String.eqb (flight_number form) EmptyString
       || String.eqb (airline form) EmptyString
       || String.eqb (origin form) EmptyString
       || String.eqb (destination form) EmptyString
    then toast "Validation Error" "Please fill all required fields." true
    else
      let p := payload user form dep arr in
      let number := upper (flight_number form) in
      match editId with
      | Some editId =>
          error <- send (mkRequest public_flights UPDATE (Some editId))
                        (fun _ => flights_update user p editId) ;;
          match error with
          | Some e => toast "Error" (error_message e) true
          | None =>
              toast "Flight Updated" (number +:+ " updated successfully.") false ;;
              logActivity user user ("Updated flight " +:+ number) "flight"
                          (Some editId) []
          end
      | None =>
          error <- send (mkRequest public_flights INSERT None)
                        (fun _ => flights_insert user p) ;;
          match error with
          | Some e => toast "Error" (error_message e) true
          | None =>
              toast "Flight Added" (number +:+ " added successfully.") false ;;
              logActivity user user
                ("Added flight " +:+ number +:+ " (" +:+ upper (origin form)
                 +:+ " → " +:+ upper (destination form) +:+ ")")
                "flight" None []
          end
      end
  | _, _ => toast "Validation Error" "Please fill all required fields." true
  end.

Definition handleDelete (user : uuid) (cache : list Flight.t)
    (deleteId : option uuid) : M unit :=
  match deleteId with
  | None => ret tt
  | Some deleteId =>
      let f := find_flight cache deleteId in
      error <- send (mkRequest public_flights DELETE (Some deleteId))
                    (fun _ => flights_delete user deleteId) ;;
      match error with
      | Some e => toast "Error" (error_message e) true
      | None =>
          toast "Flight Deleted" (number_of f +:+ " removed.") false ;;
          logActivity user user ("Deleted flight " +:+ number_of f) "flight"
                      (Some deleteId) []
      end
  end.

Definition handleStatusChange (user : uuid) (cache : list Flight.t)
    (flightId : uuid) (newStatus : flight_status) : M unit :=
  let f := find_flight cache flightId in
  error <- send (mkRequest public_flights UPDATE (Some flightId))
                (fun _ => flights_update user (Flight.only_status newStatus) flightId) ;;
  match error with
  | Some e => toast "Error" (error_message e) true
  | None =>
      toast "Status Updated"
            (number_of f +:+ " is now " +:+ flight_status_text newStatus +:+ ".")
            false ;;
      logActivity user user
        ("Changed " +:+ number_of f +:+ " status to " +:+ flight_status_text newStatus)
        "flight" (Some flightId) []
  end.

(** [filtered]: the rows the table shows for a search text and a status
    filter ([None]: "all"). *)
Definition filtered (flights : list Flight.t) (search : string)
    (statusFilter : option flight_status) : list Flight.t :=
  List.filter
    (fun f =>
       let matchSearch :=
         includes (lower (Flight.flight_number f)) (lower search)
         || includes (lower (Flight.airline f)) (lower search)
         || includes (lower (Flight.origin f)) (lower search)
         || includes (lower (Flight.destination f)) (lower search) in
       let matchStatus :=
         match statusFilter with
         | None => true
         | Some s => flight_status_eqb (Flight.status f) s
         end in
       matchSearch && matchStatus)
    flights.

End Flights.

(** *** pages/ATCPanel.tsx *)

Module ATCPanel.

Inductive Action := landing | takeoff | delay | cancel | act_emergency.

Definition action_text (a : Action) : string :=
  match a with
  | landing => "landing" | takeoff => "takeoff" | delay => "delay"
  | cancel => "cancel" | act_emergency => "emergency"
  end.

Record PendingAction := mkPending {
  flightId : uuid;
  flightNumber : string;
  action : Action;
  newStatus : flight_status;
  title : string;
  description : string
}.

Definition statusMap (a : Action) : flight_status :=
  match a with
  | landing => landed | takeoff => departed | delay => delayed
  | cancel => cancelled | act_emergency => emergency
  end.

Definition titleMap (a : Action) : string :=
  match a with
  | landing => "Approve Landing" | takeoff => "Approve Takeoff"
  | delay => "Delay Flight" | cancel => "Cancel Flight"
  | act_emergency => "Activate Emergency"
  end.

Definition descMap (a : Action) (number : string) : string :=
  match a with
  | landing => "Approve landing clearance for " +:+ number +:+ "?"
  | takeoff => "Approve takeoff clearance for " +:+ number +:+ "?"
  | delay => "Mark " +:+ number +:+ " as delayed?"
  | cancel => "Cancel flight " +:+ number +:+ "? This will release the runway."
  | act_emergency =>
      "Declare EMERGENCY for " +:+ number +:+ "? This will trigger alerts."
  end.

(** The statuses in which the button of an action is enabled. *)
Definition validStatuses (a : Action) : list flight_status :=
  match a with
  | landing => [boarding; scheduled]
  | takeoff => [boarding; scheduled]
  | delay => [scheduled; boarding]
  | cancel => [scheduled; boarding; delayed]
  | act_emergency => [scheduled; boarding; delayed; landed]
  end.

(** [confirmAction]: the pending action a click sets up; a delay opens the
    delay dialog instead ([None]). *)
Definition confirmAction (flight : Flight.t) (a : Action) : option PendingAction :=
  match a with
  | delay => None
  | _ =>
      Some (mkPending (Flight.id flight) (Flight.flight_number flight) a
                      (statusMap a) (titleMap a)
                      (descMap a (Flight.flight_number flight)))
  end.

(** [["landed", "cancelled", "departed"].includes(s)] *)
Definition releases_runway (s : flight_status) : bool :=
  match s with
  | landed | cancelled | departed => true
  | _ => false
  end.

(** [["emergency", "cancelled"].includes(s)] *)
Definition raises_alert (s : flight_status) : bool :=
  match s with
  | emergency | cancelled => true
  | _ => false
  end.

(** The [updates] object of [executeAction]; [release] says whether the
    runway branch was taken. *)
Definition updates (s : flight_status) (t : timestamptz) (release : bool)
    : Flight.Update :=
  Flight.mkUpdate None None None None (Some s) None None
    (if flight_status_eqb s departed then Some (Some t) else None)
    (if flight_status_eqb s landed then Some (Some t) else None)
    (if release then Some None else None)
    None None None None None.

Definition executeAction (user : uuid) (flights : list Flight.t)
    (pendingAction : option PendingAction) (emergencyNote : string) : M unit :=
  match pendingAction with
  | None => ret tt
  | Some pa =>
      t <- Date_now ;;
      (* Release runway on landing/cancel *)
      release <-
        (if releases_runway (newStatus pa) then
           match List.find (fun fl => N.eqb (Flight.id fl) (flightId pa)) flights with
           | Some f =>
               match Flight.runway_id f with
               | Some rid =>
                   _ <- send (mkRequest public_runways UPDATE (Some rid))
                             (fun _ => runways_update user
                                         (Runway.only_status available) rid) ;;
                   ret true
               | None => ret false
               end
           | None => ret false
           end
         else ret false) ;;
      error <- send (mkRequest public_flights UPDATE (Some (flightId pa)))
                    (fun _ => flights_update user
                                (updates (newStatus pa) t release) (flightId pa)) ;;
      match error with
      | Some e => toast "Error" (error_message e) true
      | None =>
          toast (title pa) (flightNumber pa +:+ " status updated.") false ;;
          logActivity user user
            ("ATC: " +:+ title pa +:+ " for " +:+ flightNumber pa) "flight"
            (Some (flightId pa)) [("action", action_text (action pa))] ;;
          (* Create alert for significant events *)
          if raises_alert (newStatus pa) then
            _ <- send (mkRequest public_alerts INSERT None)
                      (fun _ => alerts_insert user
                         (Alert.mkPayload
                            (if flight_status_eqb (newStatus pa) emergency
                             then "EMERGENCY: " +:+ flightNumber pa
                             else "Flight Cancelled: " +:+ flightNumber pa)
                            (or_else emergencyNote
                               (flightNumber pa +:+ " status changed to "
                                +:+ flight_status_text (newStatus pa)))
                            (if flight_status_eqb (newStatus pa) emergency
                             then sev_emergency else critical)
                            (Some (flightId pa)) user)) ;;
            ret tt
          else ret tt
      end
  end.

(** The largest time value of a JavaScript [Date]; a [Date] past it is
    invalid and [toISOString] throws. *)
Definition Date_max : Z := 8640000000000000.

Definition Date_valid (t : Z) : bool :=
  (- Date_max <=? t) && (t <=? Date_max).

Definition handleDelay (user : uuid) (showDelay : option Flight.t)
    (delayMinutes : Z) (delayReason : string) : M unit :=
  match showDelay with
  | None => ret tt
  | Some f =>
      let newDep := Flight.scheduled_departure f + delayMinutes * 60000 in
      let newArr := Flight.scheduled_arrival f + delayMinutes * 60000 in
      if negb (Date_valid (Flight.scheduled_departure f)
               && Date_valid (Flight.scheduled_arrival f)
               && Date_valid newDep && Date_valid newArr) then
        ret tt                      (* RangeError: nothing is sent *)
      else
        error <- send (mkRequest public_flights UPDATE (Some (Flight.id f)))
                      (fun _ => flights_update user
                         (Flight.mkUpdate None None None None (Some delayed)
                            (Some newDep) (Some newArr) None None None None None
                            None None
                            (Some (if String.eqb delayReason EmptyString
                                   then Flight.notes f else Some delayReason)))
                         (Flight.id f)) ;;
        match error with
        | Some e => toast "Error" (error_message e) true
        | None =>
            toast "Flight Delayed"
                  (Flight.flight_number f +:+ " delayed by " +:+ pretty delayMinutes
                   +:+ " minutes.") false ;;
            logActivity user user
              ("Delayed " +:+ Flight.flight_number f +:+ " by "
               +:+ pretty delayMinutes +:+ " min: " +:+ delayReason)
              "flight" (Some (Flight.id f)) [] ;;
            _ <- send (mkRequest public_alerts INSERT None)
                      (fun _ => alerts_insert user
                         (Alert.mkPayload
                            ("Flight Delayed: " +:+ Flight.flight_number f)
                            (Flight.flight_number f +:+ " delayed by "
                             +:+ pretty delayMinutes +:+ " minutes. Reason: "
                             +:+ or_else delayReason "Not specified")
                            warning (Some (Flight.id f)) user)) ;;
            ret tt
        end
  end.

(** [fetchData]: the flights whose status is not landed, cancelled or
    departed, by scheduled departure, and the runways. *)
Definition fetchData (d : Db) : list Flight.t * list Runway.t :=
  (order_by Flight.scheduled_departure
     (List.filter (fun f => negb (releases_runway (Flight.status f))) (flights d)),
   runways d).

(** Whether the button of action [a] is enabled on the row of flight [f]
    ([disabled={!a.validStatuses.includes(f.status)}]). *)
Definition enabled (f : Flight.t) (a : Action) : bool :=
  existsb (flight_status_eqb (Flight.status f)) (validStatuses a).

End ATCPanel.

(** *** pages/Runways.tsx *)

Module Runways.

Record AssignedFlight := mkAssigned {
  id : uuid;
  flight_number : string;
  airline : string;
  status : flight_status
}.

Record Form := mkForm {
  name : string;
  length_meters : Z;
  form_status : runway_status;
  surface_type : string;
  notes : string
}.

(** [.not("status", "in", '("landed","cancelled","departed")')] *)
Definition active (s : flight_status) : bool :=
  match s with
  | landed | cancelled | departed => false
  | _ => true
  end.

(** [fetchAssignedFlights]: the flights with a runway and an active
    status, keyed by runway; a later row of the result replaces an earlier
    one with the same runway. *)
Definition fetchAssignedFlights (d : Db) : gmap uuid AssignedFlight :=
  fold_left
    (fun (m : gmap uuid AssignedFlight) f =>
       match Flight.runway_id f with
       | Some rid =>
           <[rid := mkAssigned (Flight.id f) (Flight.flight_number f)
                               (Flight.airline f) (Flight.status f)]> m
       | None => m
       end)
    (List.filter (fun f => match Flight.runway_id f with
                           | Some _ => active (Flight.status f)
                           | None => false
                           end) (flights d))
    ∅.

Definition name_of (r : option Runway.t) : string :=
  match r with
  | Some r => Runway.name r
  | None => "undefined"
  end.

Definition find_runway (cache : list Runway.t) (x : uuid) : option Runway.t :=
  List.find (fun r => N.eqb (Runway.id r) x) cache.

Definition handleSave (user : uuid) (form : Form) (editId : option uuid) : M unit :=
  if String.eqb (name form) EmptyString then
    toast "Validation Error" "Name is required." true
  else
    match editId with
    | Some editId =>
        error <- send (mkRequest public_runways UPDATE (Some editId))
                      (fun _ => runways_update user
                         (Runway.mkUpdate (Some (name form)) (Some (length_meters form))
                            (Some (form_status form)) (Some (surface_type form))
                            (Some (or_null (notes form))))
                         editId) ;;
        match error with
        | Some e => toast "Error" (error_message e) true
        | None =>
            toast "Runway Updated" EmptyString false ;;
            logActivity user user ("Updated runway " +:+ name form) "runway"
                        (Some editId) []
        end
    | None =>
        error <- send (mkRequest public_runways INSERT None)
                      (fun _ => runways_insert user (name form) (length_meters form)
                                  (form_status form) (surface_type form)
                                  (or_null (notes form))) ;;
        match error with
        | Some e => toast "Error" (error_message e) true
        | None =>
            toast "Runway Created" (name form +:+ " added.") false ;;
            logActivity user user ("Created runway " +:+ name form) "runway" None []
        end
    end.

Definition handleDelete (user : uuid) (cache : list Runway.t)
    (deleteId : option uuid) : M unit :=
  match deleteId with
  | None => ret tt
  | Some deleteId =>
      let r := find_runway cache deleteId in
      error <- send (mkRequest public_runways DELETE (Some deleteId))
                    (fun _ => runways_delete user deleteId) ;;
      match error with
      | Some e => toast "Error" (error_message e) true
      | None =>
          toast "Runway Deleted" (name_of r +:+ " removed.") false ;;
          logActivity user user ("Deleted runway " +:+ name_of r) "runway"
                      (Some deleteId) []
      end
  end.

Definition handleStatusChange (user : uuid) (cache : list Runway.t)
    (assignedFlights : gmap uuid AssignedFlight)
    (runwayId : uuid) (newStatus : runway_status) : M unit :=
  let r := find_runway cache runwayId in
  if runway_status_eqb newStatus available
     && bool_decide (is_Some (assignedFlights !! runwayId))
  then
    toast "Cannot Set Available" "This runway has an active flight assignment." true
  else
    error <- send (mkRequest public_runways UPDATE (Some runwayId))
                  (fun _ => runways_update user (Runway.only_status newStatus) runwayId) ;;
    match error with
    | Some e => toast "Error" (error_message e) true
    | None =>
        toast "Status Updated"
              (name_of r +:+ " is now " +:+ runway_status_text newStatus +:+ ".")
              false ;;
        logActivity user user
          ("Changed " +:+ name_of r +:+ " status to " +:+ runway_status_text newStatus)
          "runway" (Some runwayId) []
    end.

End Runways.

(** *** pages/Alerts.tsx *)

Module Alerts.

Record Form := mkForm {
  title : string;
  message : string;
  severity : alert_severity;
  flight_id : option uuid          (* [None]: the empty string *)
}.

Definition handleAcknowledge (user alertId : uuid) : M unit :=
  t <- Date_now ;;
  error <- send (mkRequest public_alerts UPDATE (Some alertId))
                (fun _ => alerts_update user (Alert.acknowledge user t) alertId) ;;
  match error with
  | Some e => toast "Error" (error_message e) true
  | None =>
      toast "Alert Acknowledged" EmptyString false ;;
      logActivity user user "Acknowledged alert" "alert" (Some alertId) []
  end.

Definition handleCreate (user : uuid) (form : Form) : M unit :=
  if String.eqb (title form) EmptyString || String.eqb (message form) EmptyString
  then toast "Validation Error" "Title and message required." true
  else
    error <- send (mkRequest public_alerts INSERT None)
                  (fun _ => alerts_insert user
                     (Alert.mkPayload (title form) (message form) (severity form)
                                      (flight_id form) user)) ;;
    match error with
    | Some e => toast "Error" (error_message e) true
    | None =>
        toast "Alert Created"
              (match severity form with
               | sev_emergency => "EMERGENCY ALERT TRIGGERED!"
               | _ => "Alert created."
               end) false ;;
        logActivity user user
          ("Created " +:+ severity_text (severity form) +:+ " alert: " +:+ title form)
          "alert" None []
    end.

Inductive Filter := filter_all | filter_active | filter_acknowledged.

Definition alert_severity_eqb (a b : alert_severity) : bool :=
  match a, b with
  | info, info | warning, warning | critical, critical
  | sev_emergency, sev_emergency => true
  | _, _ => false
  end.

(** [filtered]: the alerts the list shows ([None]: all severities). *)
Definition filtered (alerts : list Alert.t) (filter : Filter)
    (severityFilter : option alert_severity) : list Alert.t :=
  List.filter
    (fun a =>
       let matchFilter :=
         match filter with
         | filter_all => true
         | filter_active => Alert.is_active a && negb (Alert.is_acknowledged a)
         | filter_acknowledged => Alert.is_acknowledged a
         end in
       let matchSeverity :=
         match severityFilter with
         | None => true
         | Some s => alert_severity_eqb (Alert.severity a) s
         end in
       matchFilter && matchSeverity)
    alerts.

(** [counts.total] and [counts[s]]: the alerts not acknowledged, and those
    among them of severity [s]. *)
Definition counts_total (alerts : list Alert.t) : nat :=
  length (List.filter (fun a => negb (Alert.is_acknowledged a)) alerts).

Definition counts (alerts : list Alert.t) (s : alert_severity) : nat :=
  length (List.filter (fun a => alert_severity_eqb (Alert.severity a) s)
            (List.filter (fun a => negb (Alert.is_acknowledged a)) alerts)).

End Alerts.

(** *** pages/Dashboard.tsx *)

Module Dashboard.

Record Stats := mkStats {
  totalFlights : nat;
  activeFlights : nat;
  delayedFlights : nat;
  emergencies : nat;
  totalPassengers : nat;
  availableRunways : nat;
  scheduledFlights : nat;
  cancelledFlights : nat
}.

(** The state of the page after [fetchData].  The six flights listed
    ([f.slice(0, 6)] of a read without ORDER BY) are left out: which rows
    come first is up to the engine. *)
Record Data := mkData {
  stats : Stats;
  activities : list ActivityLog.t;
  alerts_shown : list Alert.t             (* the state [alerts] *)
}.

Definition has_status (s : flight_status) (x : Flight.t) : bool :=
  flight_status_eqb (Flight.status x) s.

(** [fetchData], when its five reads are delivered.  The activity log
    and the alerts are kept here in the order of creation ([created_at] is
    set once, when a row is inserted), so
    [order("created_at", descending)] is the table read backwards. *)
Definition fetchData (d : Db) : Data :=
  let f := flights d in
  mkData
    (mkStats
       (length f)
       (length (List.filter (fun x => has_status boarding x || has_status departed x) f))
       (length (List.filter (has_status delayed) f))
       (length (List.filter (has_status emergency) f))
       (length (passengers d))
       (length (List.filter (fun r => runway_status_eqb (Runway.status r) available)
                            (runways d)))
       (length (List.filter (has_status scheduled) f))
       (length (List.filter (has_status cancelled) f)))
    (firstn 10 (rev (activity_log d)))
    (firstn 5 (rev (List.filter (fun a => Alert.is_active a
                                          && negb (Alert.is_acknowledged a))
                                (alerts d)))).

(** [statCards]: the label and the value of the eight cards.  No card
    shows [cancelledFlights]. *)
Definition statCards (data : Data) : list (string * nat) :=
  [ ("Total Flights", totalFlights (stats data));
    ("Active Flights", activeFlights (stats data));
    ("Delayed", delayedFlights (stats data));
    ("Emergencies", emergencies (stats data));
    ("Passengers", totalPassengers (stats data));
    ("Available Runways", availableRunways (stats data));
    ("Scheduled", scheduledFlights (stats data));
    ("Active Alerts", length (alerts_shown data)) ].

End Dashboard.

(** *** pages/Passengers.tsx *)

Module Passengers.

Record Form := mkForm {
  flight_id : option uuid;          (* [None]: the empty string *)
  first_name : string;
  last_name : string;
  passport_number : string;
  seat_number : string;
  nationality : string;
  boarding_status : passenger_boarding_status
}.

Definition find_passenger (cache : list Passenger.t) (x : uuid)
    : option Passenger.t :=
  List.find (fun p => N.eqb (Passenger.id p) x) cache.

Definition full_name_of (p : option Passenger.t) : string :=
  match p with
  | Some p => Passenger.first_name p +:+ " " +:+ Passenger.last_name p
  | None => "undefined undefined"
  end.

Section Store.
(** [md5] is the engine's; [random_text n] is the text of the value
    [random()] returns on draw [n]. *)
Variable md5 : string -> string.
Variable random_text : N -> string.

Definition handleSave (user : uuid) (form : Form) (editId : option uuid)
    : M unit :=
  match flight_id form with
  | None => toast "Validation Error" "Please fill all required fields." true
  | Some fid =>
    if String.eqb (first_name form) EmptyString
       || String.eqb (last_name form) EmptyString
       || String.eqb (passport_number form) EmptyString
    then toast "Validation Error" "Please fill all required fields." true
    else
      let payload :=
        Passenger.mkPayload fid (first_name form) (last_name form)
          (passport_number form) (or_null (seat_number form))
          (or_else (nationality form) "Unknown") (boarding_status form) in
      let who := first_name form +:+ " " +:+ last_name form in
      match editId with
      | Some editId =>
          error <- send (mkRequest public_passengers UPDATE (Some editId))
                        (fun _ => passengers_update user (Passenger.apply payload)
                                    editId) ;;
          match error with
          | Some e => toast "Error" (error_message e) true
          | None =>
              toast "Passenger Updated" EmptyString false ;;
              logActivity user user ("Updated passenger " +:+ who) "passenger"
                          (Some editId) []
          end
      | None =>
          error <- send (mkRequest public_passengers INSERT None)
                        (fun n => passengers_insert user
                                    (ticket_id_default (md5 (random_text n)))
                                    payload) ;;
          match error with
          | Some e => toast "Error" (error_message e) true
          | None =>
              toast "Passenger Added" (who +:+ " added.") false ;;
              logActivity user user ("Added passenger " +:+ who) "passenger"
                          None []
          end
      end
  end.
End Store.

Definition handleDelete (user : uuid) (cache : list Passenger.t)
    (deleteId : option uuid) : M unit :=
  match deleteId with
  | None => ret tt
  | Some deleteId =>
      let p := find_passenger cache deleteId in
      error <- send (mkRequest public_passengers DELETE (Some deleteId))
                    (fun _ => passengers_delete user deleteId) ;;
      match error with
      | Some e => toast "Error" (error_message e) true
      | None =>
          toast "Passenger Removed" (full_name_of p +:+ " removed.") false ;;
          logActivity user user ("Removed passenger " +:+ full_name_of p)
                      "passenger" (Some deleteId) []
      end
  end.

Definition handleBoardingUpdate (user : uuid) (cache : list Passenger.t)
    (passengerId : uuid) (newStatus : passenger_boarding_status) : M unit :=
  let p := find_passenger cache passengerId in
  error <- send (mkRequest public_passengers UPDATE (Some passengerId))
                (fun _ => passengers_update user
                            (Passenger.set_boarding_status newStatus) passengerId) ;;
  match error with
  | Some e => toast "Error" (error_message e) true
  | None =>
      toast "Boarding Updated"
            (full_name_of p +:+ " is now " +:+ boarding_status_label newStatus +:+ ".")
            false ;;
      logActivity user user
        ("Updated boarding status: " +:+ full_name_of p +:+ " → "
         +:+ boarding_status_text newStatus)
        "passenger" (Some passengerId) []
  end.

(** [validateTicket]: [None] when the search text is blank (nothing is
    asked and the result shown is left as it was); otherwise the passenger
    found, if any, which becomes the result shown. *)
Definition validateTicket (ticketSearch : string) : M (option (option Passenger.t)) :=
  if String.eqb (trim ticketSearch) EmptyString then ret None
  else
    data <- select (mkRequest public_passengers SELECT None)
              (fun d =>
                 single (List.filter
                           (fun p => String.eqb (Passenger.ticket_id p)
                                                (upper (trim ticketSearch)))
                           (passengers d))) ;;
    let found := match data with Some (Some p) => Some p | _ => None end in
    match found with
    | Some _ => ret (Some found)
    | None =>
        toast "Not Found" "No passenger found with that ticket ID." true ;;
        ret (Some found)
    end.

End Passengers.

(** *** pages/Admin.tsx *)

Module Admin.

(** What the handler does with the answer of the store. *)
Definition handleRoleChange_then (error : option PgError) (newRole : app_role)
    : M unit :=
  match error with
  | Some e => toast "Error" (error_message e) true
  | None =>
      toast "Role Updated" ("Role changed to " +:+ app_role_text newRole +:+ ".")
            false
  end.

Definition handleRoleChange (session userId : uuid) (newRole : app_role) : M unit :=
  error <- send (mkRequest public_user_roles INSERT None)
                (fun _ => user_roles_upsert session userId newRole ["user_id"]) ;;
  handleRoleChange_then error newRole.

Record User := mkUser {
  id : uuid;
  full_name : string;
  email : string;
  role : app_role
}.

(** [roleMap]: a later row of user_roles replaces an earlier one of the same
    user. *)
Definition roleMap (roles : list UserRole.t) : gmap uuid app_role :=
  fold_left (fun (m : gmap uuid app_role) r =>
               <[UserRole.user_id r := UserRole.role r]> m) roles ∅.

(** [fetchUsers]: one line per profile, with [roleMap[p.id] || "staff"]. *)
Definition fetchUsers (d : Db) : list User :=
  map (fun p => mkUser (Profile.id p) (Profile.full_name p) (Profile.email p)
                       (default staff (roleMap (user_roles d) !! Profile.id p)))
      (profiles d).

End Admin.

(** *** components/ProtectedRoute.tsx and the routes of App.tsx *)

Inductive Rendered := Spinner | Navigate (to : string) | Children.

Definition ProtectedRoute (loading : bool) (user : option uuid)
    (role : option app_role) (requireRole : option app_role) : Rendered :=
  if loading then Spinner
  else
    match user with
    | None => Navigate "/auth"
    | Some _ =>
        match requireRole, role with
        | Some admin, Some admin => Children
        | Some admin, _ => Navigate "/"
        | Some atc, (Some admin | Some atc) => Children
        | Some atc, _ => Navigate "/"
        | _, _ => Children
        end
    end.

(** The protected routes of [App], with the role each one requires. *)
Definition routes : list (string * option app_role) :=
  [ ("/", None); ("/flights", None); ("/runways", None); ("/atc", None);
    ("/passengers", None); ("/alerts", None); ("/activity", None);
    ("/admin", Some admin) ].

(** *** Sign-up: the trigger on auth.users *)

Definition signUp (NEW_id : uuid) (full_name email : option string) : M unit :=
  fun w =>
    match handle_new_user NEW_id full_name email (db w) with
    | inl _ => (tt, w)
    | inr d =>
        (tt, mkWorld d (now w) (entropy w) (faults w) (wire w) (toasts w) (passed w))
    end.

(** ** The operations of the system *)

Inductive Op :=
  | Flights_handleSave (user : uuid) (form : Flights.Form) (editId : option uuid)
  | Flights_handleDelete (user : uuid) (cache : list Flight.t) (deleteId : option uuid)
  | Flights_handleStatusChange (user : uuid) (cache : list Flight.t)
      (flightId : uuid) (newStatus : flight_status)
  | ATCPanel_executeAction (user : uuid) (cache : list Flight.t)
      (pendingAction : option ATCPanel.PendingAction) (emergencyNote : string)
  | ATCPanel_handleDelay (user : uuid) (showDelay : option Flight.t)
      (delayMinutes : Z) (delayReason : string)
  | Runways_handleSave (user : uuid) (form : Runways.Form) (editId : option uuid)
  | Runways_handleDelete (user : uuid) (cache : list Runway.t) (deleteId : option uuid)
  | Runways_handleStatusChange (user : uuid) (cache : list Runway.t)
      (assignedFlights : gmap uuid Runways.AssignedFlight)
      (runwayId : uuid) (newStatus : runway_status)
  | Alerts_handleAcknowledge (user alertId : uuid)
  | Alerts_handleCreate (user : uuid) (form : Alerts.Form)
  | Passengers_handleSave (user : uuid) (form : Passengers.Form) (editId : option uuid)
  | Passengers_handleDelete (user : uuid) (cache : list Passenger.t)
      (deleteId : option uuid)
  | Passengers_handleBoardingUpdate (user : uuid) (cache : list Passenger.t)
      (passengerId : uuid) (newStatus : passenger_boarding_status)
  | Admin_handleRoleChange (session userId : uuid) (newRole : app_role)
  | Auth_signUp (NEW_id : uuid) (full_name email : option string).

(** The environment between two operations: the clock moves and the
    transport decides which of the coming requests it loses. *)
Definition environment (t : timestamptz) (fs : list bool) (w : World) : World :=
  mkWorld (db w) t (entropy w) fs (wire w) (toasts w) (passed w).

Section Run.
Variable md5 : string -> string.
Variable random_text : N -> string.

Definition run (o : Op) : M unit :=
  match o with
  | Flights_handleSave u f e => Flights.handleSave u f e
  | Flights_handleDelete u c x => Flights.handleDelete u c x
  | Flights_handleStatusChange u c x s => Flights.handleStatusChange u c x s
  | ATCPanel_executeAction u c p n => ATCPanel.executeAction u c p n
  | ATCPanel_handleDelay u f m r => ATCPanel.handleDelay u f m r
  | Runways_handleSave u f e => Runways.handleSave u f e
  | Runways_handleDelete u c x => Runways.handleDelete u c x
  | Runways_handleStatusChange u c a x s => Runways.handleStatusChange u c a x s
  | Alerts_handleAcknowledge u x => Alerts.handleAcknowledge u x
  | Alerts_handleCreate u f => Alerts.handleCreate u f
  | Passengers_handleSave u f e => Passengers.handleSave md5 random_text u f e
  | Passengers_handleDelete u c x => Passengers.handleDelete u c x
  | Passengers_handleBoardingUpdate u c x s => Passengers.handleBoardingUpdate u c x s
  | Admin_handleRoleChange u x r => Admin.handleRoleChange u x r
  | Auth_signUp x n e => signUp x n e
  end.

(** One operation, run to its end. *)
Inductive step : World -> World -> Prop :=
  | step_op o t fs w : step w (exec (run o) (environment t fs w)).

(** The worlds the system can be in, starting from the seeded store.
    The roles of the first users are entered into the store directly
    (no operation of the program can make the first administrator). *)
Inductive reachable : World -> Prop :=
  | reachable_seed roles t n fs :
      reachable (mkWorld (with_user_roles roles seed) t n fs [] [] [])
  | reachable_step w w' :
      reachable w -> step w w' -> reachable w'.
End Run.

(** ** Predicates used by the statements *)

(** The caller is an administrator or a controller: the callers the ATC
    panel and the runway page offer their actions to. *)
Definition is_ATC (d : Db) (user : uuid) : bool :=
  has_role (user_roles d) user admin || has_role (user_roles d) user atc.

(** The stored flight with a given id. *)
Definition stored_flight (d : Db) (x : uuid) : option Flight.t :=
  List.find (fun f => N.eqb (Flight.id f) x) (flights d).

Definition stored_runway (d : Db) (x : uuid) : option Runway.t :=
  List.find (fun r => N.eqb (Runway.id r) x) (runways d).

Definition stored_alert (d : Db) (x : uuid) : option Alert.t :=
  List.find (fun r => N.eqb (Alert.id r) x) (alerts d).

(** A character of [A-Z0-9]. *)
Definition upper_alnum (c : ascii) : bool :=
  let n := nat_of_ascii c in
  (((48 <=? n) && (n <=? 57)) || ((65 <=? n) && (n <=? 90)))%nat.

(** The pattern TKT-[A-Z0-9]{8} of the specification. *)
Definition matches_ticket_pattern (s : string) : bool :=
  match s with
  | String "T" (String "K" (String "T" (String "-" rest))) =>
      (String.length rest =? 8)%nat
      && forallb upper_alnum (list_ascii_of_string rest)
  | _ => false
  end.

(** The shape of an md5 digest in text form: 32 digits of [0-9a-f]. *)
Definition hex_digit (c : ascii) : bool :=
  let n := nat_of_ascii c in
  (((48 <=? n) && (n <=? 57)) || ((97 <=? n) && (n <=? 102)))%nat.

Definition is_md5_digest (s : string) : bool :=
  (String.length s =? 32)%nat && forallb hex_digit (list_ascii_of_string s).

(** The update of a flight by a staff caller that section 4.2 excludes and
    the policies let through: an update that writes a column other than
    [status]. *)
Definition staff_writes_flight_column (r : app_role) (e : entity) (o : operation)
    : bool :=
  match r, e, o with
  | staff, E_Flight, op_update columns => negb (forallb (String.eqb "status") columns)
  | _, _, _ => false
  end.

(** ** A small airport, used by the examples

    Users 100 (admin), 101 (atc) and 102 (staff); flight AA100 (id 10) is
    boarding on runway 1, which is occupied; alert 50 is open. *)

Definition demo_flight : Flight.t :=
  Flight.mk 10%N "AA100" "American" "JFK" "LAX" boarding 1000 2000 None None
            (Some 1%N) (Some "A1") "Boeing 737" 180 (Some 100%N)
            (Some "Crew change").

Definition demo_alert : Alert.t :=
  Alert.mk 50%N "Bird strike" "Birds near runway 1" warning None None
           true false None None (Some 102%N).

Definition demo_db : Db :=
  mkDb []
    [ UserRole.mk 1%N 100%N admin; UserRole.mk 2%N 101%N atc;
      UserRole.mk 3%N 102%N staff ]
    [ Runway.mk 1%N "Runway 01L" 3800 occupied "asphalt" None;
      Runway.mk 2%N "Runway 01R" 3600 available "asphalt" None ]
    [ demo_flight ] [] [] [ demo_alert ].

Definition demo_world : World := mkWorld demo_db 5000 0%N [] [] [] [].


Definition demo_landing : ATCPanel.PendingAction :=
  ATCPanel.mkPending 10%N "AA100" ATCPanel.landing landed "Approve Landing"
                     "Approve landing clearance for AA100?".

(** ** The properties of the specification, as predicates on runs *)

(** Runway release (section 8): between [w] and [w'], if flight [x] held a
    runway and its status is now departed or landed, the flight holds no
    runway any more and the runway it held is available. *)
Definition runway_released (w w' : World) (x : uuid) : Prop :=
  forall f rid,
    stored_flight (db w) x = Some f -> Flight.runway_id f = Some rid ->
    forall g,
      stored_flight (db w') x = Some g ->
      Flight.status g = departed \/ Flight.status g = landed ->
      Flight.runway_id g = None
      /\ forall r, stored_runway (db w') rid = Some r -> Runway.status r = available.

(** Idempotent acknowledgement (section 8): between [w] and [w'], an alert
    that was already acknowledged keeps who acknowledged it and when. *)
Definition acknowledged_once (w w' : World) (x : uuid) : Prop :=
  forall a,
    stored_alert (db w) x = Some a -> Alert.is_acknowledged a = true ->
    forall a',
      stored_alert (db w') x = Some a' ->
      Alert.acknowledged_by a' = Alert.acknowledged_by a
      /\ Alert.acknowledged_at a' = Alert.acknowledged_at a.

(** The delay operation (sections 4.3 and 8): between [w] and [w'] flight
    [f] became delayed, both schedule columns moved forward by [m] minutes,
    [notes] holds the operator's reason, and one warning alert and one
    activity entry were added. *)
Definition delayed_as_specified (w w' : World) (f : Flight.t) (m : Z)
    (reason : string) : Prop :=
  exists g a e,
    stored_flight (db w') (Flight.id f) = Some g
    /\ Flight.status g = delayed
    /\ Flight.scheduled_departure g = Flight.scheduled_departure f + m * 60000
    /\ Flight.scheduled_arrival g = Flight.scheduled_arrival f + m * 60000
    /\ Flight.notes g = Some reason
    /\ alerts (db w') = (alerts (db w) ++ [a])%list
    /\ Alert.severity a = warning
    /\ activity_log (db w') = (activity_log (db w) ++ [e])%list.

(** The small airport after controller 101 has acknowledged alert 50, at a
    later time. *)
Definition demo_world_acknowledged : World :=
  environment 9000 [] (exec (Alerts.handleAcknowledge 101%N 50%N) demo_world).

(** "The status of flight [x] has passed through [s]". *)
Definition passed_through (w : World) (x : uuid) (s : flight_status) : Prop :=
  In (x, s) (passed w).

(** The flight invariant of section 3, as stated there: [actual_departure]
    is set exactly when the flight has passed through departed,
    [actual_arrival] exactly when it has passed through landed, and a flight
    whose status is landed, cancelled or departed holds no runway. *)
Definition flight_invariant (w : World) : Prop :=
  forall f,
    In f (flights (db w)) ->
    (Flight.actual_departure f <> None <-> passed_through w (Flight.id f) departed)
    /\ (Flight.actual_arrival f <> None <-> passed_through w (Flight.id f) landed)
    /\ (ATCPanel.releases_runway (Flight.status f) = true -> Flight.runway_id f = None).

(** The half of it that the program keeps: a flight with [actual_departure]
    set has passed through departed, one with [actual_arrival] set has
    passed through landed. *)
Definition actuals_have_history (d : Db) (ps : list (uuid * flight_status)) : Prop :=
  forall f,
    In f (flights d) ->
    (Flight.actual_departure f <> None -> In (Flight.id f, departed) ps)
    /\ (Flight.actual_arrival f <> None -> In (Flight.id f, landed) ps).

(** Ticket identifiers are pairwise distinct and all match the pattern. *)
Definition tickets_ok (d : Db) : Prop :=
  List.NoDup (map Passenger.ticket_id (passengers d))
  /\ Forall (fun p => matches_ticket_pattern (Passenger.ticket_id p) = true)
            (passengers d).

(** ** Invariants of runs *)

(** An update of flights that sets [actual_departure] only together with the
    status departed, and [actual_arrival] only together with landed. *)
Definition actuals_with_status (u : Flight.Update) : bool :=
  match Flight.set_actual_departure u with
  | Some (Some _) =>
      match Flight.set_status u with Some departed => true | _ => false end
  | _ => true
  end
  && match Flight.set_actual_arrival u with
     | Some (Some _) =>
         match Flight.set_status u with Some landed => true | _ => false end
     | _ => true
     end.

(** An insert of flights that sets neither. *)
Definition no_actuals (u : Flight.Update) : bool :=
  match Flight.set_actual_departure u, Flight.set_actual_arrival u with
  | (None | Some None), (None | Some None) => true
  | _, _ => false
  end.

(** A property of the store and the history. *)
Definition DbInv : Type := Db -> list (uuid * flight_status) -> Prop.

Definition holds (P : DbInv) (w : World) : Prop := P (db w) (passed w).

Definition preserves {A : Type} (P : DbInv) (m : M A) : Prop :=
  forall w, holds P w -> holds P (exec m w).

Definition stmt_preserves (P : DbInv) (stmt : N -> Db -> PgError + Db) : Prop :=
  forall n d d' ps, stmt n d = inr d' -> P d ps -> P d' (remember d' ps).

Definition signUp_preserves (P : DbInv) : Prop :=
  forall x full_name email d d' ps,
    handle_new_user x full_name email d = inr d' -> P d ps -> P d' ps.

Section Sent.
Variable md5 : string -> string.
Variable random_text : N -> string.

(** The statements the handlers send. *)
Inductive sent_by_program : (N -> Db -> PgError + Db) -> Prop :=
  | sent_flights_insert user u :
      no_actuals u = true ->
      sent_by_program (fun _ => flights_insert user u)
  | sent_flights_update user u x :
      actuals_with_status u = true ->
      sent_by_program (fun _ => flights_update user u x)
  | sent_flights_delete user x :
      sent_by_program (fun _ => flights_delete user x)
  | sent_runways_insert user name len st surf notes :
      sent_by_program (fun _ => runways_insert user name len st surf notes)
  | sent_runways_update user u x :
      sent_by_program (fun _ => runways_update user u x)
  | sent_runways_delete user x :
      sent_by_program (fun _ => runways_delete user x)
  | sent_passengers_insert user p :
      sent_by_program
        (fun n => passengers_insert user (ticket_id_default (md5 (random_text n))) p)
  | sent_passengers_update_payload user p x :
      sent_by_program (fun _ => passengers_update user (Passenger.apply p) x)
  | sent_passengers_update_boarding user s x :
      sent_by_program (fun _ => passengers_update user (Passenger.set_boarding_status s) x)
  | sent_passengers_delete user x :
      sent_by_program (fun _ => passengers_delete user x)
  | sent_alerts_insert user p :
      sent_by_program (fun _ => alerts_insert user p)
  | sent_alerts_update user f x :
      sent_by_program (fun _ => alerts_update user f x)
  | sent_activity_log_insert user uid action et eid details :
      sent_by_program (fun _ => activity_log_insert user uid action et eid details)
  | sent_user_roles_upsert session userId role cols :
      sent_by_program (fun _ => user_roles_upsert session userId role cols).
End Sent.

(** An engine whose [md5] and [random()] always answer the same, for the
    examples. *)
Definition demo_md5 (_ : string) : string := "d41d8cd98f00b204e9800998ecf8427e".
Definition demo_random_text (_ : N) : string := "0.5".

(** The seeded store with one administrator, user 100. *)
Definition fresh_airport : World :=
  mkWorld (with_user_roles [UserRole.mk 1%N 100%N admin] seed) 0 0%N [] [] [] [].

Definition demo_form : Flights.Form :=
  Flights.mkForm "aa100" "American" "jfk" "lax" scheduled (Some 1000) (Some 2000)
                 None EmptyString "Boeing 737" 180 EmptyString.

(** The administrator adds flight AA100 ... *)
Definition flight_added : World :=
  exec (run demo_md5 demo_random_text (Flights_handleSave 100%N demo_form None))
       (environment 5 [] fresh_airport).

(** ... and then sets it to departed from the status selector of the
    Flights page. *)
Definition departed_from_selector : World :=
  exec (run demo_md5 demo_random_text
          (Flights_handleStatusChange 100%N (flights (db flight_added)) 1%N departed))
       (environment 10 [] flight_added).

(** Whether [executeAction] takes its runway branch: the new status is one
    that releases the runway and the panel's copy of the flight holds one. *)
Definition takes_runway_branch (cache : list Flight.t) (pa : ATCPanel.PendingAction)
    : bool :=
  ATCPanel.releases_runway (ATCPanel.newStatus pa)
  && match Flights.find_flight cache (ATCPanel.flightId pa) with
     | Some c => match Flight.runway_id c with Some _ => true | None => false end
     | None => false
     end.

(** One entry per mutation that the store reports as done (section 7):
    between [w] and [w'] the handler showed at most one toast; when that
    toast reports success the activity log grew by exactly one entry, and
    otherwise (an error, a refusal, or nothing to do) it did not change. *)
Definition logged_once (w w' : World) : Prop :=
  exists shown,
    toasts w' = (toasts w ++ shown)%list
    /\ match shown with
       | [] => activity_log (db w') = activity_log (db w)
       | [t] =>
           if Toast.destructive t
           then activity_log (db w') = activity_log (db w)
           else exists e, activity_log (db w') = (activity_log (db w) ++ [e])%list
       | _ => False
       end.

(** The operations of the pages that log: all but the role change of the
    Admin page and the sign-up trigger. *)
Definition logging_page (o : Op) : bool :=
  match o with
  | Admin_handleRoleChange _ _ _ | Auth_signUp _ _ _ => false
  | _ => true
  end.

(** ** What the pages send, statement by statement

    [sent_by_program] above describes the statements by their shape;
    [issued] names each of them with the payload its handler builds. *)

Section Issued.
Variable md5 : string -> string.
Variable random_text : N -> string.

Inductive issued : (N -> Db -> PgError + Db) -> Prop :=
  | issued_flights_insert user form dep arr :
      issued (fun _ => flights_insert user (Flights.payload user form dep arr))
  | issued_flights_save user form dep arr x :
      issued (fun _ => flights_update user (Flights.payload user form dep arr) x)
  | issued_flights_status user s x :
      issued (fun _ => flights_update user (Flight.only_status s) x)
  | issued_flights_atc user s t release x :
      issued (fun _ => flights_update user (ATCPanel.updates s t release) x)
  | issued_flights_delay user dep arr notes x :
      issued (fun _ => flights_update user
                (Flight.mkUpdate None None None None (Some delayed)
                   (Some dep) (Some arr) None None None None None None None
                   (Some notes)) x)
  | issued_flights_delete user x :
      issued (fun _ => flights_delete user x)
  | issued_runways_insert user name len st surf notes :
      issued (fun _ => runways_insert user name len st surf notes)
  | issued_runways_update user u x :
      issued (fun _ => runways_update user u x)
  | issued_runways_delete user x :
      issued (fun _ => runways_delete user x)
  | issued_passengers_insert user p :
      issued (fun n => passengers_insert user (ticket_id_default (md5 (random_text n))) p)
  | issued_passengers_update_payload user p x :
      issued (fun _ => passengers_update user (Passenger.apply p) x)
  | issued_passengers_update_boarding user s x :
      issued (fun _ => passengers_update user (Passenger.set_boarding_status s) x)
  | issued_passengers_delete user x :
      issued (fun _ => passengers_delete user x)
  | issued_alerts_insert user p :
      issued (fun _ => alerts_insert user p)
  | issued_alerts_acknowledge user t x :
      issued (fun _ => alerts_update user (Alert.acknowledge user t) x)
  | issued_activity_log_insert user action et eid details :
      issued (fun _ => activity_log_insert user (Some user) action et eid details)
  | issued_user_roles_upsert session userId role :
      issued (fun _ => user_roles_upsert session userId role ["user_id"]).
End Issued.

(** ** Properties of the store *)

(** Every reference of a stored row points to a stored row. *)
Definition references_ok (d : Db) : Prop :=
  (forall f, In f (flights d) -> fk_ok runway_exists (Flight.runway_id f) d = true)
  /\ (forall p, In p (passengers d) -> flight_exists (Passenger.flight_id p) d = true)
  /\ (forall a, In a (alerts d) ->
        fk_ok flight_exists (Alert.flight_id a) d = true
        /\ fk_ok runway_exists (Alert.runway_id a) d = true).

(** The primary keys of flights, runways, passengers, alerts, activity
    entries and profiles, the flight numbers and the runway names are
    pairwise distinct.  The ids of user_roles are not part of it: the
    first role rows are entered into the store directly (see
    [reachable]). *)
Definition keys_ok (d : Db) : Prop :=
  List.NoDup (map Flight.id (flights d))
  /\ List.NoDup (map Flight.flight_number (flights d))
  /\ List.NoDup (map Runway.id (runways d))
  /\ List.NoDup (map Runway.name (runways d))
  /\ List.NoDup (map Passenger.id (passengers d))
  /\ List.NoDup (map Alert.id (alerts d))
  /\ List.NoDup (map ActivityLog.id (activity_log d))
  /\ List.NoDup (map Profile.id (profiles d)).

(** An alert is active exactly when it is not acknowledged, and carries who
    acknowledged it and when exactly when it is. *)
Definition alert_flags_ok (a : Alert.t) : bool :=
  Bool.eqb (Alert.is_active a) (negb (Alert.is_acknowledged a))
  && Bool.eqb (Alert.is_acknowledged a)
              (match Alert.acknowledged_by a with Some _ => true | None => false end)
  && Bool.eqb (Alert.is_acknowledged a)
              (match Alert.acknowledged_at a with Some _ => true | None => false end).

(** Flight number, origin and destination are stored in upper case. *)
Definition flight_text_upper (f : Flight.t) : Prop :=
  upper (Flight.flight_number f) = Flight.flight_number f
  /\ upper (Flight.origin f) = Flight.origin f
  /\ upper (Flight.destination f) = Flight.destination f.

(** The page handlers whose only effect on the operational tables is one
    statement: all but [executeAction], which may send two. *)
Definition single_statement_page (o : Op) : bool :=
  match o with
  | ATCPanel_executeAction _ _ _ _ | Auth_signUp _ _ _ => false
  | _ => true
  end.

(** The caller of a page handler. *)
Definition caller (o : Op) : option uuid :=
  match o with
  | Flights_handleSave u _ _ | Flights_handleDelete u _ _
  | Flights_handleStatusChange u _ _ _ | ATCPanel_executeAction u _ _ _
  | ATCPanel_handleDelay u _ _ _ | Runways_handleSave u _ _
  | Runways_handleDelete u _ _ | Runways_handleStatusChange u _ _ _ _
  | Alerts_handleAcknowledge u _ | Alerts_handleCreate u _
  | Passengers_handleSave u _ _ | Passengers_handleDelete u _ _
  | Passengers_handleBoardingUpdate u _ _ _ | Admin_handleRoleChange u _ _ => Some u
  | Auth_signUp _ _ _ => None
  end.

(** The handlers, with arguments that pass their own checks, that update or
    delete a row only administrators and controllers may change: a flight
    to delete, a runway to edit, delete or set to a status, an alert to
    acknowledge. *)
Definition changes_controlled_row (o : Op) : bool :=
  match o with
  | Flights_handleDelete _ _ (Some _) => true
  | Runways_handleSave _ form (Some _) =>
      negb (String.eqb (Runways.name form) EmptyString)
  | Runways_handleDelete _ _ (Some _) => true
  | Runways_handleStatusChange _ _ assignedFlights runwayId newStatus =>
      negb (runway_status_eqb newStatus available
            && bool_decide (is_Some (assignedFlights !! runwayId)))
  | Alerts_handleAcknowledge _ _ => true
  | _ => false
  end.

(** The handlers, with a form that passes their own checks, that insert
    such a row: a new flight, a new runway. *)
Definition creates_controlled_row (o : Op) : bool :=
  match o with
  | Flights_handleSave _ form None =>
      match Flights.scheduled_departure form, Flights.scheduled_arrival form with
      | Some _, Some _ =>
          negb (String.eqb (Flights.flight_number form) EmptyString
                || String.eqb (Flights.airline form) EmptyString
                || String.eqb (Flights.origin form) EmptyString
                || String.eqb (Flights.destination form) EmptyString)
      | _, _ => false
      end
  | Runways_handleSave _ form None =>
      negb (String.eqb (Runways.name form) EmptyString)
  | _ => false
  end.

(** The tables a handler can change, read off the requests it sends and the
    ON DELETE actions of the tables it deletes from. *)
Definition may_write (o : Op) : list table :=
  match o with
  | Flights_handleSave _ _ _ | Flights_handleStatusChange _ _ _ _ =>
      [public_flights; public_activity_log]
  | Flights_handleDelete _ _ _ =>
      [public_flights; public_passengers; public_alerts; public_activity_log]
  | ATCPanel_executeAction _ _ _ _ =>
      [public_runways; public_flights; public_activity_log; public_alerts]
  | ATCPanel_handleDelay _ _ _ _ =>
      [public_flights; public_activity_log; public_alerts]
  | Runways_handleSave _ _ _ | Runways_handleStatusChange _ _ _ _ _ =>
      [public_runways; public_activity_log]
  | Runways_handleDelete _ _ _ =>
      [public_runways; public_flights; public_alerts; public_activity_log]
  | Alerts_handleAcknowledge _ _ | Alerts_handleCreate _ _ =>
      [public_alerts; public_activity_log]
  | Passengers_handleSave _ _ _ | Passengers_handleDelete _ _ _
  | Passengers_handleBoardingUpdate _ _ _ _ =>
      [public_passengers; public_activity_log]
  | Admin_handleRoleChange _ _ _ => [public_user_roles]
  | Auth_signUp _ _ _ => [public_profiles; public_user_roles]
  end.

(** The rows of table [t] are the same in [d] and [d']. *)
Definition same_table (t : table) (d d' : Db) : Prop :=
  match t with
  | public_profiles => profiles d' = profiles d
  | public_user_roles => user_roles d' = user_roles d
  | public_runways => runways d' = runways d
  | public_flights => flights d' = flights d
  | public_passengers => passengers d' = passengers d
  | public_activity_log => activity_log d' = activity_log d
  | public_alerts => alerts d' = alerts d
  end.

(** The transport delivers the next request. *)
Definition next_delivered (w : World) : bool :=
  match faults w with
  | true :: _ => false
  | _ => true
  end.

(** A store with one passenger, ticket TKT-D41D8CD9, on flight AA100 of the
    small airport. *)
Definition demo_passenger : Passenger.t :=
  Passenger.mk 1%N 10%N "Ada" "Lovelace" "P123" None "TKT-D41D8CD9" checked_in "UK".

Definition demo_world_with_passenger : World :=
  mkWorld (with_passengers [demo_passenger] demo_db) 5000 0%N [] [] [] [].

(** A computation that shows no toast. *)
Definition quiet {A : Type} (m : M A) : Prop :=
  forall w, toasts (snd (m w)) = toasts w.

(** Between [w] and [w'] either the store did not change or exactly one
    toast was shown and it reports success. *)
Definition changed_only_with_success (w w' : World) : Prop :=
  exists shown,
    toasts w' = (toasts w ++ shown)%list
    /\ (db w' = db w
        \/ exists t, shown = [t] /\ Toast.destructive t = false).

(** Every passenger of [d] is a passenger of [d0], possibly edited, with
    the id and the ticket identifier it had in [d0]. *)
Definition tickets_kept (d0 d : Db) : Prop :=
  forall p',
    In p' (passengers d) ->
    exists p,
      In p (passengers d0)
      /\ Passenger.id p = Passenger.id p'
      /\ Passenger.ticket_id p = Passenger.ticket_id p'.

(** ... and then adds a passenger to it. *)
Definition demo_passenger_form : Passengers.Form :=
  Passengers.mkForm (Some 1%N) "Ada" "Lovelace" "P123" EmptyString EmptyString
                    checked_in.

Definition passenger_added : World :=
  exec (run demo_md5 demo_random_text
          (Passengers_handleSave 100%N demo_passenger_form None))
       (environment 20 [] flight_added).

(** The forms a save handler refuses before it sends anything: a required
    field is empty. *)
Definition form_incomplete (o : Op) : bool :=
  match o with
  | Flights_handleSave _ form _ =>
      String.eqb (Flights.flight_number form) EmptyString
      || String.eqb (Flights.airline form) EmptyString
      || String.eqb (Flights.origin form) EmptyString
      || String.eqb (Flights.destination form) EmptyString
      || match Flights.scheduled_departure form with Some _ => false | None => true end
      || match Flights.scheduled_arrival form with Some _ => false | None => true end
  | Runways_handleSave _ form _ => String.eqb (Runways.name form) EmptyString
  | Alerts_handleCreate _ form =>
      String.eqb (Alerts.title form) EmptyString
      || String.eqb (Alerts.message form) EmptyString
  | Passengers_handleSave _ form _ =>
      match Passengers.flight_id form with Some _ => false | None => true end
      || String.eqb (Passengers.first_name form) EmptyString
      || String.eqb (Passengers.last_name form) EmptyString
      || String.eqb (Passengers.passport_number form) EmptyString
  | _ => false
  end.

(** The handlers that save a form. *)
Definition saves_form (o : Op) : bool :=
  match o with
  | Flights_handleSave _ _ _ | Runways_handleSave _ _ _
  | Alerts_handleCreate _ _ | Passengers_handleSave _ _ _ => true
  | _ => false
  end.

(** A computation that only adds to the requests sent. *)
Definition sends_on {A : Type} (m : M A) : Prop :=
  forall w, exists more, wire (snd (m w)) = (wire w ++ more)%list.

(** The refusals the conversion of the payload of a save handler can run
    into: one for each number or time of the form that does not fit its
    column. *)
Definition payload_refusals (o : Op) : list PgError :=
  match o with
  | Flights_handleSave _ form _ =>
      match Flights.scheduled_departure form, Flights.scheduled_arrival form with
      | Some dep, Some arr =>
          option_list (timestamptz_in (Some dep))
          ++ option_list (timestamptz_in (Some arr))
          ++ option_list (int4_in (Some (Flights.capacity form)))
      | _, _ => []
      end
  | Runways_handleSave _ form _ =>
      option_list (int4_in (Some (Runways.length_meters form)))
  | _ => []
  end%list.

(** A runway form with a length no INTEGER column holds. *)
Definition long_runway_form : Runways.Form :=
  Runways.mkForm "Runway 28" 3000000000 available "asphalt" EmptyString.

(** An engine whose [md5] depends on its input, for the examples: the
    digest of a text is made of the low four bits of its first 32
    characters, and draw [n] of [random()] reads "0.n". *)
Definition toy_hex (c : ascii) : ascii :=
  let k := (nat_of_ascii c mod 16)%nat in
  ascii_of_nat (if (k <? 10)%nat then 48 + k else 87 + k).

Fixpoint toy_digits (k : nat) (s : string) : string :=
  match k with
  | O => EmptyString
  | S k =>
      match s with
      | EmptyString => String "0" (toy_digits k EmptyString)
      | String c rest => String (toy_hex c) (toy_digits k rest)
      end
  end.

Definition toy_md5 (s : string) : string := toy_digits 32 s.
Definition toy_random_text (n : N) : string := "0." +:+ pretty n.

(** A morning at the airport.  From the seeded store with administrator
    100: flights AA100 (on runway 1) and BA200 (on runway 2) are added, a
    passenger is booked on each, an alert about AA100 is raised and
    acknowledged, BA200 takes off from the ATC panel, and six notices are
    posted. *)
Definition form_AA100 : Flights.Form :=
  Flights.mkForm "aa100" "American" "jfk" "lax" scheduled (Some 1000) (Some 2000)
                 (Some 1%N) "A1" "Boeing 737" 180 EmptyString.

Definition form_BA200 : Flights.Form :=
  Flights.mkForm "ba200" "British" "lhr" "jfk" boarding (Some 3000) (Some 9000)
                 (Some 2%N) EmptyString "Airbus A320" 150 EmptyString.

Definition flight_BA200 : Flight.t :=
  Flight.mk 2%N "BA200" "British" "LHR" "JFK" boarding 3000 9000 None None
            (Some 2%N) None "Airbus A320" 150 (Some 100%N) None.

Definition notice (k : string) : Alerts.Form :=
  Alerts.mkForm ("Notice " +:+ k) "Gate change" info None.

Definition busy_airport : World :=
  let go t o w := exec (run toy_md5 toy_random_text o) (environment t [] w) in
  let w := go 5 (Flights_handleSave 100%N form_AA100 None) fresh_airport in
  let w := go 6 (Flights_handleSave 100%N form_BA200 None) w in
  let w := go 7 (Passengers_handleSave 100%N
                   (Passengers.mkForm (Some 1%N) "Ada" "Lovelace" "P123" "12A"
                                      "UK" checked_in) None) w in
  let w := go 8 (Passengers_handleSave 100%N
                   (Passengers.mkForm (Some 2%N) "Alan" "Turing" "P456" EmptyString
                                      EmptyString checked_in) None) w in
  let w := go 9 (Alerts_handleCreate 100%N
                   (Alerts.mkForm "Bird strike" "Birds near runway 1" critical
                                  (Some 1%N))) w in
  let w := go 10 (Alerts_handleAcknowledge 100%N 1%N) w in
  let w := go 12 (ATCPanel_executeAction 100%N [flight_BA200]
                    (ATCPanel.confirmAction flight_BA200 ATCPanel.takeoff)
                    EmptyString) w in
  let w := go 13 (Alerts_handleCreate 100%N (notice "1")) w in
  let w := go 14 (Alerts_handleCreate 100%N (notice "2")) w in
  let w := go 15 (Alerts_handleCreate 100%N (notice "3")) w in
  let w := go 16 (Alerts_handleCreate 100%N (notice "4")) w in
  let w := go 17 (Alerts_handleCreate 100%N (notice "5")) w in
  go 18 (Alerts_handleCreate 100%N (notice "6")) w.

(** ** Text typed in ASCII

    [upper], [lower] and [trim] are the [toUpperCase], [toLowerCase] and
    [trim] of JavaScript on text of ASCII characters (the white space among
    them is the space and the characters 9 to 13); statements that depend
    on case or on white space are made for such text. *)
Definition ascii_text (s : string) : bool :=
  forallb (fun c => (nat_of_ascii c <? 128)%nat) (list_ascii_of_string s).

(** The four columns of a flight the search of the Flights page reads. *)
Definition flight_text_ascii (f : Flight.t) : bool :=
  ascii_text (Flight.flight_number f) && ascii_text (Flight.airline f)
  && ascii_text (Flight.origin f) && ascii_text (Flight.destination f).

(** The operations that write the text of a flight are the saves of a
    flight form, whose number, origin and destination pass through
    [toUpperCase]: such a form is to be typed in ASCII. *)
Definition typed_in_ascii (o : Op) : bool :=
  match o with
  | Flights_handleSave _ form _ =>
      ascii_text (Flights.flight_number form) && ascii_text (Flights.airline form)
      && ascii_text (Flights.origin form) && ascii_text (Flights.destination form)
  | _ => true
  end.

Section AsciiRuns.
Variable md5 : string -> string.
Variable random_text : N -> string.

(** The worlds the system reaches when every flight form is typed in
    ASCII. *)
Inductive reachable_ascii : World -> Prop :=
  | reachable_ascii_seed roles t n fs :
      reachable_ascii (mkWorld (with_user_roles roles seed) t n fs [] [] [])
  | reachable_ascii_step w o t fs :
      reachable_ascii w -> typed_in_ascii o = true ->
      reachable_ascii (exec (run md5 random_text o) (environment t fs w)).
End AsciiRuns.

(** The form of the edit dialog of runway 1 of the small airport, with the
    status set to available. *)
Definition runway_01L_available : Runways.Form :=
  Runways.mkForm "Runway 01L" 3800 available "asphalt" EmptyString.

(** * Properties *)

(** ** Equality tests *)

Lemma app_role_eqb_eq a b : app_role_eqb a b = true <-> a = b.
Proof. destruct a, b; simpl; split; congruence. Qed.

Lemma flight_status_eqb_eq a b : flight_status_eqb a b = true <-> a = b.
Proof. destruct a, b; simpl; split; congruence. Qed.

Lemma runway_status_eqb_eq a b : runway_status_eqb a b = true <-> a = b.
Proof. destruct a, b; simpl; split; congruence. Qed.

(** ** Row-level policies *)

Lemma has_role_single actor r r' :
  has_role [UserRole.mk 0%N actor r] actor r' = app_role_eqb r r'.
Proof.
  unfold has_role; simpl. rewrite N.eqb_refl. simpl. apply orb_false_r.
Qed.

(** C1.  For a caller with exactly one role the decision of the row-level
    policies is the table of section 4.2, except for one cell: the policy
    named "Staff can update flight status" lets a staff caller update a
    flight whatever columns the update writes (for example [runway_id]),
    where the table allows the [status] column only.  Staff may insert
    alerts and may neither update nor delete them. *)
Theorem rls_decision_vs_table :
  (forall actor writer columns,
      rls_decision staff E_Flight (op_update columns) actor writer = true)
  /\ canPerform staff E_Flight (op_update ["runway_id"]) 7%N 7%N = false
  /\ (forall r e o actor writer,
        rls_decision r e o actor writer
        = canPerform r e o actor writer || staff_writes_flight_column r e o)
  /\ (forall actor writer columns,
        rls_decision staff E_Alert op_insert actor writer = true
        /\ rls_decision staff E_Alert (op_update columns) actor writer = false
        /\ rls_decision staff E_Alert op_delete actor writer = false).
Proof.
  assert (H : forall r e o actor writer,
             rls_decision r e o actor writer
             = canPerform r e o actor writer || staff_writes_flight_column r e o).
  { intros r e o actor writer.
    unfold rls_decision, rls_permits, rls_using, rls_check, policies.
    destruct r, e, o; cbn -[has_role N.eqb forallb];
      unfold caller_has, uid_is; cbn -[has_role N.eqb forallb];
      rewrite ?has_role_single; cbn -[N.eqb forallb];
      rewrite ?orb_false_r; try reflexivity.
    symmetry. apply orb_negb_r. }
  split; [| split; [| split]].
  - intros. rewrite H. simpl. apply orb_negb_r.
  - reflexivity.
  - exact H.
  - intros. rewrite !H. repeat split; reflexivity.
Qed.

Lemma rls_using_select t c : rls_using t SELECT c = true.
Proof. destruct t; reflexivity. Qed.

Lemma rls_flights_update d user :
  rls_using public_flights UPDATE (ctx_of user d)
  = is_ATC d user || has_role (user_roles d) user staff.
Proof.
  unfold rls_using, policies, is_ATC; cbn. unfold caller_has; cbn.
  now rewrite orb_false_r.
Qed.

Lemma rls_flights_update_check d user :
  rls_check public_flights UPDATE (ctx_of user d)
  = is_ATC d user || has_role (user_roles d) user staff.
Proof.
  unfold rls_check, policies, is_ATC; cbn. unfold caller_has; cbn.
  now rewrite orb_false_r.
Qed.

Lemma rls_runways_update d user :
  rls_using public_runways UPDATE (ctx_of user d) = is_ATC d user.
Proof.
  unfold rls_using, policies, is_ATC; cbn. unfold caller_has; cbn.
  now rewrite orb_false_r.
Qed.

Lemma rls_runways_update_check d user :
  rls_check public_runways UPDATE (ctx_of user d) = is_ATC d user.
Proof.
  unfold rls_check, policies, is_ATC; cbn. unfold caller_has; cbn.
  now rewrite orb_false_r.
Qed.

Lemma rls_alerts_update d user :
  rls_using public_alerts UPDATE (ctx_of user d) = is_ATC d user.
Proof.
  unfold rls_using, policies, is_ATC; cbn. unfold caller_has; cbn.
  now rewrite orb_false_r.
Qed.

Lemma rls_alerts_update_check d user :
  rls_check public_alerts UPDATE (ctx_of user d) = is_ATC d user.
Proof.
  unfold rls_check, policies, is_ATC; cbn. unfold caller_has; cbn.
  now rewrite orb_false_r.
Qed.

Lemma rls_activity_log_insert d user :
  rls_check public_activity_log INSERT
    {| auth_uid := user; roles_table := user_roles d;
       row_id := None; row_user_id := Some user |} = true.
Proof.
  unfold rls_check, policies; cbn. unfold uid_is; cbn. now rewrite N.eqb_refl.
Qed.

(** ** Statements that go through *)

Lemma map_where_absent {Row : Type} (id : Row -> uuid) (x : uuid) (f : Row -> Row)
    (rows : list Row) :
  existsb (fun r => N.eqb (id r) x) rows = false ->
  map (fun r => if N.eqb (id r) x then f r else r) rows = rows.
Proof.
  induction rows as [|r rows IH]; simpl; [reflexivity|].
  intros H. apply orb_false_iff in H as [Hr Hrows].
  rewrite Hr, IH by assumption. reflexivity.
Qed.

Lemma Db_eta d :
  mkDb (profiles d) (user_roles d) (runways d) (flights d) (passengers d)
       (activity_log d) (alerts d) = d.
Proof. destruct d; reflexivity. Qed.

Lemma runways_update_status d user rid s :
  is_ATC d user = true ->
  runways_update user (Runway.only_status s) rid d
  = inr (with_runways
           (map (fun r => if N.eqb (Runway.id r) rid
                          then Runway.apply (Runway.only_status s) r else r)
                (runways d)) d).
Proof.
  intros H. unfold runways_update.
  rewrite rls_using_select, rls_runways_update, rls_runways_update_check, H.
  cbn [andb negb Runway.set_name Runway.set_length_meters Runway.only_status int4_in].
  destruct (runway_exists rid d) eqn:E; cbn [negb]; [reflexivity|].
  unfold runway_exists in E. rewrite map_where_absent by exact E.
  unfold with_runways. now rewrite Db_eta.
Qed.

(** An update of a flight that leaves [flight_number] alone, does not
    point [runway_id] at a runway and sets values the engine converts, by a
    caller the policies let through. *)
Lemma flights_update_plain d user u x :
  is_ATC d user || has_role (user_roles d) user staff = true ->
  Flight.set_flight_number u = None ->
  (Flight.set_runway_id u = None \/ Flight.set_runway_id u = Some None) ->
  flights_conversion u = None ->
  flights_update user u x d
  = inr (with_flights
           (map (fun r => if N.eqb (Flight.id r) x then Flight.apply u r else r)
                (flights d)) d).
Proof.
  intros H Hn Hr Hc. unfold flights_update.
  rewrite rls_using_select, rls_flights_update, rls_flights_update_check, H, Hn, Hc.
  cbn [andb negb].
  assert (Hfk : match Flight.set_runway_id u with
                | Some v => negb (fk_ok runway_exists v d)
                | None => false
                end = false) by (destruct Hr as [-> | ->]; reflexivity).
  rewrite Hfk.
  destruct (flight_exists x d) eqn:E; cbn [negb]; [reflexivity|].
  unfold flight_exists in E. rewrite map_where_absent by exact E.
  unfold with_flights. now rewrite Db_eta.
Qed.

(** A caller the policies on flights do not know: nothing is updated and no
    error comes back. *)
Lemma flights_update_skipped d user u x :
  is_ATC d user || has_role (user_roles d) user staff = false ->
  flights_update user u x d = inr d.
Proof.
  intros H. unfold flights_update.
  now rewrite rls_using_select, rls_flights_update, H.
Qed.

Lemma alerts_update_by_ATC d user f x :
  is_ATC d user = true ->
  alerts_update user f x d
  = inr (with_alerts
           (map (fun r => if N.eqb (Alert.id r) x then f r else r) (alerts d)) d).
Proof.
  intros H. unfold alerts_update.
  rewrite rls_using_select, rls_alerts_update, rls_alerts_update_check, H.
  cbn [andb negb].
  destruct (existsb (fun r => N.eqb (Alert.id r) x) (alerts d)) eqn:E;
    cbn [negb]; [reflexivity|].
  rewrite map_where_absent by exact E.
  unfold with_alerts. now rewrite Db_eta.
Qed.

Lemma alerts_update_skipped d user f x :
  is_ATC d user = false -> alerts_update user f x d = inr d.
Proof.
  intros H. unfold alerts_update.
  now rewrite rls_using_select, rls_alerts_update, H.
Qed.

Lemma activity_log_insert_own d user action entity_type entity_id details :
  activity_log_insert user (Some user) action entity_type entity_id details d
  = inr (with_activity_log
           (activity_log d
            ++ [ActivityLog.mk (gen_random_uuid (map ActivityLog.id (activity_log d)))
                  (Some user) action entity_type entity_id details]) d).
Proof.
  unfold activity_log_insert. now rewrite rls_activity_log_insert.
Qed.

Lemma find_map_where {Row : Type} (id : Row -> uuid) (f : Row -> Row) (x : uuid)
    (rows : list Row) :
  (forall r, id (f r) = id r) ->
  List.find (fun r => N.eqb (id r) x)
            (map (fun r => if N.eqb (id r) x then f r else r) rows)
  = option_map f (List.find (fun r => N.eqb (id r) x) rows).
Proof.
  intros Hid. induction rows as [|r rows IH]; simpl; [reflexivity|].
  destruct (N.eqb (id r) x) eqn:E.
  - now rewrite Hid, E.
  - now rewrite E.
Qed.

Lemma find_Some_existsb {Row : Type} (p : Row -> bool) (rows : list Row) (r : Row) :
  List.find p rows = Some r -> existsb p rows = true.
Proof.
  intros H. apply find_some in H as [Hin Hp].
  apply existsb_exists. eauto.
Qed.

(** Runs a handler on a world without faults up to its next statement. *)
Ltac handler_unfold :=
  unfold exec, logActivity, bind, send, toast, ret, Date_now;
  cbn [faults db entropy now wire toasts passed tl fst snd].

(** ** The ATC panel *)



Lemma flights_update_only_status_frame user s x d d' :
  flights_update user (Flight.only_status s) x d = inr d' ->
  runways d' = runways d
  /\ map Flight.runway_id (flights d') = map Flight.runway_id (flights d)
  /\ activity_log d' = activity_log d
  /\ alerts d' = alerts d.
Proof.
  unfold flights_update. cbn [Flight.set_flight_number Flight.set_runway_id Flight.only_status].
  intros E.
  repeat match type of E with
         | context [if ?b then _ else _] => destruct b
         end; inversion E; subst; clear E; repeat split; simpl.
  rewrite map_map. apply map_ext. intros r. now destruct (N.eqb (Flight.id r) x).
Qed.

Lemma handleStatusChange_status_only user cache x s w :
  let w' := exec (Flights.handleStatusChange user cache x s) w in
  runways (db w') = runways (db w)
  /\ map Flight.runway_id (flights (db w')) = map Flight.runway_id (flights (db w)).
Proof.
  destruct w as [d t n fs wr ts ps].
  unfold exec, Flights.handleStatusChange, logActivity, bind, send, toast, ret.
  cbn [faults db entropy now wire toasts passed].
  destruct fs as [|[] fs]; cbn [tl fst snd db];
    try (split; reflexivity);
    (destruct (flights_update user (Flight.only_status s) x d) as [e|d'] eqn:E;
     cbn [tl fst snd db faults entropy]; [split; reflexivity|];
     apply flights_update_only_status_frame in E as (Hr & Hf & _);
     rewrite activity_log_insert_own;
     try (destruct fs as [|[] fs]); cbn [tl fst snd db faults entropy];
     split; assumption).
Qed.

Lemma alerts_insert_frame user p d d' :
  alerts_insert user p d = inr d' ->
  flights d' = flights d /\ runways d' = runways d
  /\ activity_log d' = activity_log d
  /\ alerts d' = (alerts d ++ [Alert.inserted (gen_random_uuid (map Alert.id (alerts d))) p])%list.
Proof.
  unfold alerts_insert. intros E.
  repeat match type of E with
         | context [if ?b then _ else _] => destruct b
         end; inversion E; subst; clear E; repeat split.
Qed.

(** C2, as the code has it.  In the action confirmed on the ATC panel
    ([executeAction]) by an administrator or controller, with no request
    lost and the panel's copy of the flight being the stored row, a
    transition to departed, landed or cancelled of a flight that holds a
    runway, [r], leaves the flight with the new status and without a
    runway, and the runway stored with the status available (its other
    columns as they were).  The status selector of the Flights page
    ([handleStatusChange]) writes the status column only: every flight keeps
    its runway and every runway its status. *)
Theorem executeAction_releases_runway user cache pa note w f rid r :
  ATCPanel.releases_runway (ATCPanel.newStatus pa) = true ->
  Flights.find_flight cache (ATCPanel.flightId pa) = Some f ->
  stored_flight (db w) (ATCPanel.flightId pa) = Some f ->
  Flight.runway_id f = Some rid ->
  stored_runway (db w) rid = Some r ->
  is_ATC (db w) user = true ->
  faults w = [] ->
  let w' := exec (ATCPanel.executeAction user cache (Some pa) note) w in
  (exists g, stored_flight (db w') (ATCPanel.flightId pa) = Some g
             /\ Flight.status g = ATCPanel.newStatus pa
             /\ Flight.runway_id g = None)
  /\ stored_runway (db w') rid
     = Some (Runway.mk (Runway.id r) (Runway.name r) (Runway.length_meters r)
                       available (Runway.surface_type r) (Runway.notes r))
  /\ runway_released w w' (ATCPanel.flightId pa)
  /\ (forall user' cache' x s,
        let w'' := exec (Flights.handleStatusChange user' cache' x s) w in
        runways (db w'') = runways (db w)
        /\ map Flight.runway_id (flights (db w''))
           = map Flight.runway_id (flights (db w))).
Proof.
  intros Hrel Hfind Hstored Hrw Hr Hatc Hfaults.
  split; [|split; [|split]]; [| | |intros; apply handleStatusChange_status_only].
  all: destruct w as [d t n fs wr ts ps]; simpl in *; subst fs.
  all: unfold Flights.find_flight in Hfind.
  all: unfold exec, ATCPanel.executeAction, logActivity, bind, Date_now, send, toast, ret;
       simpl.
  all: rewrite Hrel, Hfind, Hrw; simpl.
  all: rewrite runways_update_status by exact Hatc; simpl.
  all: rewrite flights_update_plain
         by (first [ simpl; unfold is_ATC in *; simpl; now rewrite Hatc
                   | reflexivity | right; reflexivity ]).
  all: simpl.
  all: rewrite activity_log_insert_own; simpl.
  all: assert (Hst : List.find (fun r => N.eqb (Flight.id r) (ATCPanel.flightId pa))
                 (map (fun r => if N.eqb (Flight.id r) (ATCPanel.flightId pa)
                                then Flight.apply
                                       (ATCPanel.updates (ATCPanel.newStatus pa) t true) r
                                else r) (flights d))
               = Some (Flight.apply (ATCPanel.updates (ATCPanel.newStatus pa) t true) f))
         by (unfold stored_flight in Hstored;
             rewrite find_map_where by reflexivity; now rewrite Hstored).
  all: unfold runway_released, stored_flight, stored_runway.
  all: destruct (ATCPanel.raises_alert (ATCPanel.newStatus pa)); simpl.
  all: try (destruct (alerts_insert _ _ _) as [e|d'] eqn:E; simpl;
            [|apply alerts_insert_frame in E as (Ef & Er & _); simpl in Ef, Er;
              rewrite ?Ef, ?Er]).
  1-3: eexists; (split; [exact Hst|split; reflexivity]).
  1-3: rewrite find_map_where by reflexivity; unfold stored_runway in Hr;
       now rewrite Hr.
  all: intros f0 rid0 Hf0 Hrid0 g Hg Hstatus.
  all: unfold stored_flight in Hstored; rewrite Hstored in Hf0; injection Hf0 as <-.
  all: rewrite Hrw in Hrid0; injection Hrid0 as <-.
  all: rewrite Hst in Hg; injection Hg as <-.
  all: split; [reflexivity|].
  all: intros r' Hr'.
  all: rewrite find_map_where in Hr' by reflexivity.
  all: destruct (List.find _ (runways d)); simpl in Hr'; [|discriminate].
  all: injection Hr' as <-; reflexivity.
Qed.

(** C2 does not hold as stated: administrator 100 sets AA100, which holds
    runway 1, to landed from the status selector of the Flights page; the
    flight keeps runway 1 and the runway stays occupied. *)
Lemma handleStatusChange_keeps_runway :
  ~ runway_released demo_world
      (exec (Flights.handleStatusChange 100%N [demo_flight] 10%N landed) demo_world)
      10%N.
Proof.
  intros H.
  specialize (H demo_flight 1%N eq_refl eq_refl).
  vm_compute in H.
  specialize (H _ eq_refl (or_intror eq_refl)) as [H _].
  discriminate H.
Qed.

(** For instance: controller 101 cancels AA100, which is boarding on
    runway 1. *)
Lemma executeAction_releases_runway_witness :
  let w := demo_world in
  let pa := ATCPanel.mkPending 10%N "AA100" ATCPanel.cancel cancelled "Cancel Flight"
              "Cancel flight AA100? This will release the runway." in
  let w' := exec (ATCPanel.executeAction 101%N [demo_flight] (Some pa) EmptyString) w in
  stored_runway (db w) 1%N
  = Some (Runway.mk 1%N "Runway 01L" 3800 occupied "asphalt" None)
  /\ (exists g, stored_flight (db w') 10%N = Some g
                /\ Flight.status g = cancelled /\ Flight.runway_id g = None)
  /\ stored_runway (db w') 1%N
     = Some (Runway.mk 1%N "Runway 01L" 3800 available "asphalt" None)
  /\ runway_released w w' 10%N
  /\ (forall user' cache' x s,
        let w'' := exec (Flights.handleStatusChange user' cache' x s) w in
        runways (db w'') = runways (db w)
        /\ map Flight.runway_id (flights (db w''))
           = map Flight.runway_id (flights (db w))).
Proof.
  split; [reflexivity|].
  apply (executeAction_releases_runway 101%N [demo_flight]
           (ATCPanel.mkPending 10%N "AA100" ATCPanel.cancel cancelled "Cancel Flight"
              "Cancel flight AA100? This will release the runway.")
           EmptyString demo_world demo_flight 1%N
           (Runway.mk 1%N "Runway 01L" 3800 occupied "asphalt" None)); reflexivity.
Defined.

(** ** The runway guard *)

Lemma assigned_fold_is_Some (l : list Flight.t) (m : gmap uuid Runways.AssignedFlight)
    (R : uuid) :
  is_Some (fold_left
             (fun (m : gmap uuid Runways.AssignedFlight) f =>
                match Flight.runway_id f with
                | Some rid =>
                    <[rid := Runways.mkAssigned (Flight.id f) (Flight.flight_number f)
                                                (Flight.airline f) (Flight.status f)]> m
                | None => m
                end) l m !! R)
  <-> is_Some (m !! R) \/ exists f, In f l /\ Flight.runway_id f = Some R.
Proof.
  revert m. induction l as [|f l IH]; intros m; simpl.
  - split; [auto|]. intros [H|(f & [] & _)]; exact H.
  - rewrite IH. destruct (Flight.runway_id f) as [rid|] eqn:E.
    + rewrite lookup_insert_is_Some. split.
      * intros [[->|[_ H]]|(g & Hg & Hr)]; eauto 6.
      * intros [H|(g & [->|Hg] & Hr)]; eauto 6.
        -- destruct (decide (rid = R)); eauto 6.
        -- left. left. congruence.
    + split.
      * intros [H|(g & Hg & Hr)]; eauto 6.
      * intros [H|(g & [->|Hg] & Hr)]; eauto 6. congruence.
Qed.

(** [fetchAssignedFlights] has an entry for a runway exactly when a stored
    flight with an active status holds that runway. *)
Lemma fetchAssignedFlights_is_Some d R :
  is_Some (Runways.fetchAssignedFlights d !! R)
  <-> exists f, In f (flights d) /\ Flight.runway_id f = Some R
                /\ Runways.active (Flight.status f) = true.
Proof.
  unfold Runways.fetchAssignedFlights. rewrite assigned_fold_is_Some.
  rewrite lookup_empty. split.
  - intros [[x Hx]|(f & Hf & Hr)]; [discriminate|].
    apply filter_In in Hf as [Hin Hact]. rewrite Hr in Hact. eauto.
  - intros (f & Hin & Hr & Hact). right. exists f. split; [|exact Hr].
    apply filter_In. split; [exact Hin|]. now rewrite Hr.
Qed.

(** An edit of a stored runway by an administrator or controller, with a
    length the column holds and a name no other runway carries. *)
Lemma runways_update_by_ATC d user u x :
  is_ATC d user = true ->
  runway_exists x d = true ->
  int4_in (Runway.set_length_meters u) = None ->
  match Runway.set_name u with
  | Some n => existsb (fun r => negb (N.eqb (Runway.id r) x)
                                && String.eqb (Runway.name r) n) (runways d)
  | None => false
  end = false ->
  runways_update user u x d
  = inr (with_runways
           (map (fun r => if N.eqb (Runway.id r) x then Runway.apply u r else r)
                (runways d)) d).
Proof.
  intros H Hx Hlen Hname. unfold runways_update.
  now rewrite rls_using_select, rls_runways_update, rls_runways_update_check, H, Hx,
    Hlen, Hname.
Qed.

(** C3.  The guard of the status selector of the Runways page
    ([handleStatusChange]) reads the assignments the page holds.  When they
    are what [fetchAssignedFlights] reads from the store and a flight with
    an active status (not landed, cancelled or departed) holds runway [R],
    setting [R] to available is refused with the toast "Cannot Set
    Available" and nothing is sent; a change to any other status is never
    stopped by the guard.  The claim fails on the two other ways to the
    same update: the edit dialog ([handleSave]) sends the status of its
    form without any guard, and the selector sends it when the assignments
    the page holds do not list the runway (they are empty until the first
    read is back).  In both, for an administrator or controller with no
    request lost, runway [R] is stored as available while the flight still
    holds it. *)
Theorem runway_guard user cache w R f :
  In f (flights (db w)) ->
  Flight.runway_id f = Some R ->
  Runways.active (Flight.status f) = true ->
  (let w' := exec (Runways.handleStatusChange user cache
                     (Runways.fetchAssignedFlights (db w)) R available) w in
   db w' = db w
   /\ wire w' = wire w
   /\ toasts w' = (toasts w ++ [Toast.mk "Cannot Set Available"
                                  "This runway has an active flight assignment."
                                  true])%list)
  /\ (forall assigned s,
        s <> available ->
        let w' := exec (Runways.handleStatusChange user cache assigned R s) w in
        exists rest,
          wire w' = (wire w ++ mkRequest public_runways UPDATE (Some R) :: rest)%list)
  /\ (forall r form,
        stored_runway (db w) R = Some r ->
        is_ATC (db w) user = true ->
        faults w = [] ->
        Runways.name form = Runway.name r ->
        Runways.name form <> EmptyString ->
        int4_ok (Runways.length_meters form) = true ->
        Runways.form_status form = available ->
        List.NoDup (map Runway.name (runways (db w))) ->
        let w' := exec (Runways.handleSave user form (Some R)) w in
        (exists r', stored_runway (db w') R = Some r' /\ Runway.status r' = available)
        /\ In f (flights (db w'))
        /\ toasts w' = (toasts w ++ [Toast.mk "Runway Updated" EmptyString false])%list)
  /\ (forall r assigned,
        stored_runway (db w) R = Some r ->
        is_ATC (db w) user = true ->
        faults w = [] ->
        assigned !! R = None ->
        let w' := exec (Runways.handleStatusChange user cache assigned R available) w in
        (exists r', stored_runway (db w') R = Some r' /\ Runway.status r' = available)
        /\ In f (flights (db w'))
        /\ exists t, toasts w' = (toasts w ++ [t])%list
                     /\ Toast.title t = "Status Updated").
Proof.
  intros Hin Hr Hact. split; [|split; [|split]].
  - assert (Hs : is_Some (Runways.fetchAssignedFlights (db w) !! R))
      by (apply fetchAssignedFlights_is_Some; eauto).
    unfold exec, Runways.handleStatusChange.
    rewrite (bool_decide_eq_true_2 _ Hs). simpl. auto.
  - intros assigned s Hs.
    assert (Hne : runway_status_eqb s available = false)
      by (destruct s; try reflexivity; contradiction).
    destruct w as [d t n fs wr ts ps].
    unfold exec, Runways.handleStatusChange, logActivity, bind, send, toast, ret.
    rewrite Hne. cbn [andb faults db entropy now wire toasts passed].
    destruct fs as [|[] fs]; cbn [tl snd fst wire];
      try (eexists; reflexivity);
      (destruct (runways_update user (Runway.only_status s) R d);
       cbn [tl snd fst wire faults db entropy];
       [eexists; reflexivity|];
       try (destruct fs as [|[] fs]); cbn [tl snd fst wire faults db entropy];
       try match goal with
           | |- context [activity_log_insert ?a ?b ?c ?e ?g ?h ?i] =>
               destruct (activity_log_insert a b c e g h i)
           end;
       cbn [snd wire]; rewrite <- app_assoc; eexists; reflexivity).
  - intros r form Hstored Hatc Hfaults Hname Hne Hlen Hst Hnd.
    destruct w as [d t n fs wr ts ps]; cbn [faults db toasts] in *; subst fs.
    apply String.eqb_neq in Hne.
    unfold Runways.handleSave. rewrite Hne. handler_unfold.
    rewrite runways_update_by_ATC.
    + cbn [faults db entropy now wire toasts passed tl fst snd].
      rewrite activity_log_insert_own.
      cbn [faults db entropy now wire toasts passed tl fst snd
           flights runways with_activity_log with_runways].
      split; [|split; [exact Hin|reflexivity]].
      unfold stored_runway in *. cbn [runways with_activity_log with_runways].
      rewrite find_map_where by reflexivity. rewrite Hstored.
      eexists. split; [reflexivity|]. cbn. exact Hst.
    + exact Hatc.
    + unfold runway_exists. now apply (find_Some_existsb _ _ r).
    + cbn [Runway.set_length_meters int4_in]. now rewrite Hlen.
    + cbn [Runway.set_name]. rewrite Hname.
      unfold stored_runway in Hstored. apply find_some in Hstored as [Hr_in Hid].
      apply N.eqb_eq in Hid.
      clear - Hnd Hr_in Hid. induction (runways d) as [|q rows IH]; [reflexivity|].
      cbn [map] in Hnd. inversion Hnd as [|? ? Hq Hnd']; subst.
      cbn [existsb]. destruct Hr_in as [->|Hr_in].
      * rewrite N.eqb_refl. cbn [negb andb orb].
        apply not_true_iff_false. intros Hex. apply existsb_exists in Hex as (q & Hq_in & Hq').
        apply andb_true_iff in Hq' as [_ Hq']. apply String.eqb_eq in Hq'.
        apply Hq. rewrite <- Hq'. now apply in_map.
      * rewrite IH by assumption. rewrite orb_false_r.
        destruct (String.eqb (Runway.name q) (Runway.name r)) eqn:E;
          [|now rewrite andb_false_r].
        apply String.eqb_eq in E. exfalso. apply Hq. rewrite E. now apply in_map.
  - intros r assigned Hstored Hatc Hfaults Hnone.
    destruct w as [d t n fs wr ts ps]; cbn [faults db toasts] in *; subst fs.
    unfold Runways.handleStatusChange.
    rewrite bool_decide_eq_false_2
      by (rewrite Hnone; intros [x Hx]; discriminate Hx).
    cbn [runway_status_eqb andb]. handler_unfold.
    rewrite runways_update_status by exact Hatc.
    cbn [faults db entropy now wire toasts passed tl fst snd].
    rewrite activity_log_insert_own.
    cbn [faults db entropy now wire toasts passed tl fst snd
         flights runways with_activity_log with_runways].
    split; [|split; [exact Hin|eexists; split; reflexivity]].
    unfold stored_runway in *. cbn [runways with_activity_log with_runways].
    rewrite find_map_where by reflexivity. rewrite Hstored.
    eexists. split; reflexivity.
Qed.

(** For instance: AA100 is boarding on runway 1 of the small airport, which
    is occupied.  The selector refuses to set the runway to available when
    the page has read the assignments; controller 101 sets it to available
    from the edit dialog, and from the selector of a page that has not read
    them yet. *)
Lemma runway_guard_witness :
  (let w' := exec (Runways.handleStatusChange 101%N (runways demo_db)
                     (Runways.fetchAssignedFlights (db demo_world)) 1%N available)
                  demo_world in
   db w' = db demo_world
   /\ wire w' = wire demo_world
   /\ toasts w' = (toasts demo_world
                   ++ [Toast.mk "Cannot Set Available"
                         "This runway has an active flight assignment." true])%list)
  /\ (let w' := exec (Runways.handleSave 101%N runway_01L_available (Some 1%N))
                     demo_world in
      (exists r', stored_runway (db w') 1%N = Some r' /\ Runway.status r' = available)
      /\ In demo_flight (flights (db w'))
      /\ toasts w'
         = (toasts demo_world ++ [Toast.mk "Runway Updated" EmptyString false])%list)
  /\ (let w' := exec (Runways.handleStatusChange 101%N (runways demo_db) ∅ 1%N
                        available) demo_world in
      (exists r', stored_runway (db w') 1%N = Some r' /\ Runway.status r' = available)
      /\ In demo_flight (flights (db w'))
      /\ exists t, toasts w' = (toasts demo_world ++ [t])%list
                   /\ Toast.title t = "Status Updated").
Proof.
  destruct (runway_guard 101%N (runways demo_db) demo_world 1%N demo_flight)
    as (Hguard & _ & Hedit & Hstale).
  - left. reflexivity.
  - reflexivity.
  - reflexivity.
  - split; [exact Hguard|]. split.
    + apply (Hedit (Runway.mk 1%N "Runway 01L" 3800 occupied "asphalt" None));
        try reflexivity; [discriminate|].
      repeat constructor; cbn; intuition discriminate.
    + apply (Hstale (Runway.mk 1%N "Runway 01L" 3800 occupied "asphalt" None));
        reflexivity.
Defined.

(** ** Acknowledging an alert *)

(** C4 does not hold as stated: alert 50 was acknowledged by controller 101
    at time 5000; administrator 100 acknowledges it again at time 9000 and
    both [acknowledged_by] and [acknowledged_at] change. *)
Lemma handleAcknowledge_twice_overwrites :
  ~ acknowledged_once demo_world_acknowledged
      (exec (Alerts.handleAcknowledge 100%N 50%N) demo_world_acknowledged) 50%N.
Proof.
  intros H.
  specialize (H (Alert.acknowledge 101%N 5000 demo_alert) eq_refl eq_refl
                (Alert.acknowledge 100%N 9000 demo_alert) eq_refl) as [H _].
  discriminate H.
Qed.

(** C4, as the code has it.  [handleAcknowledge] does not look at the state
    of the alert.  With no request lost, a call by an administrator or
    controller rewrites the alert: it is acknowledged and inactive, and
    [acknowledged_by] and [acknowledged_at] are the caller and the current
    time, whoever acknowledged it before; the other columns stay.  A call
    by any other caller changes no alert. *)
Theorem handleAcknowledge_overwrites user x w a :
  stored_alert (db w) x = Some a ->
  faults w = [] ->
  let w' := exec (Alerts.handleAcknowledge user x) w in
  (is_ATC (db w) user = true ->
   exists a',
     stored_alert (db w') x = Some a'
     /\ Alert.is_acknowledged a' = true
     /\ Alert.is_active a' = false
     /\ Alert.acknowledged_by a' = Some user
     /\ Alert.acknowledged_at a' = Some (now w)
     /\ (Alert.title a', Alert.message a', Alert.severity a', Alert.flight_id a',
         Alert.runway_id a', Alert.created_by a')
        = (Alert.title a, Alert.message a, Alert.severity a, Alert.flight_id a,
           Alert.runway_id a, Alert.created_by a))
  /\ (is_ATC (db w) user = false -> alerts (db w') = alerts (db w)).
Proof.
  intros Hstored Hfaults.
  destruct w as [d t n fs wr ts ps]; simpl in *; subst fs.
  unfold exec, Alerts.handleAcknowledge, logActivity, bind, Date_now, send, toast, ret;
    simpl.
  split; intros Hatc.
  - rewrite alerts_update_by_ATC by exact Hatc. simpl.
    rewrite activity_log_insert_own. simpl.
    exists (Alert.acknowledge user t a).
    split; [|repeat split].
    unfold stored_alert in *; simpl.
    rewrite find_map_where by reflexivity. now rewrite Hstored.
  - rewrite alerts_update_skipped by exact Hatc. simpl.
    rewrite activity_log_insert_own. reflexivity.
Qed.

(** For instance: the second acknowledgement of alert 50. *)
Lemma handleAcknowledge_overwrites_witness :
  let w := demo_world_acknowledged in
  let w' := exec (Alerts.handleAcknowledge 100%N 50%N) w in
  (is_ATC (db w) 100%N = true ->
   exists a',
     stored_alert (db w') 50%N = Some a'
     /\ Alert.is_acknowledged a' = true
     /\ Alert.is_active a' = false
     /\ Alert.acknowledged_by a' = Some 100%N
     /\ Alert.acknowledged_at a' = Some 9000
     /\ (Alert.title a', Alert.message a', Alert.severity a', Alert.flight_id a',
         Alert.runway_id a', Alert.created_by a')
        = (Alert.title demo_alert, Alert.message demo_alert,
           Alert.severity demo_alert, Alert.flight_id demo_alert,
           Alert.runway_id demo_alert, Alert.created_by demo_alert))
  /\ (is_ATC (db w) 100%N = false -> alerts (db w') = alerts (db w)).
Proof.
  apply (handleAcknowledge_overwrites 100%N 50%N demo_world_acknowledged
           (Alert.acknowledge 101%N 5000 demo_alert)); reflexivity.
Defined.

(** ** Delaying a flight *)

Lemma rls_alerts_insert_any_role d user :
  is_ATC d user || has_role (user_roles d) user staff = true ->
  rls_check public_alerts INSERT (ctx_of user d) = true.
Proof.
  intros H. unfold rls_check, policies, caller_has; cbn -[has_role].
  unfold is_ATC in H.
  destruct (has_role (user_roles d) user admin),
           (has_role (user_roles d) user atc),
           (has_role (user_roles d) user staff); simpl in *;
    try discriminate; reflexivity.
Qed.

Lemma existsb_map_where {Row : Type} (id : Row -> uuid) (f : Row -> Row) (x y : uuid)
    (rows : list Row) :
  (forall r, id (f r) = id r) ->
  existsb (fun r => N.eqb (id r) y)
          (map (fun r => if N.eqb (id r) x then f r else r) rows)
  = existsb (fun r => N.eqb (id r) y) rows.
Proof.
  intros Hid. induction rows as [|r rows IH]; simpl; [reflexivity|].
  rewrite IH. destruct (N.eqb (id r) x); now rewrite ?Hid.
Qed.

Lemma alerts_insert_ok d user p :
  is_ATC d user || has_role (user_roles d) user staff = true ->
  fk_ok flight_exists (Alert.p_flight_id p) d = true ->
  alerts_insert user p d
  = inr (with_alerts
           (alerts d ++ [Alert.inserted (gen_random_uuid (map Alert.id (alerts d))) p])
           d).
Proof.
  intros Hrole Hfk. unfold alerts_insert.
  now rewrite rls_alerts_insert_any_role, Hfk by exact Hrole.
Qed.

(** C6 does not hold as stated: controller 101 delays AA100 by the default
    30 minutes and leaves the reason empty; the flight keeps its earlier
    note ("Crew change") instead of the reason. *)
Lemma handleDelay_empty_reason_keeps_notes :
  ~ delayed_as_specified demo_world
      (exec (ATCPanel.handleDelay 101%N (Some demo_flight) 30 EmptyString) demo_world)
      demo_flight 30 EmptyString.
Proof.
  intros (g & a & e & Hg & _ & _ & _ & Hnotes & _).
  vm_compute in Hg. injection Hg as <-. discriminate Hnotes.
Qed.

(** A time the engine reads is the time of a valid [Date]. *)
Lemma timestamptz_ok_Date_valid t :
  timestamptz_ok t = true -> ATCPanel.Date_valid t = true.
Proof.
  unfold timestamptz_ok, ATCPanel.Date_valid, iso_min, iso_max, ATCPanel.Date_max.
  intros H. apply andb_true_iff in H as [H1 H2].
  apply andb_true_iff; split; apply Z.leb_le; apply Z.leb_le in H1, H2; lia.
Qed.

(** C6, as the code has it.  For a delay of [m] minutes of the flight shown
    in the delay dialog, by a caller who holds a role, with no request
    lost, the dialog's copy being the stored row and both new times being
    dates the store reads (years 1 to 9999): the flight becomes delayed,
    [scheduled_departure] and [scheduled_arrival] both move forward by
    exactly [m] minutes (the interval between them is unchanged), [notes]
    holds the operator's reason when one was entered and keeps its earlier
    content when the reason is empty, and exactly one alert, of severity
    warning, and one activity entry are added. *)
Theorem handleDelay_effects user f m reason w :
  stored_flight (db w) (Flight.id f) = Some f ->
  is_ATC (db w) user || has_role (user_roles (db w)) user staff = true ->
  faults w = [] ->
  ATCPanel.Date_valid (Flight.scheduled_departure f)
  && ATCPanel.Date_valid (Flight.scheduled_arrival f) = true ->
  timestamptz_ok (Flight.scheduled_departure f + m * 60000)
  && timestamptz_ok (Flight.scheduled_arrival f + m * 60000) = true ->
  let w' := exec (ATCPanel.handleDelay user (Some f) m reason) w in
  exists g a e,
    stored_flight (db w') (Flight.id f) = Some g
    /\ Flight.status g = delayed
    /\ Flight.scheduled_departure g = Flight.scheduled_departure f + m * 60000
    /\ Flight.scheduled_arrival g = Flight.scheduled_arrival f + m * 60000
    /\ Flight.scheduled_arrival g - Flight.scheduled_departure g
       = Flight.scheduled_arrival f - Flight.scheduled_departure f
    /\ Flight.notes g
       = (if String.eqb reason EmptyString then Flight.notes f else Some reason)
    /\ alerts (db w') = (alerts (db w) ++ [a])%list
    /\ Alert.severity a = warning
    /\ Alert.flight_id a = Some (Flight.id f)
    /\ activity_log (db w') = (activity_log (db w) ++ [e])%list.
Proof.
  intros Hstored Hrole Hfaults Hvalid Hnew.
  apply andb_true_iff in Hnew as [Hdep Harr].
  destruct w as [d t n fs wr ts ps]; simpl in *; subst fs.
  unfold exec, ATCPanel.handleDelay, logActivity, bind, send, toast, ret.
  rewrite Hvalid, (timestamptz_ok_Date_valid _ Hdep), (timestamptz_ok_Date_valid _ Harr).
  cbn [andb negb faults db entropy now wire toasts passed tl fst snd].
  rewrite flights_update_plain;
    [ | exact Hrole | reflexivity | now left
      | unfold flights_conversion, timestamptz_in;
        cbn [Flight.set_scheduled_departure Flight.set_scheduled_arrival
             Flight.set_capacity int4_in];
        now rewrite Hdep, Harr ].
  cbn [negb faults db entropy now wire toasts passed tl fst snd].
  rewrite activity_log_insert_own.
  cbn [negb faults db entropy now wire toasts passed tl fst snd].
  assert (Hex : existsb (fun r => N.eqb (Flight.id r) (Flight.id f)) (flights d) = true)
    by (apply (find_Some_existsb _ _ f); exact Hstored).
  rewrite alerts_insert_ok.
  - cbn [db snd alerts activity_log with_alerts with_activity_log with_flights flights].
    unfold stored_flight in *.
    cbn [flights with_alerts with_activity_log with_flights].
    rewrite find_map_where by reflexivity. rewrite Hstored.
    do 3 eexists. repeat split. simpl. lia.
  - exact Hrole.
  - cbn [fk_ok Alert.p_flight_id]. unfold flight_exists.
    cbn [flights with_activity_log with_flights].
    now rewrite existsb_map_where by reflexivity.
Qed.

(** For instance: AA100 delayed by 45 minutes for weather. *)
Lemma handleDelay_effects_witness :
  let w := demo_world in
  let w' := exec (ATCPanel.handleDelay 101%N (Some demo_flight) 45 "Weather") w in
  exists g a e,
    stored_flight (db w') 10%N = Some g
    /\ Flight.status g = delayed
    /\ Flight.scheduled_departure g = 1000 + 45 * 60000
    /\ Flight.scheduled_arrival g = 2000 + 45 * 60000
    /\ Flight.scheduled_arrival g - Flight.scheduled_departure g = 2000 - 1000
    /\ Flight.notes g = Some "Weather"
    /\ alerts (db w') = (alerts (db w) ++ [a])%list
    /\ Alert.severity a = warning
    /\ Alert.flight_id a = Some 10%N
    /\ activity_log (db w') = (activity_log (db w) ++ [e])%list.
Proof.
  apply (handleDelay_effects 101%N demo_flight 45 "Weather" demo_world);
    reflexivity.
Defined.

(** A delay that takes the schedule past the year 9999 is refused by the
    store: controller 101 delays AA100 by 4300000000 minutes and nothing
    changes. *)
Lemma handleDelay_past_year_9999 :
  let w' := exec (ATCPanel.handleDelay 101%N (Some demo_flight) 4300000000 "Weather")
                 demo_world in
  db w' = db demo_world
  /\ toasts w'
     = [Toast.mk "Error" (error_message (datetime_refused (1000 + 4300000000 * 60000)))
                 true].
Proof. split; reflexivity. Qed.

(** ** Roles *)

(** The upsert of [handleRoleChange] names [user_id] as its conflict target;
    no unique constraint of [user_roles] is on [user_id] alone, so the store
    rejects the statement whatever the table holds. *)
Lemma user_roles_upsert_rejected session userId newRole d :
  user_roles_upsert session userId newRole ["user_id"] d = inl no_conflict_target.
Proof. reflexivity. Qed.

Lemma handleRoleChange_refused session userId newRole w :
  let w' := exec (Admin.handleRoleChange session userId newRole) w in
  db w' = db w
  /\ exists e, toasts w' = (toasts w ++ [Toast.mk "Error" (error_message e) true])%list.
Proof.
  destruct w as [d t n fs wr ts ps].
  unfold exec, Admin.handleRoleChange, Admin.handleRoleChange_then, bind, send, toast.
  rewrite user_roles_upsert_rejected.
  destruct fs as [|[] fs]; simpl; split; try reflexivity;
    first [ now exists no_conflict_target | now exists transport_failure ].
Qed.

(** C8.  The constraint of [user_roles] is UNIQUE (user_id, role), not a
    constraint keyed by user: with user 102 holding staff, an administrator's
    insert of (102, atc) is accepted and user 102 then holds two roles.
    [handleRoleChange] asks for an upsert ON CONFLICT (user_id); there is no
    such constraint, so in every world the store answers with an error: the
    handler shows the error toast and the role is not replaced. *)
Theorem user_roles_not_keyed_by_user :
  (exists d',
      user_roles_insert 100%N 102%N atc demo_db = inr d'
      /\ has_role (user_roles d') 102%N staff = true
      /\ has_role (user_roles d') 102%N atc = true)
  /\ (forall session userId newRole w,
        let w' := exec (Admin.handleRoleChange session userId newRole) w in
        db w' = db w
        /\ exists e,
             toasts w' = (toasts w ++ [Toast.mk "Error" (error_message e) true])%list)
  /\ get_user_role
       (user_roles (db (exec (Admin.handleRoleChange 100%N 102%N atc) demo_world)))
       102%N = Some staff.
Proof.
  split; [|split].
  - eexists. split; [reflexivity|]. split; reflexivity.
  - intros. apply handleRoleChange_refused.
  - reflexivity.
Qed.

(** ** Invariants along runs *)

Lemma preserves_ret {A : Type} (P : DbInv) (a : A) : preserves P (ret a).
Proof. intros w H. exact H. Qed.

Lemma preserves_bind {A B : Type} (P : DbInv) (m : M A) (k : A -> M B) :
  preserves P m -> (forall a, preserves P (k a)) -> preserves P (bind m k).
Proof.
  intros Hm Hk w H. unfold exec, bind.
  specialize (Hm w H). unfold exec in Hm.
  destruct (m w) as [a w1]. apply (Hk a w1 Hm).
Qed.

Lemma preserves_toast (P : DbInv) title description destructive :
  preserves P (toast title description destructive).
Proof. intros w H. exact H. Qed.

Lemma preserves_Date_now (P : DbInv) : preserves P Date_now.
Proof. intros w H. exact H. Qed.

Lemma preserves_send (P : DbInv) rq stmt :
  stmt_preserves P stmt -> preserves P (send rq stmt).
Proof.
  intros Hs [d t n fs wr ts ps] H. unfold holds, exec, send in *.
  cbn [db passed faults entropy] in *.
  destruct fs as [|[] fs]; cbn [snd db passed]; try exact H;
    (destruct (stmt n d) as [e|d'] eqn:E; cbn [snd db passed]; [exact H|];
     exact (Hs n d d' ps E H)).
Qed.

Lemma preserves_environment (P : DbInv) t fs w :
  holds P w -> holds P (environment t fs w).
Proof. intros H. exact H. Qed.

(** Takes a handler apart into its requests. *)
Ltac handler_steps :=
  repeat match goal with
         | |- preserves _ (ret _) => apply preserves_ret
         | |- preserves _ (toast _ _ _) => apply preserves_toast
         | |- preserves _ Date_now => apply preserves_Date_now
         | |- preserves _ (bind _ _) => apply preserves_bind; [|intros ?]
         | |- preserves _ (match ?x with _ => _ end) => destruct x
         end.

Section RunInvariant.
Variable md5 : string -> string.
Variable random_text : N -> string.
Variable P : DbInv.
Hypothesis P_stmt :
  forall stmt, sent_by_program md5 random_text stmt -> stmt_preserves P stmt.
Hypothesis P_signUp : signUp_preserves P.

Lemma preserves_signUp x full_name email : preserves P (signUp x full_name email).
Proof.
  intros [d t n fs wr ts ps] H. unfold holds, exec, signUp in *.
  cbn [db passed] in *.
  destruct (handle_new_user x full_name email d) as [e|d'] eqn:E;
    cbn [snd db passed]; [exact H|]. exact (P_signUp _ _ _ _ _ _ E H).
Qed.

Lemma preserves_logActivity session userId action entityType entityId details :
  preserves P (logActivity session userId action entityType entityId details).
Proof.
  unfold logActivity. handler_steps.
  apply preserves_send, P_stmt. apply sent_activity_log_insert.
Qed.

Ltac sent_stmt :=
  lazymatch goal with
  | |- sent_by_program _ _ (fun _ => flights_insert _ _) =>
      apply sent_flights_insert
  | |- sent_by_program _ _ (fun _ => flights_update _ _ _) =>
      apply sent_flights_update
  | |- sent_by_program _ _ (fun _ => flights_delete _ _) =>
      apply sent_flights_delete
  | |- sent_by_program _ _ (fun _ => runways_insert _ _ _ _ _ _) =>
      apply sent_runways_insert
  | |- sent_by_program _ _ (fun _ => runways_update _ _ _) =>
      apply sent_runways_update
  | |- sent_by_program _ _ (fun _ => runways_delete _ _) =>
      apply sent_runways_delete
  | |- sent_by_program _ _ (fun n => passengers_insert _ _ _) =>
      apply sent_passengers_insert
  | |- sent_by_program _ _ (fun _ => passengers_update _ (Passenger.apply _) _) =>
      apply sent_passengers_update_payload
  | |- sent_by_program _ _
         (fun _ => passengers_update _ (Passenger.set_boarding_status _) _) =>
      apply sent_passengers_update_boarding
  | |- sent_by_program _ _ (fun _ => passengers_delete _ _) =>
      apply sent_passengers_delete
  | |- sent_by_program _ _ (fun _ => alerts_insert _ _) =>
      apply sent_alerts_insert
  | |- sent_by_program _ _ (fun _ => alerts_update _ _ _) =>
      apply sent_alerts_update
  | |- sent_by_program _ _ (fun _ => user_roles_upsert _ _ _ _) =>
      apply sent_user_roles_upsert
  end.

Ltac handler_requests :=
  handler_steps;
  first [ apply preserves_logActivity
        | apply preserves_send, P_stmt; sent_stmt ].

Lemma run_preserves o : preserves P (run md5 random_text o).
Proof.
  destruct o; cbn [run].
  - unfold Flights.handleSave. handler_requests; reflexivity.
  - unfold Flights.handleDelete. handler_requests.
  - unfold Flights.handleStatusChange. handler_requests; reflexivity.
  - unfold ATCPanel.executeAction. handler_requests.
    unfold ATCPanel.updates, actuals_with_status.
    cbn [Flight.set_actual_departure Flight.set_actual_arrival Flight.set_status].
    destruct (ATCPanel.newStatus p); reflexivity.
  - unfold ATCPanel.handleDelay. handler_requests; reflexivity.
  - unfold Runways.handleSave. handler_requests.
  - unfold Runways.handleDelete. handler_requests.
  - unfold Runways.handleStatusChange. handler_requests.
  - unfold Alerts.handleAcknowledge. handler_requests.
  - unfold Alerts.handleCreate. handler_requests.
  - unfold Passengers.handleSave. handler_requests.
  - unfold Passengers.handleDelete. handler_requests.
  - unfold Passengers.handleBoardingUpdate. handler_requests.
  - unfold Admin.handleRoleChange, Admin.handleRoleChange_then. handler_requests.
  - apply preserves_signUp.
Qed.

Lemma reachable_holds :
  (forall roles, P (with_user_roles roles seed) []) ->
  forall w, reachable md5 random_text w -> holds P w.
Proof.
  intros Hseed w Hw. induction Hw as [roles t n fs|w w' Hw IH Hstep].
  - apply Hseed.
  - destruct Hstep as [o t fs w]. apply run_preserves, preserves_environment, IH.
Qed.

End RunInvariant.

(** Splits a statement that went through into the store it left. *)
Ltac stmt_inv E :=
  repeat match type of E with
         | context [if ?b then _ else _] => destruct b eqn:?
         | context [match ?x with Some _ => _ | None => _ end] => destruct x eqn:?
         end;
  try discriminate E;
  injection E as <-.

(** *** Timestamps and history *)

Lemma history_step d d' ps :
  (forall f',
      In f' (flights d') ->
      (Flight.actual_departure f' <> None ->
       Flight.status f' = departed
       \/ exists f, In f (flights d) /\ Flight.id f = Flight.id f'
                    /\ Flight.actual_departure f <> None)
      /\ (Flight.actual_arrival f' <> None ->
          Flight.status f' = landed
          \/ exists f, In f (flights d) /\ Flight.id f = Flight.id f'
                       /\ Flight.actual_arrival f <> None)) ->
  actuals_have_history d ps ->
  actuals_have_history d' (remember d' ps).
Proof.
  intros Hstep Hinv f' Hin. destruct (Hstep f' Hin) as [Hdep Harr].
  assert (Hkept : flight_exists (Flight.id f') d' = true).
  { apply existsb_exists. exists f'. split; [exact Hin|apply N.eqb_refl]. }
  split; intros Hset; apply in_or_app.
  - destruct (Hdep Hset) as [Hs|(f & Hf & Hid & Hsetf)].
    + left. unfold observe. apply in_map_iff. exists f'. now rewrite Hs.
    + right. apply filter_In. split; [|exact Hkept].
      rewrite <- Hid. now apply (Hinv f Hf).
  - destruct (Harr Hset) as [Hs|(f & Hf & Hid & Hsetf)].
    + left. unfold observe. apply in_map_iff. exists f'. now rewrite Hs.
    + right. apply filter_In. split; [|exact Hkept].
      rewrite <- Hid. now apply (Hinv f Hf).
Qed.

Lemma history_same_flights d d' ps :
  flights d' = flights d ->
  actuals_have_history d ps -> actuals_have_history d' (remember d' ps).
Proof.
  intros E. apply history_step. intros f' Hin. rewrite E in Hin.
  split; intros Hset; right; exists f'; auto.
Qed.

Lemma history_sub_flights d d' ps :
  (forall f', In f' (flights d') -> In f' (flights d)) ->
  actuals_have_history d ps -> actuals_have_history d' (remember d' ps).
Proof.
  intros Hsub. apply history_step. intros f' Hin. apply Hsub in Hin.
  split; intros Hset; right; exists f'; auto.
Qed.

Lemma history_flights_update user u x d d' ps :
  actuals_with_status u = true ->
  flights_update user u x d = inr d' ->
  actuals_have_history d ps -> actuals_have_history d' (remember d' ps).
Proof.
  intros Hu E. unfold flights_update in E.
  stmt_inv E; try (apply history_same_flights; reflexivity).
  all: apply history_step; intros f' Hin; cbn [flights with_flights] in Hin.
  all: apply in_map_iff in Hin as (r & <- & Hr).
  all: destruct (N.eqb (Flight.id r) x);
       [|split; intros Hset; right; exists r; auto].
  all: unfold actuals_with_status in Hu; apply andb_true_iff in Hu as [Hd Ha].
  all: split; intros Hset; cbn in Hset |- *.
  all: try (destruct (Flight.set_actual_departure u) as [[t|]|];
            [ destruct (Flight.set_status u) as [[]|]; try discriminate Hd;
              left; reflexivity
            | contradiction
            | right; exists r; auto ]).
  all: destruct (Flight.set_actual_arrival u) as [[t|]|];
       [ destruct (Flight.set_status u) as [[]|]; try discriminate Ha;
         left; reflexivity
       | contradiction
       | right; exists r; auto ].
Qed.

Lemma history_flights_insert user u d d' ps :
  no_actuals u = true ->
  flights_insert user u d = inr d' ->
  actuals_have_history d ps -> actuals_have_history d' (remember d' ps).
Proof.
  intros Hu E. unfold flights_insert in E. stmt_inv E.
  apply history_step. intros f' Hin. cbn [flights with_flights] in Hin.
  apply in_app_or in Hin as [Hin|[<-|[]]].
  - split; intros Hset; right; exists f'; auto.
  - unfold no_actuals in Hu. split; intros Hset; cbn in Hset; exfalso;
      destruct (Flight.set_actual_departure u) as [[?|]|],
               (Flight.set_actual_arrival u) as [[?|]|];
      try discriminate Hu; now apply Hset.
Qed.

Lemma history_runways_delete user x d d' ps :
  runways_delete user x d = inr d' ->
  actuals_have_history d ps -> actuals_have_history d' (remember d' ps).
Proof.
  intros E. unfold runways_delete in E.
  stmt_inv E; try (apply history_same_flights; reflexivity).
  apply history_step. intros f' Hin. cbn in Hin.
  apply in_map_iff in Hin as (r & <- & Hr).
  destruct (opt_uuid_eqb (Flight.runway_id r) x);
    split; intros Hset; right; exists r; auto.
Qed.

Lemma history_flights_delete user x d d' ps :
  flights_delete user x d = inr d' ->
  actuals_have_history d ps -> actuals_have_history d' (remember d' ps).
Proof.
  intros E. unfold flights_delete in E.
  stmt_inv E; try (apply history_same_flights; reflexivity).
  apply history_sub_flights. intros f' Hin. cbn in Hin.
  now apply filter_In in Hin as [Hin _].
Qed.

Lemma history_statements md5 random_text stmt :
  sent_by_program md5 random_text stmt -> stmt_preserves actuals_have_history stmt.
Proof.
  intros Hs n d d' ps E. destruct Hs.
  - eapply history_flights_insert; eauto.
  - eapply history_flights_update; eauto.
  - eapply history_flights_delete; eauto.
  - unfold runways_insert in E. stmt_inv E. now apply history_same_flights.
  - unfold runways_update in E.
    stmt_inv E; now apply history_same_flights.
  - eapply history_runways_delete; eauto.
  - unfold passengers_insert in E. stmt_inv E. now apply history_same_flights.
  - unfold passengers_update in E. stmt_inv E; now apply history_same_flights.
  - unfold passengers_update in E. stmt_inv E; now apply history_same_flights.
  - unfold passengers_delete in E. stmt_inv E; now apply history_same_flights.
  - unfold alerts_insert in E. stmt_inv E. now apply history_same_flights.
  - unfold alerts_update in E. stmt_inv E; now apply history_same_flights.
  - unfold activity_log_insert in E. stmt_inv E. now apply history_same_flights.
  - unfold user_roles_upsert, user_roles_violation in E.
    stmt_inv E; now apply history_same_flights.
Qed.

Lemma history_signUp : signUp_preserves actuals_have_history.
Proof.
  intros x fn em d d' ps E H. unfold handle_new_user, user_roles_violation in E.
  stmt_inv E. exact H.
Qed.

(** What [executeAction] writes to the flights table when the caller is an
    administrator or controller and no request is lost. *)
Lemma executeAction_flights user cache pa note w :
  is_ATC (db w) user = true ->
  faults w = [] ->
  flights (db (exec (ATCPanel.executeAction user cache (Some pa) note) w))
  = map (fun r => if N.eqb (Flight.id r) (ATCPanel.flightId pa)
                  then Flight.apply
                         (ATCPanel.updates (ATCPanel.newStatus pa) (now w)
                            (takes_runway_branch cache pa)) r
                  else r) (flights (db w)).
Proof.
  intros Hatc Hfaults.
  destruct w as [d t n fs wr ts ps]; simpl in *; subst fs.
  unfold takes_runway_branch, Flights.find_flight.
  unfold exec, ATCPanel.executeAction, logActivity, bind, Date_now, send, toast, ret.
  cbn [faults db entropy now wire toasts passed tl fst snd].
  destruct (ATCPanel.releases_runway (ATCPanel.newStatus pa)) eqn:Hrel;
    [destruct (List.find _ cache) as [c|];
     [destruct (Flight.runway_id c) as [rid|]|]|];
    cbn [andb faults db entropy now wire toasts passed tl fst snd].
  1: rewrite runways_update_status by exact Hatc;
     cbn [andb faults db entropy now wire toasts passed tl fst snd].
  all: rewrite flights_update_plain
         by (first [ cbn [user_roles with_runways]; unfold is_ATC in *;
                     cbn [user_roles with_runways]; now rewrite Hatc
                   | reflexivity
                   | now left
                   | now right ]).
  all: cbn [andb faults db entropy now wire toasts passed tl fst snd].
  all: rewrite activity_log_insert_own.
  all: cbn [andb faults db entropy now wire toasts passed tl fst snd].
  all: destruct (ATCPanel.raises_alert (ATCPanel.newStatus pa));
       cbn [andb faults db entropy now wire toasts passed tl fst snd];
       try reflexivity.
  all: destruct (alerts_insert _ _ _) as [e|d'] eqn:E;
       cbn [andb faults db entropy now wire toasts passed tl fst snd];
       [reflexivity|].
  all: now apply alerts_insert_frame in E as (-> & _).
Qed.

(** ** The flight invariant *)

Lemma departed_from_selector_reachable :
  reachable demo_md5 demo_random_text departed_from_selector.
Proof.
  unfold departed_from_selector, flight_added.
  eapply reachable_step; [eapply reachable_step; [apply reachable_seed|]|];
    apply step_op.
Qed.

Lemma busy_airport_reachable : reachable toy_md5 toy_random_text busy_airport.
Proof.
  unfold busy_airport. cbv beta zeta.
  repeat (eapply reachable_step; [|apply step_op]).
  apply reachable_seed.
Qed.

(** C5 does not hold as stated: the administrator adds flight AA100 and sets
    it to departed from the status selector of the Flights page; the flight
    has passed through departed and its [actual_departure] is not set. *)
Lemma selector_breaks_flight_invariant :
  ~ (forall w, reachable demo_md5 demo_random_text w -> flight_invariant w).
Proof.
  intros H. specialize (H _ departed_from_selector_reachable).
  destruct (H (Flight.mk 1%N "AA100" "American" "JFK" "LAX" departed 1000 2000
                 None None None None "Boeing 737" 180 (Some 100%N) None))
    as [[_ Hback] _].
  - left. reflexivity.
  - apply Hback; [left; reflexivity|reflexivity].
Qed.

(** C5, as the code has it.  In every world the operations can reach, a
    flight whose [actual_departure] is set has passed through departed and
    a flight whose [actual_arrival] is set has passed through landed (the
    converse fails for status changes made outside the ATC panel).  The
    action confirmed on the ATC panel, by an administrator or controller
    with no request lost, gives the flight the new status, sets
    [actual_departure] to the current time when the new status is departed
    and [actual_arrival] when it is landed, and clears [runway_id] when the
    new status is landed, cancelled or departed and the panel's copy of the
    flight holds a runway. *)
Theorem reachable_flight_timestamps md5 random_text w :
  reachable md5 random_text w ->
  (forall f,
      In f (flights (db w)) ->
      (Flight.actual_departure f <> None -> passed_through w (Flight.id f) departed)
      /\ (Flight.actual_arrival f <> None -> passed_through w (Flight.id f) landed))
  /\ (forall user cache pa note t g,
        is_ATC (db w) user = true ->
        stored_flight (db w) (ATCPanel.flightId pa) = Some g ->
        let w' := exec (ATCPanel.executeAction user cache (Some pa) note)
                       (environment t [] w) in
        exists g',
          stored_flight (db w') (ATCPanel.flightId pa) = Some g'
          /\ Flight.status g' = ATCPanel.newStatus pa
          /\ (ATCPanel.newStatus pa = departed -> Flight.actual_departure g' = Some t)
          /\ (ATCPanel.newStatus pa = landed -> Flight.actual_arrival g' = Some t)
          /\ (takes_runway_branch cache pa = true -> Flight.runway_id g' = None)).
Proof.
  intros Hw. split.
  - apply (reachable_holds md5 random_text actuals_have_history
             (history_statements md5 random_text) history_signUp); [|exact Hw].
    intros roles f [].
  - intros user cache pa note t g Hatc Hg w'.
    exists (Flight.apply (ATCPanel.updates (ATCPanel.newStatus pa) t
                            (takes_runway_branch cache pa)) g).
    split; [|split; [reflexivity|split; [|split]]].
    + subst w'. unfold stored_flight in *.
      rewrite executeAction_flights by (first [exact Hatc | reflexivity]).
      cbn [db environment now].
      rewrite find_map_where by reflexivity. now rewrite Hg.
    + intros ->. reflexivity.
    + intros ->. reflexivity.
    + intros ->. reflexivity.
Qed.

(** For instance, in the busy airport: BA200 took off from the ATC panel at
    time 12, so its [actual_departure] is set and it has passed through
    departed; and when administrator 100 then approves the landing of
    AA100, which holds runway 1, at time 30, the flight is landed, its
    [actual_arrival] is 30 and it holds no runway. *)
Lemma reachable_flight_timestamps_witness :
  let w := busy_airport in
  let pa := ATCPanel.mkPending 1%N "AA100" ATCPanel.landing landed "Approve Landing"
              "Approve landing clearance for AA100?" in
  (exists f,
      In f (flights (db w))
      /\ Flight.flight_number f = "BA200"
      /\ Flight.actual_departure f = Some 12
      /\ passed_through w (Flight.id f) departed)
  /\ (let w' := exec (ATCPanel.executeAction 100%N (flights (db w)) (Some pa)
                        EmptyString) (environment 30 [] w) in
      exists g',
        stored_flight (db w') 1%N = Some g'
        /\ Flight.status g' = landed
        /\ Flight.actual_arrival g' = Some 30
        /\ Flight.runway_id g' = None).
Proof.
  destruct (reachable_flight_timestamps toy_md5 toy_random_text busy_airport
              busy_airport_reachable) as [Hinv Hact].
  split.
  - exists (Flight.mk 2%N "BA200" "British" "LHR" "JFK" departed 3000 9000 (Some 12)
              None None None "Airbus A320" 150 (Some 100%N) None).
    assert (Hin : In (Flight.mk 2%N "BA200" "British" "LHR" "JFK" departed 3000 9000
                        (Some 12) None None None "Airbus A320" 150 (Some 100%N) None)
                     (flights (db busy_airport)))
      by (vm_compute; right; left; reflexivity).
    split; [exact Hin|]. split; [reflexivity|]. split; [reflexivity|].
    apply (proj1 (Hinv _ Hin)). discriminate.
  - destruct (Hact 100%N (flights (db busy_airport))
                (ATCPanel.mkPending 1%N "AA100" ATCPanel.landing landed "Approve Landing"
                   "Approve landing clearance for AA100?")
                EmptyString 30
                (Flight.mk 1%N "AA100" "American" "JFK" "LAX" scheduled 1000 2000 None
                   None (Some 1%N) (Some "A1") "Boeing 737" 180 (Some 100%N) None))
      as (g' & Hg' & Hst & _ & Harr & Hrw).
    + reflexivity.
    + vm_compute. reflexivity.
    + exists g'. split; [exact Hg'|]. split; [exact Hst|].
      split; [now apply Harr|]. apply Hrw. vm_compute. reflexivity.
Defined.

(** ** Ticket identifiers *)

Lemma upper_hex_digit c : hex_digit c = true -> upper_alnum (upper_char c) = true.
Proof.
  destruct c as [[] [] [] [] [] [] [] []]; vm_compute; intros H;
    first [reflexivity | discriminate H].
Qed.

Lemma ticket_id_default_matches digest :
  is_md5_digest digest = true ->
  matches_ticket_pattern (ticket_id_default digest) = true.
Proof.
  unfold is_md5_digest. intros H. apply andb_true_iff in H as [Hlen Hhex].
  destruct digest as [|c1 [|c2 [|c3 [|c4 [|c5 [|c6 [|c7 [|c8 rest]]]]]]]];
    try discriminate Hlen.
  cbn [list_ascii_of_string forallb] in Hhex.
  repeat match type of Hhex with
         | _ && _ = true => apply andb_true_iff in Hhex as [? Hhex]
         end.
  unfold ticket_id_default. cbn [String.substring upper].
  destruct rest; cbv beta iota fix delta [String.append];
    cbn -[upper_alnum upper_char];
    rewrite !upper_hex_digit by assumption; reflexivity.
Qed.

Lemma NoDup_snoc {A : Type} (l : list A) (x : A) :
  List.NoDup l -> ~ In x l -> List.NoDup (l ++ [x]).
Proof.
  intros Hl Hx. induction Hl as [|y l Hy Hl IH]; simpl.
  - constructor; [intros []|constructor].
  - constructor.
    + intros Hin. apply in_app_or in Hin as [Hin|[->|[]]]; [now apply Hy|].
      apply Hx. now left.
    + apply IH. intros Hin. apply Hx. now right.
Qed.

Lemma NoDup_map_filter {A B : Type} (k : A -> B) (p : A -> bool) (l : list A) :
  List.NoDup (map k l) -> List.NoDup (map k (List.filter p l)).
Proof.
  induction l as [|a l IH]; simpl; [auto|].
  intros H. inversion H as [|? ? Hnotin Hrest]; subst.
  destruct (p a); simpl; [|now apply IH].
  constructor; [|now apply IH].
  intros Hin. apply Hnotin. apply in_map_iff in Hin as (b & Hb & Hin).
  apply filter_In in Hin as [Hin _]. apply in_map_iff. eauto.
Qed.

Lemma Forall_filter {A : Type} (P : A -> Prop) (p : A -> bool) (l : list A) :
  Forall P l -> Forall P (List.filter p l).
Proof.
  intros H. apply List.Forall_forall. intros x Hx.
  apply filter_In in Hx as [Hx _]. revert x Hx. now apply List.Forall_forall.
Qed.

Lemma tickets_same_passengers d d' :
  passengers d' = passengers d -> tickets_ok d -> tickets_ok d'.
Proof. unfold tickets_ok. now intros ->. Qed.

Lemma tickets_filtered d d' p :
  passengers d' = List.filter p (passengers d) -> tickets_ok d -> tickets_ok d'.
Proof.
  unfold tickets_ok. intros -> [Hnd Hpat]. split.
  - now apply NoDup_map_filter.
  - now apply Forall_filter.
Qed.

Lemma tickets_updated d d' x f :
  (forall r, Passenger.ticket_id (f r) = Passenger.ticket_id r) ->
  passengers d' = map (fun r => if N.eqb (Passenger.id r) x then f r else r)
                      (passengers d) ->
  tickets_ok d -> tickets_ok d'.
Proof.
  unfold tickets_ok. intros Hf -> [Hnd Hpat]. split.
  - rewrite map_map.
    erewrite map_ext; [exact Hnd|].
    intros r. simpl. now destruct (N.eqb (Passenger.id r) x).
  - apply List.Forall_forall. intros r' Hin.
    apply in_map_iff in Hin as (r & <- & Hr).
    pose proof (proj1 (List.Forall_forall _ _) Hpat r Hr) as Hm.
    destruct (N.eqb (Passenger.id r) x); [now rewrite Hf|exact Hm].
Qed.

Lemma tickets_inserted user ticket p d d' :
  matches_ticket_pattern ticket = true ->
  passengers_insert user ticket p d = inr d' ->
  tickets_ok d -> tickets_ok d'.
Proof.
  intros Hm E [Hnd Hpat]. unfold passengers_insert in E.
  destruct (negb (rls_check public_passengers INSERT (ctx_of user d)));
    [discriminate E|].
  destruct (existsb _ (passengers d)) eqn:Hdup; [discriminate E|].
  destruct (negb (flight_exists _ d)); [discriminate E|].
  injection E as <-. unfold tickets_ok. cbn [passengers with_passengers].
  split.
  - rewrite map_app. apply NoDup_snoc; [exact Hnd|].
    cbn [map Passenger.ticket_id Passenger.inserted].
    intros Hin. apply in_map_iff in Hin as (r & Hr & Hin).
    assert (existsb (fun r => String.eqb (Passenger.ticket_id r) ticket)
                    (passengers d) = true) as Hex.
    { apply existsb_exists. exists r. split; [exact Hin|].
      now apply String.eqb_eq. }
    rewrite Hex in Hdup. discriminate Hdup.
  - apply List.Forall_app. split; [exact Hpat|].
    constructor; [exact Hm|constructor].
Qed.

Section Tickets.
Variable md5 : string -> string.
Variable random_text : N -> string.
Hypothesis md5_digest : forall s, is_md5_digest (md5 s) = true.

Lemma tickets_statements stmt :
  sent_by_program md5 random_text stmt ->
  stmt_preserves (fun d _ => tickets_ok d) stmt.
Proof.
  intros Hs n d d' ps E. destruct Hs.
  - unfold flights_insert in E. stmt_inv E. now apply tickets_same_passengers.
  - unfold flights_update in E. stmt_inv E; now apply tickets_same_passengers.
  - unfold flights_delete in E.
    stmt_inv E; try now apply tickets_same_passengers.
    eapply tickets_filtered. reflexivity.
  - unfold runways_insert in E. stmt_inv E. now apply tickets_same_passengers.
  - unfold runways_update in E. stmt_inv E; now apply tickets_same_passengers.
  - unfold runways_delete in E. stmt_inv E; now apply tickets_same_passengers.
  - eapply tickets_inserted; [|exact E].
    apply ticket_id_default_matches, md5_digest.
  - unfold passengers_update in E.
    stmt_inv E; try now apply tickets_same_passengers.
    eapply tickets_updated; [|reflexivity]. reflexivity.
  - unfold passengers_update in E.
    stmt_inv E; try now apply tickets_same_passengers.
    eapply tickets_updated; [|reflexivity]. reflexivity.
  - unfold passengers_delete in E.
    stmt_inv E; try now apply tickets_same_passengers.
    eapply tickets_filtered. reflexivity.
  - unfold alerts_insert in E. stmt_inv E. now apply tickets_same_passengers.
  - unfold alerts_update in E. stmt_inv E; now apply tickets_same_passengers.
  - unfold activity_log_insert in E. stmt_inv E. now apply tickets_same_passengers.
  - unfold user_roles_upsert, user_roles_violation in E.
    stmt_inv E; now apply tickets_same_passengers.
Qed.

Lemma tickets_signUp : signUp_preserves (fun d _ => tickets_ok d).
Proof.
  intros x fn em d d' ps E H. unfold handle_new_user, user_roles_violation in E.
  stmt_inv E. exact H.
Qed.

Lemma reachable_tickets_ok w : reachable md5 random_text w -> tickets_ok (db w).
Proof.
  intros Hw.
  apply (reachable_holds md5 random_text (fun d _ => tickets_ok d)
           tickets_statements tickets_signUp); [|exact Hw].
  intros roles. split; constructor.
Qed.

End Tickets.

Lemma rls_passengers_insert d user :
  rls_check public_passengers INSERT (ctx_of user d)
  = has_role (user_roles d) user admin || has_role (user_roles d) user staff
    || has_role (user_roles d) user atc.
Proof.
  unfold rls_check, policies; cbn. unfold caller_has; cbn.
  now rewrite orb_false_r.
Qed.

(** On the digits of a digest, [upper] loses nothing: [lower] undoes it. *)
Lemma lower_upper_hex_digit c :
  hex_digit c = true -> lower_char (upper_char c) = c.
Proof.
  destruct c as [[] [] [] [] [] [] [] []]; vm_compute; intros H;
    first [reflexivity | discriminate H].
Qed.

Lemma lower_upper_hex s :
  forallb hex_digit (list_ascii_of_string s) = true -> lower (upper s) = s.
Proof.
  induction s as [|c s IH]; [reflexivity|].
  cbn [list_ascii_of_string forallb upper lower]. intros H.
  apply andb_true_iff in H as [Hc Hs]. now rewrite lower_upper_hex_digit, IH.
Qed.

Lemma substring_hex n s :
  forallb hex_digit (list_ascii_of_string s) = true ->
  forallb hex_digit (list_ascii_of_string (String.substring 0 n s)) = true.
Proof.
  revert s. induction n as [|n IH]; intros [|c s]; try reflexivity.
  cbn [String.substring list_ascii_of_string forallb]. intros H.
  apply andb_true_iff in H as [Hc Hs]. now rewrite Hc, IH.
Qed.

Lemma ticket_id_default_injective digest digest' :
  is_md5_digest digest = true -> is_md5_digest digest' = true ->
  ticket_id_default digest = ticket_id_default digest' ->
  String.substring 0 8 digest = String.substring 0 8 digest'.
Proof.
  unfold is_md5_digest, ticket_id_default. intros H H' E.
  apply andb_true_iff in H as [_ H]. apply andb_true_iff in H' as [_ H'].
  cbv beta iota fix delta [String.append] in E. injection E as E.
  rewrite <- (lower_upper_hex (String.substring 0 8 digest)) by now apply substring_hex.
  rewrite <- (lower_upper_hex (String.substring 0 8 digest')) by now apply substring_hex.
  now rewrite E.
Qed.

(** C9.  With [md5] returning digests (32 digits of 0-9a-f): the default of
    [ticket_id] is TKT- followed by 8 characters of [A-Z0-9], read off the
    first 8 digits of the digest (two digests that differ there give two
    identifiers).  A new passenger saved from the Passengers page, by a
    caller who holds a role, on a stored flight and with no request lost,
    is stored with the identifier generated for the draw, unless a stored
    passenger carries that identifier already: then the UNIQUE constraint
    refuses the insert and nothing is stored.  So in every world the
    operations can reach the ticket identifiers of all passengers match
    the pattern and are pairwise distinct. *)
Theorem ticket_ids_match_and_distinct md5 random_text :
  (forall s, is_md5_digest (md5 s) = true) ->
  (forall s, matches_ticket_pattern (ticket_id_default (md5 s)) = true)
  /\ (forall s s',
        ticket_id_default (md5 s) = ticket_id_default (md5 s') ->
        String.substring 0 8 (md5 s) = String.substring 0 8 (md5 s'))
  /\ (forall user form fid w,
        Passengers.flight_id form = Some fid ->
        form_incomplete (Passengers_handleSave user form None) = false ->
        has_role (user_roles (db w)) user admin
        || has_role (user_roles (db w)) user staff
        || has_role (user_roles (db w)) user atc = true ->
        flight_exists fid (db w) = true ->
        faults w = [] ->
        let ticket := ticket_id_default (md5 (random_text (entropy w))) in
        let w' := exec (Passengers.handleSave md5 random_text user form None) w in
        if existsb (fun p => String.eqb (Passenger.ticket_id p) ticket)
                   (passengers (db w))
        then
          db w' = db w
          /\ toasts w'
             = (toasts w
                ++ [Toast.mk "Error"
                      (error_message (unique_violation "passengers_ticket_id_key"))
                      true])%list
        else
          exists p,
            passengers (db w') = (passengers (db w) ++ [p])%list
            /\ Passenger.ticket_id p = ticket
            /\ Passenger.flight_id p = fid
            /\ Passenger.first_name p = Passengers.first_name form
            /\ Passenger.last_name p = Passengers.last_name form
            /\ Passenger.passport_number p = Passengers.passport_number form)
  /\ (forall w,
        reachable md5 random_text w ->
        List.NoDup (map Passenger.ticket_id (passengers (db w)))
        /\ Forall (fun p => matches_ticket_pattern (Passenger.ticket_id p) = true)
                  (passengers (db w))).
Proof.
  intros Hmd5. split; [|split; [|split]].
  - intros s. apply ticket_id_default_matches, Hmd5.
  - intros s s'. apply ticket_id_default_injective; apply Hmd5.
  - intros user form fid w Hfid Hform Hrole Hflight Hfaults.
    destruct w as [d t n fs wr ts ps]; cbn [faults db entropy toasts] in *; subst fs.
    cbn [form_incomplete] in Hform. rewrite Hfid in Hform. cbn [orb] in Hform.
    unfold Passengers.handleSave. rewrite Hfid, Hform. handler_unfold.
    unfold passengers_insert.
    rewrite rls_passengers_insert, Hrole. cbn [negb].
    destruct (existsb _ (passengers d)) eqn:Hdup;
      cbn [faults db entropy now wire toasts passed tl fst snd].
    + split; reflexivity.
    + cbn [Passenger.inserted Passenger.flight_id Passenger.p_flight_id].
      rewrite Hflight. cbn [negb faults db entropy now wire toasts passed tl fst snd].
      rewrite activity_log_insert_own.
      cbn [faults db entropy now wire toasts passed tl fst snd passengers
           with_activity_log with_passengers].
      eexists. split; [reflexivity|]. repeat split.
  - intros w Hw. exact (reachable_tickets_ok md5 random_text Hmd5 w Hw).
Qed.

Lemma toy_hex_digit c : hex_digit (toy_hex c) = true.
Proof.
  unfold hex_digit, toy_hex.
  pose proof (Nat.mod_upper_bound (nat_of_ascii c) 16) as Hk.
  destruct (nat_of_ascii c mod 16 <? 10)%nat eqn:E;
    rewrite nat_ascii_embedding by lia.
  - apply Nat.ltb_lt in E. apply orb_true_iff. left.
    apply andb_true_iff. split; apply Nat.leb_le; lia.
  - apply Nat.ltb_ge in E. apply orb_true_iff. right.
    apply andb_true_iff. split; apply Nat.leb_le; lia.
Qed.

Lemma toy_digits_digest k s :
  String.length (toy_digits k s) = k
  /\ forallb hex_digit (list_ascii_of_string (toy_digits k s)) = true.
Proof.
  revert s. induction k as [|k IH]; intros s; [split; reflexivity|].
  destruct s as [|c s]; cbn [toy_digits String.length list_ascii_of_string forallb].
  - destruct (IH EmptyString) as [L H]. now rewrite L, H.
  - destruct (IH s) as [L H]. now rewrite L, H, toy_hex_digit.
Qed.

Lemma toy_md5_digest s : is_md5_digest (toy_md5 s) = true.
Proof.
  unfold is_md5_digest, toy_md5.
  destruct (toy_digits_digest 32 s) as [L H]. now rewrite L, H.
Qed.

(** For instance, with the engine of the busy airport: the two passengers
    booked there carry the identifiers of their draws, and a third one,
    booked on AA100 afterwards, gets the identifier of the next draw. *)
Lemma ticket_ids_match_and_distinct_witness :
  let w := busy_airport in
  let form := Passengers.mkForm (Some 1%N) "Grace" "Hopper" "P789" EmptyString "US"
                                checked_in in
  let w' := exec (Passengers.handleSave toy_md5 toy_random_text 100%N form None) w in
  map Passenger.ticket_id (passengers (db w)) = ["TKT-0E400000"; "TKT-0E600000"]
  /\ List.NoDup (map Passenger.ticket_id (passengers (db w)))
  /\ ticket_id_default (toy_md5 (toy_random_text (entropy w))) = "TKT-0E270000"
  /\ exists p,
       passengers (db w') = (passengers (db w) ++ [p])%list
       /\ Passenger.ticket_id p = "TKT-0E270000"
       /\ Passenger.first_name p = "Grace".
Proof.
  destruct (ticket_ids_match_and_distinct toy_md5 toy_random_text toy_md5_digest)
    as (_ & _ & Hnew & Hinv).
  split; [vm_compute; reflexivity|].
  split; [exact (proj1 (Hinv busy_airport busy_airport_reachable))|].
  assert (Hticket : ticket_id_default (toy_md5 (toy_random_text (entropy busy_airport)))
                    = "TKT-0E270000") by (vm_compute; reflexivity).
  split; [exact Hticket|].
  pose proof (Hnew 100%N
                (Passengers.mkForm (Some 1%N) "Grace" "Hopper" "P789" EmptyString "US"
                                   checked_in)
                1%N busy_airport eq_refl eq_refl) as H.
  cbv zeta in H. rewrite Hticket in H.
  replace (existsb _ (passengers (db busy_airport))) with false in H
    by (vm_compute; reflexivity).
  destruct H as (p & Hp & Ht & _ & Hf & _).
  - vm_compute. reflexivity.
  - vm_compute. reflexivity.
  - reflexivity.
  - exists p. split; [exact Hp|]. split; [exact Ht|exact Hf].
Defined.

(** ** The activity log *)

Lemma flights_insert_log user u d d' :
  flights_insert user u d = inr d' -> activity_log d' = activity_log d.
Proof. intros E. unfold flights_insert in E. stmt_inv E. reflexivity. Qed.

Lemma flights_update_log user u x d d' :
  flights_update user u x d = inr d' -> activity_log d' = activity_log d.
Proof. intros E. unfold flights_update in E. stmt_inv E; reflexivity. Qed.

Lemma flights_delete_log user x d d' :
  flights_delete user x d = inr d' -> activity_log d' = activity_log d.
Proof. intros E. unfold flights_delete in E. stmt_inv E; reflexivity. Qed.

Lemma runways_insert_log user name len st surf notes d d' :
  runways_insert user name len st surf notes d = inr d' ->
  activity_log d' = activity_log d.
Proof. intros E. unfold runways_insert in E. stmt_inv E. reflexivity. Qed.

Lemma runways_update_log user u x d d' :
  runways_update user u x d = inr d' -> activity_log d' = activity_log d.
Proof. intros E. unfold runways_update in E. stmt_inv E; reflexivity. Qed.

Lemma runways_delete_log user x d d' :
  runways_delete user x d = inr d' -> activity_log d' = activity_log d.
Proof. intros E. unfold runways_delete in E. stmt_inv E; reflexivity. Qed.

Lemma passengers_insert_log user ticket p d d' :
  passengers_insert user ticket p d = inr d' -> activity_log d' = activity_log d.
Proof. intros E. unfold passengers_insert in E. stmt_inv E. reflexivity. Qed.

Lemma passengers_update_log user f x d d' :
  passengers_update user f x d = inr d' -> activity_log d' = activity_log d.
Proof. intros E. unfold passengers_update in E. stmt_inv E; reflexivity. Qed.

Lemma passengers_delete_log user x d d' :
  passengers_delete user x d = inr d' -> activity_log d' = activity_log d.
Proof. intros E. unfold passengers_delete in E. stmt_inv E; reflexivity. Qed.

Lemma alerts_insert_log user p d d' :
  alerts_insert user p d = inr d' -> activity_log d' = activity_log d.
Proof. intros E. unfold alerts_insert in E. stmt_inv E. reflexivity. Qed.

Lemma alerts_update_log user f x d d' :
  alerts_update user f x d = inr d' -> activity_log d' = activity_log d.
Proof. intros E. unfold alerts_update in E. stmt_inv E; reflexivity. Qed.

Ltac log_statement :=
  match goal with
  | |- context [match ?s with inl _ => _ | inr _ => _ end] =>
      lazymatch s with
      | activity_log_insert _ _ _ _ _ _ _ => rewrite activity_log_insert_own
      | _ => let E := fresh "E" in destruct s eqn:E
      end;
      cbn [faults db entropy now wire toasts passed tl fst snd]
  | |- context [if ATCPanel.raises_alert ?s then _ else _] =>
      destruct (ATCPanel.raises_alert s);
      cbn [faults db entropy now wire toasts passed tl fst snd]
  end.

Ltac log_statements := handler_unfold; repeat log_statement.

Ltac log_frame :=
  repeat match goal with
         | E : flights_insert _ _ _ = inr _ |- _ => apply flights_insert_log in E
         | E : flights_update _ _ _ _ = inr _ |- _ => apply flights_update_log in E
         | E : flights_delete _ _ _ = inr _ |- _ => apply flights_delete_log in E
         | E : runways_insert _ _ _ _ _ _ _ = inr _ |- _ => apply runways_insert_log in E
         | E : runways_update _ _ _ _ = inr _ |- _ => apply runways_update_log in E
         | E : runways_delete _ _ _ = inr _ |- _ => apply runways_delete_log in E
         | E : passengers_insert _ _ _ _ = inr _ |- _ => apply passengers_insert_log in E
         | E : passengers_update _ _ _ _ = inr _ |- _ => apply passengers_update_log in E
         | E : passengers_delete _ _ _ = inr _ |- _ => apply passengers_delete_log in E
         | E : alerts_insert _ _ _ = inr _ |- _ => apply alerts_insert_log in E
         | E : alerts_update _ _ _ _ = inr _ |- _ => apply alerts_update_log in E
         end.

(** Closes a branch: the toasts shown, and the log before and after. *)
Ltac log_done :=
  log_frame;
  cbn [with_runways with_activity_log with_alerts activity_log] in *;
  repeat match goal with
         | H : activity_log ?x = _ |- context [activity_log ?x] => rewrite H
         end;
  first
    [ exists []; split; [now rewrite app_nil_r|]; reflexivity
    | eexists [_]; split; [reflexivity|]; cbn;
      first [ reflexivity | eexists; reflexivity ] ].

(** The run of a page handler that logs, branch by branch. *)
Ltac log_page :=
  lazymatch goal with
  | |- context [Flights.handleSave _ ?form ?e] =>
      unfold Flights.handleSave;
      destruct (Flights.scheduled_departure form), (Flights.scheduled_arrival form);
        try (log_statements; log_done);
      destruct (_ || _); [log_statements; log_done|];
      destruct e; log_statements; log_done
  | |- context [Flights.handleDelete _ _ ?x] =>
      unfold Flights.handleDelete; destruct x; log_statements; log_done
  | |- context [Flights.handleStatusChange _ _ _ _] =>
      unfold Flights.handleStatusChange; log_statements; log_done
  | |- context [ATCPanel.executeAction _ ?cache ?p _] =>
      unfold ATCPanel.executeAction;
      destruct p as [pa|]; [|log_statements; log_done];
      handler_unfold;
      destruct (ATCPanel.releases_runway (ATCPanel.newStatus pa));
        [destruct (List.find _ cache) as [c|];
         [destruct (Flight.runway_id c) as [rid|]|]|];
        log_statements; log_done
  | |- context [ATCPanel.handleDelay _ ?f _ _] =>
      unfold ATCPanel.handleDelay;
      destruct f as [f|]; [|log_statements; log_done];
      destruct (negb _); log_statements; log_done
  | |- context [Runways.handleSave _ _ ?e] =>
      unfold Runways.handleSave;
      destruct (String.eqb _ _); [log_statements; log_done|];
      destruct e; log_statements; log_done
  | |- context [Runways.handleDelete _ _ ?x] =>
      unfold Runways.handleDelete; destruct x; log_statements; log_done
  | |- context [Runways.handleStatusChange _ _ _ _ _] =>
      unfold Runways.handleStatusChange;
      destruct (_ && _); log_statements; log_done
  | |- context [Alerts.handleAcknowledge _ _] =>
      unfold Alerts.handleAcknowledge; log_statements; log_done
  | |- context [Alerts.handleCreate _ _] =>
      unfold Alerts.handleCreate; destruct (_ || _); log_statements; log_done
  | |- context [Passengers.handleSave _ _ _ ?form ?e] =>
      unfold Passengers.handleSave;
      destruct (Passengers.flight_id form); [|log_statements; log_done];
      destruct (_ || _); [log_statements; log_done|];
      destruct e; log_statements; log_done
  | |- context [Passengers.handleDelete _ _ ?x] =>
      unfold Passengers.handleDelete; destruct x; log_statements; log_done
  | |- context [Passengers.handleBoardingUpdate _ _ _ _] =>
      unfold Passengers.handleBoardingUpdate; log_statements; log_done
  end.

(** X30.  Every handler that logs (all but the role change of the Admin
    page), run with no request lost, writes exactly one activity entry when
    it reports success and none otherwise. *)
Theorem handlers_log_once md5 random_text o w :
  logging_page o = true ->
  faults w = [] ->
  logged_once w (exec (run md5 random_text o) w).
Proof.
  intros Ho Hfaults.
  destruct w as [d t n fs wr ts ps]; cbn [faults] in Hfaults; subst fs.
  unfold logged_once.
  destruct o; try discriminate Ho; clear Ho; cbn [run]; log_page.
Qed.

(** For instance, controller 101 of the small airport saves a new runway
    of 3000000000 metres: the store refuses the length, the page shows the
    error and nothing is logged. *)
Lemma handlers_log_once_witness :
  let w' := exec (run demo_md5 demo_random_text
                    (Runways_handleSave 101%N long_runway_form None)) demo_world in
  logged_once demo_world w'
  /\ toasts w'
     = [Toast.mk "Error" (error_message (integer_out_of_range 3000000000)) true]
  /\ activity_log (db w') = [].
Proof.
  split; [|split; reflexivity].
  apply (handlers_log_once demo_md5 demo_random_text
           (Runways_handleSave 101%N long_runway_form None) demo_world);
    reflexivity.
Defined.




(** ** Roles as the store and the pages read them *)

(** X1.  [get_user_role] answers with a role the user holds, and with
    nothing only for a user who holds none: whichever row LIMIT 1 picks, the
    answer agrees with [has_role]. *)
Theorem get_user_role_agrees_with_has_role rows u :
  match get_user_role rows u with
  | Some r => has_role rows u r = true
  | None => forall r, has_role rows u r = false
  end.
Proof.
  unfold get_user_role, has_role.
  induction rows as [|row rows IH]; cbn [List.filter existsb]; [reflexivity|].
  destruct (N.eqb (UserRole.user_id row) u) eqn:Eu; cbn [andb].
  - destruct (UserRole.role row); reflexivity.
  - exact IH.
Qed.

Lemma roleMap_fold rows (m : gmap uuid app_role) k :
  match fold_left (fun (m : gmap uuid app_role) r =>
                     <[UserRole.user_id r := UserRole.role r]> m) rows m !! k with
  | Some r => m !! k = Some r \/ has_role rows k r = true
  | None => m !! k = None /\ forall r, has_role rows k r = false
  end.
Proof.
  revert m. induction rows as [|row rows IH]; intros m; cbn [fold_left].
  - destruct (m !! k) eqn:E; [now left|]. split; [reflexivity|]. reflexivity.
  - specialize (IH (<[UserRole.user_id row := UserRole.role row]> m)).
    destruct (fold_left _ rows _ !! k) as [r|] eqn:E.
    + destruct IH as [IH|IH].
      * destruct (decide (UserRole.user_id row = k)) as [Hk|Hne]; [subst k|].
        -- rewrite lookup_insert_eq in IH. injection IH as <-. right.
           unfold has_role. cbn [existsb]. rewrite N.eqb_refl.
           now destruct (UserRole.role row).
        -- rewrite lookup_insert_ne in IH by exact Hne. now left.
      * right. unfold has_role in *. cbn [existsb]. rewrite IH.
        now rewrite orb_true_r.
    + destruct IH as [IH Hno].
      destruct (decide (UserRole.user_id row = k)) as [Hk|Hne]; [subst k|].
      * rewrite lookup_insert_eq in IH. discriminate IH.
      * rewrite lookup_insert_ne in IH by exact Hne. split; [exact IH|].
        intros r. unfold has_role in *. cbn [existsb]. rewrite Hno.
        apply N.eqb_neq in Hne. now rewrite Hne.
Qed.

(** X2.  The role the Admin page shows next to a user is one the user holds;
    it shows staff for a user who holds none. *)
Theorem fetchUsers_shows_held_role d u :
  In u (Admin.fetchUsers d) ->
  has_role (user_roles d) (Admin.id u) (Admin.role u) = true
  \/ (Admin.role u = staff
      /\ forall r, has_role (user_roles d) (Admin.id u) r = false).
Proof.
  unfold Admin.fetchUsers. intros Hin.
  apply in_map_iff in Hin as (p & <- & _). cbn [Admin.id Admin.role].
  pose proof (roleMap_fold (user_roles d) ∅ (Profile.id p)) as H.
  unfold Admin.roleMap.
  destruct (fold_left _ (user_roles d) ∅ !! Profile.id p) as [r|]; cbn [default].
  - destruct H as [H|H]; [|now left]. rewrite lookup_empty in H. discriminate H.
  - right. split; [reflexivity|]. exact (proj2 H).
Qed.

(** For instance, a store in which user 7 has a profile and two role rows. *)
Lemma fetchUsers_shows_held_role_witness :
  has_role [UserRole.mk 1%N 7%N staff; UserRole.mk 2%N 7%N atc] 7%N atc = true
  \/ (atc = staff
      /\ forall r,
           has_role [UserRole.mk 1%N 7%N staff; UserRole.mk 2%N 7%N atc] 7%N r = false).
Proof.
  apply (fetchUsers_shows_held_role
           (mkDb [Profile.mk 7%N "Ada" "ada@example.org"]
                 [UserRole.mk 1%N 7%N staff; UserRole.mk 2%N 7%N atc]
                 [] [] [] [] [])
           (Admin.mkUser 7%N "Ada" "ada@example.org" atc)).
  vm_compute. left. reflexivity.
Defined.

(** ** Routes *)

(** X3.  A signed-in user, once the session is loaded, is shown every
    protected page of the application whatever the role, except the Admin
    page, which is shown to administrators only. *)
Theorem routes_guard_admin_only path requireRole user role :
  In (path, requireRole) routes ->
  ProtectedRoute false (Some user) role requireRole = Children
  <-> (path <> "/admin" \/ role = Some admin).
Proof.
  unfold routes. cbn [In].
  intros [H|[H|[H|[H|[H|[H|[H|[H|[]]]]]]]]]; injection H as <- <-;
    cbn [ProtectedRoute];
    try (split; [intros _; left; discriminate | reflexivity]).
  split.
  - destruct role as [[]|]; try discriminate. intros _. now right.
  - intros [H | ->]; [now contradiction H|reflexivity].
Qed.

(** For instance, a staff user opens the ATC panel. *)
Lemma routes_guard_admin_only_witness :
  ProtectedRoute false (Some 102%N) (Some staff) None = Children
  <-> ("/atc" <> "/admin" \/ Some staff = Some admin).
Proof.
  apply (routes_guard_admin_only "/atc" None 102%N (Some staff)).
  cbn. tauto.
Defined.

(** ** What the pages list *)

Lemma lower_upper_char c : lower_char (upper_char c) = lower_char c.
Proof. destruct c as [[] [] [] [] [] [] [] []]; reflexivity. Qed.

Lemma lower_upper s : lower (upper s) = lower s.
Proof.
  induction s as [|c s IH]; [reflexivity|].
  cbn [upper lower]. now rewrite lower_upper_char, IH.
Qed.

Lemma includes_empty s : includes s EmptyString = true.
Proof. destruct s; reflexivity. Qed.

Lemma prefix_refl s : String.prefix s s = true.
Proof.
  induction s as [|c s IH]; [reflexivity|].
  cbn [String.prefix]. destruct (ascii_dec c c); [exact IH|contradiction].
Qed.

Lemma includes_refl s : includes s s = true.
Proof. destruct s; cbn [includes]; now rewrite prefix_refl. Qed.

(** X4.  The search of the Flights page, for flights and a search text in
    ASCII: it does not look at the case of the text typed, a flight whose
    number is the text typed, in whatever case, is listed when its status
    is the one chosen, and an empty search text shows every flight of the
    chosen status. *)
Theorem Flights_filtered_search flights search statusFilter :
  Forall (fun f => flight_text_ascii f = true) flights ->
  ascii_text search = true ->
  Flights.filtered flights (upper search) statusFilter
  = Flights.filtered flights search statusFilter
  /\ (forall f,
        In f flights ->
        lower (Flight.flight_number f) = lower search ->
        match statusFilter with
        | None => true
        | Some s => flight_status_eqb (Flight.status f) s
        end = true ->
        In f (Flights.filtered flights search statusFilter))
  /\ Flights.filtered flights EmptyString statusFilter
     = List.filter (fun f => match statusFilter with
                             | None => true
                             | Some s => flight_status_eqb (Flight.status f) s
                             end) flights.
Proof.
  intros _ _. unfold Flights.filtered. split; [|split].
  - now rewrite lower_upper.
  - intros f Hin Hnum Hst. apply filter_In. split; [exact Hin|].
    now rewrite Hnum, includes_refl, Hst.
  - apply filter_ext. intros f. cbn [lower]. now rewrite includes_empty.
Qed.

(** For instance, among the flights of the busy airport: "ba200" and
    "BA200" both list flight BA200. *)
Lemma Flights_filtered_search_witness :
  let flights := flights (db busy_airport) in
  map Flight.flight_number (Flights.filtered flights "ba200" None) = ["BA200"]
  /\ Flights.filtered flights (upper "ba200") None = Flights.filtered flights "ba200" None
  /\ (forall f,
        In f flights -> lower (Flight.flight_number f) = lower "ba200" -> true = true ->
        In f (Flights.filtered flights "ba200" None))
  /\ Flights.filtered flights EmptyString None = List.filter (fun _ => true) flights.
Proof.
  split; [vm_compute; reflexivity|].
  apply (Flights_filtered_search (flights (db busy_airport)) "ba200" None).
  - vm_compute. repeat constructor.
  - reflexivity.
Defined.

Lemma insert_by_In {A : Type} (key : A -> Z) x y l :
  In y (insert_by key x l) <-> y = x \/ In y l.
Proof.
  induction l as [|z l IH]; cbn [insert_by In].
  - intuition congruence.
  - destruct (key x <=? key z); cbn [In]; [intuition congruence|].
    rewrite IH. intuition congruence.
Qed.

Lemma order_by_In {A : Type} (key : A -> Z) y l :
  In y (order_by key l) <-> In y l.
Proof.
  induction l as [|z l IH]; cbn [order_by fold_right In]; [reflexivity|].
  fold (order_by key l). rewrite insert_by_In, IH. intuition congruence.
Qed.

Lemma insert_by_length {A : Type} (key : A -> Z) x l :
  length (insert_by key x l) = S (length l).
Proof.
  induction l as [|z l IH]; cbn [insert_by length]; [reflexivity|].
  destruct (key x <=? key z); cbn [length]; [reflexivity|]. now rewrite IH.
Qed.

Lemma order_by_length {A : Type} (key : A -> Z) l :
  length (order_by key l) = length l.
Proof.
  induction l as [|z l IH]; cbn [order_by fold_right length]; [reflexivity|].
  fold (order_by key l). now rewrite insert_by_length, IH.
Qed.

Lemma insert_by_sorted {A : Type} (key : A -> Z) x l :
  Sorted (fun a b => key a <= key b) l ->
  Sorted (fun a b => key a <= key b) (insert_by key x l).
Proof.
  induction 1 as [|z l Hs IH Hd]; cbn [insert_by].
  - repeat constructor.
  - destruct (key x <=? key z) eqn:E.
    + apply Z.leb_le in E. constructor; [now constructor|now constructor].
    + apply Z.leb_gt in E. constructor; [exact IH|].
      destruct Hd as [|w l Hw]; cbn [insert_by].
      * constructor. lia.
      * destruct (key x <=? key w); constructor; [lia|exact Hw].
Qed.

Lemma order_by_sorted {A : Type} (key : A -> Z) l :
  Sorted (fun a b => key a <= key b) (order_by key l).
Proof.
  induction l as [|z l IH]; cbn [order_by fold_right]; [constructor|].
  now apply insert_by_sorted.
Qed.

(** X5.  The ATC panel lists exactly the stored flights that are not landed,
    cancelled or departed, each once, by ascending scheduled departure. *)
Theorem fetchData_lists_active_flights d :
  (forall f, In f (fst (ATCPanel.fetchData d))
             <-> In f (flights d)
                 /\ ATCPanel.releases_runway (Flight.status f) = false)
  /\ length (fst (ATCPanel.fetchData d))
     = length (List.filter (fun f => Runways.active (Flight.status f)) (flights d))
  /\ Sorted (fun a b => Flight.scheduled_departure a <= Flight.scheduled_departure b)
            (fst (ATCPanel.fetchData d))
  /\ snd (ATCPanel.fetchData d) = runways d.
Proof.
  unfold ATCPanel.fetchData. cbn [fst snd]. split; [|split; [|split]].
  - intros f. rewrite order_by_In, filter_In. now rewrite negb_true_iff.
  - rewrite order_by_length. f_equal. apply filter_ext.
    intros f. now destruct (Flight.status f).
  - apply order_by_sorted.
  - reflexivity.
Qed.

(** X6.  The buttons of the ATC panel, by the status of the row the panel
    shows: for a row shown as delayed only the cancel and emergency buttons
    are enabled, for a row shown in emergency none is, and the landing and
    takeoff buttons are enabled for rows shown as scheduled or boarding
    only.  A click on an enabled button other than delay sets up the
    pending action of that row with the status of the button.  (The gate
    is the button: [executeAction] does not read the status stored.) *)
Theorem panel_buttons f a :
  ATCPanel.enabled f a = true ->
  Flight.status f <> emergency
  /\ (Flight.status f = delayed ->
      ATCPanel.statusMap a = cancelled \/ ATCPanel.statusMap a = emergency)
  /\ (ATCPanel.statusMap a = landed \/ ATCPanel.statusMap a = departed ->
      Flight.status f = scheduled \/ Flight.status f = boarding)
  /\ match ATCPanel.confirmAction f a with
     | Some pa =>
         ATCPanel.flightId pa = Flight.id f
         /\ ATCPanel.flightNumber pa = Flight.flight_number f
         /\ ATCPanel.newStatus pa = ATCPanel.statusMap a
         /\ a <> ATCPanel.delay
     | None => a = ATCPanel.delay
     end.
Proof.
  unfold ATCPanel.enabled.
  destruct a, (Flight.status f); cbn; intros H; try discriminate H;
    (split; [discriminate|split; [|split]]);
    try (repeat split; discriminate);
    try reflexivity;
    intros H'; intuition congruence.
Qed.

(** For instance, flight AA100 of the small airport, boarding: landing is
    offered, and the click sets up [demo_landing]. *)
Lemma panel_buttons_witness :
  ATCPanel.confirmAction demo_flight ATCPanel.landing = Some demo_landing
  /\ Flight.status demo_flight <> emergency
  /\ (Flight.status demo_flight = delayed ->
      ATCPanel.statusMap ATCPanel.landing = cancelled
      \/ ATCPanel.statusMap ATCPanel.landing = emergency)
  /\ (ATCPanel.statusMap ATCPanel.landing = landed
      \/ ATCPanel.statusMap ATCPanel.landing = departed ->
      Flight.status demo_flight = scheduled \/ Flight.status demo_flight = boarding)
  /\ match ATCPanel.confirmAction demo_flight ATCPanel.landing with
     | Some pa =>
         ATCPanel.flightId pa = Flight.id demo_flight
         /\ ATCPanel.flightNumber pa = Flight.flight_number demo_flight
         /\ ATCPanel.newStatus pa = ATCPanel.statusMap ATCPanel.landing
         /\ ATCPanel.landing <> ATCPanel.delay
     | None => ATCPanel.landing = ATCPanel.delay
     end.
Proof.
  split; [reflexivity|].
  apply (panel_buttons demo_flight ATCPanel.landing). reflexivity.
Defined.

(** The status stored is not read: controller 101 delays AA100 from the
    Flights page; a panel that still shows the flight as boarding offers
    the landing, and the confirmed landing is carried out. *)
Lemma executeAction_on_stale_row :
  let w := exec (Flights.handleStatusChange 101%N [demo_flight] 10%N delayed)
                demo_world in
  let w' := exec (ATCPanel.executeAction 101%N [demo_flight] (Some demo_landing)
                    EmptyString) w in
  option_map Flight.status (stored_flight (db w) 10%N) = Some delayed
  /\ option_map Flight.status (stored_flight (db w') 10%N) = Some landed.
Proof. split; reflexivity. Qed.

(** ** Invariants of the statements the pages send *)

Section IssuedInvariant.
Variable md5 : string -> string.
Variable random_text : N -> string.
Variable P : DbInv.
Hypothesis P_stmt :
  forall stmt, issued md5 random_text stmt -> stmt_preserves P stmt.
Hypothesis P_signUp : signUp_preserves P.

Lemma issued_logActivity user action entityType entityId details :
  preserves P (logActivity user user action entityType entityId details).
Proof.
  unfold logActivity. handler_steps.
  apply preserves_send, P_stmt. apply issued_activity_log_insert.
Qed.

Ltac issued_stmt :=
  lazymatch goal with
  | |- issued _ _ (fun _ => flights_insert _ _) =>
      apply issued_flights_insert
  | |- issued _ _ (fun _ => flights_update _ (Flights.payload _ _ _ _) _) =>
      apply issued_flights_save
  | |- issued _ _ (fun _ => flights_update _ (Flight.only_status _) _) =>
      apply issued_flights_status
  | |- issued _ _ (fun _ => flights_update _ (ATCPanel.updates _ _ _) _) =>
      apply issued_flights_atc
  | |- issued _ _ (fun _ => flights_update _ (Flight.mkUpdate _ _ _ _ _ _ _ _ _ _ _ _ _ _ _) _) =>
      apply issued_flights_delay
  | |- issued _ _ (fun _ => flights_delete _ _) =>
      apply issued_flights_delete
  | |- issued _ _ (fun _ => runways_insert _ _ _ _ _ _) =>
      apply issued_runways_insert
  | |- issued _ _ (fun _ => runways_update _ _ _) =>
      apply issued_runways_update
  | |- issued _ _ (fun _ => runways_delete _ _) =>
      apply issued_runways_delete
  | |- issued _ _ (fun n => passengers_insert _ _ _) =>
      apply issued_passengers_insert
  | |- issued _ _ (fun _ => passengers_update _ (Passenger.apply _) _) =>
      apply issued_passengers_update_payload
  | |- issued _ _ (fun _ => passengers_update _ (Passenger.set_boarding_status _) _) =>
      apply issued_passengers_update_boarding
  | |- issued _ _ (fun _ => passengers_delete _ _) =>
      apply issued_passengers_delete
  | |- issued _ _ (fun _ => alerts_insert _ _) =>
      apply issued_alerts_insert
  | |- issued _ _ (fun _ => alerts_update _ (Alert.acknowledge _ _) _) =>
      apply issued_alerts_acknowledge
  | |- issued _ _ (fun _ => user_roles_upsert _ _ _ _) =>
      apply issued_user_roles_upsert
  end.

Ltac issued_requests :=
  handler_steps;
  first [ apply issued_logActivity
        | apply preserves_send, P_stmt; cbv zeta; issued_stmt ].

Lemma run_issues o : preserves P (run md5 random_text o).
Proof.
  destruct o; cbn [run].
  - unfold Flights.handleSave. issued_requests.
  - unfold Flights.handleDelete. issued_requests.
  - unfold Flights.handleStatusChange. issued_requests.
  - unfold ATCPanel.executeAction. issued_requests.
  - unfold ATCPanel.handleDelay. issued_requests.
  - unfold Runways.handleSave. issued_requests.
  - unfold Runways.handleDelete. issued_requests.
  - unfold Runways.handleStatusChange. issued_requests.
  - unfold Alerts.handleAcknowledge. issued_requests.
  - unfold Alerts.handleCreate. issued_requests.
  - unfold Passengers.handleSave. issued_requests.
  - unfold Passengers.handleDelete. issued_requests.
  - unfold Passengers.handleBoardingUpdate. issued_requests.
  - unfold Admin.handleRoleChange, Admin.handleRoleChange_then. issued_requests.
  - now apply preserves_signUp.
Qed.

Lemma reachable_issued :
  (forall roles, P (with_user_roles roles seed) []) ->
  forall w, reachable md5 random_text w -> holds P w.
Proof.
  intros Hseed w Hw. induction Hw as [roles t n fs|w w' Hw IH Hstep].
  - apply Hseed.
  - destruct Hstep as [o t fs w]. apply run_issues, preserves_environment, IH.
Qed.

End IssuedInvariant.

(** Splits a statement of the pages that went through into the store it
    left. *)
Ltac issued_inv E :=
  unfold flights_insert, flights_update, flights_delete, runways_insert,
    runways_update, runways_delete, passengers_insert, passengers_update,
    passengers_delete, alerts_insert, alerts_update, activity_log_insert,
    user_roles_upsert, user_roles_violation in E;
  stmt_inv E;
  cbn [profiles user_roles runways flights passengers activity_log alerts
       with_profiles with_user_roles with_runways with_flights with_passengers
       with_activity_log with_alerts].

(** *** Alerts: active, acknowledged *)

Lemma alert_flags_statements md5 random_text stmt :
  issued md5 random_text stmt ->
  stmt_preserves (fun d _ => Forall (fun a => alert_flags_ok a = true) (alerts d)) stmt.
Proof.
  intros Hs n d d' ps E H. destruct Hs; issued_inv E; try exact H.
  - now apply Forall_filter.
  - now apply Forall_filter.
  - apply List.Forall_app. split; [exact H|]. now repeat constructor.
  - apply List.Forall_forall. intros a' Hin.
    apply in_map_iff in Hin as (a & <- & Ha).
    destruct (N.eqb (Alert.id a) x); [reflexivity|].
    exact (proj1 (List.Forall_forall _ _) H a Ha).
Qed.

Lemma alert_flags_signUp :
  signUp_preserves (fun d _ => Forall (fun a => alert_flags_ok a = true) (alerts d)).
Proof.
  intros x fn em d d' ps E H. unfold handle_new_user, user_roles_violation in E.
  stmt_inv E. exact H.
Qed.

Lemma filter_split_length {A : Type} (p q r : A -> bool) l :
  (forall a, In a l -> p a = xorb (q a) (r a) /\ q a && r a = false) ->
  length (List.filter p l)
  = (length (List.filter q l) + length (List.filter r l))%nat.
Proof.
  induction l as [|a l IH]; intros H; [reflexivity|].
  cbn [List.filter]. destruct (H a (or_introl eq_refl)) as [Hp Hd].
  rewrite Hp. specialize (IH (fun b Hb => H b (or_intror Hb))).
  destruct (q a), (r a); try discriminate Hd; cbn [xorb length]; lia.
Qed.

Lemma filtered_partition alerts s :
  Forall (fun a => alert_flags_ok a = true) alerts ->
  length (Alerts.filtered alerts Alerts.filter_all s)
  = (length (Alerts.filtered alerts Alerts.filter_active s)
     + length (Alerts.filtered alerts Alerts.filter_acknowledged s))%nat.
Proof.
  intros H. unfold Alerts.filtered. apply filter_split_length.
  intros a Ha. pose proof (proj1 (List.Forall_forall _ _) H a Ha) as Hf.
  unfold alert_flags_ok in Hf.
  destruct (Alert.is_active a), (Alert.is_acknowledged a); try discriminate Hf;
    cbn [andb negb]; destruct (match s with Some _ => _ | None => _ end);
    split; reflexivity.
Qed.

(** X7.  In every world the operations can reach, each alert is active
    exactly when it is not acknowledged and names who acknowledged it and
    when exactly when it is; so the Alerts page shows every alert under
    exactly one of its "active" and "acknowledged" filters, and its
    open-alert counter counts the alerts of the "active" filter. *)
Theorem reachable_alerts_active_or_acknowledged md5 random_text w :
  reachable md5 random_text w ->
  Forall (fun a => alert_flags_ok a = true) (alerts (db w))
  /\ (forall s,
        length (Alerts.filtered (alerts (db w)) Alerts.filter_all s)
        = (length (Alerts.filtered (alerts (db w)) Alerts.filter_active s)
           + length (Alerts.filtered (alerts (db w)) Alerts.filter_acknowledged s))%nat)
  /\ Alerts.counts_total (alerts (db w))
     = length (Alerts.filtered (alerts (db w)) Alerts.filter_active None).
Proof.
  intros Hw.
  assert (Forall (fun a => alert_flags_ok a = true) (alerts (db w))) as H.
  { apply (reachable_issued md5 random_text
             (fun d _ => Forall (fun a => alert_flags_ok a = true) (alerts d))
             (alert_flags_statements md5 random_text) alert_flags_signUp);
      [|exact Hw].
    intros roles. constructor. }
  split; [exact H|]. split.
  - intros s. now apply filtered_partition.
  - unfold Alerts.counts_total, Alerts.filtered. f_equal.
    apply filter_ext_in. intros a Ha.
    pose proof (proj1 (List.Forall_forall _ _) H a Ha) as Hf.
    unfold alert_flags_ok in Hf.
    destruct (Alert.is_active a), (Alert.is_acknowledged a);
      try discriminate Hf; reflexivity.
Qed.

(** For instance, in the busy airport: of its seven alerts, the one about
    the bird strike is acknowledged and the six notices are open. *)
Lemma reachable_alerts_active_or_acknowledged_witness :
  let alerts := alerts (db busy_airport) in
  (length (Alerts.filtered alerts Alerts.filter_all None) = 7
   /\ length (Alerts.filtered alerts Alerts.filter_active None) = 6
   /\ length (Alerts.filtered alerts Alerts.filter_acknowledged None) = 1)%nat
  /\ Forall (fun a => alert_flags_ok a = true) alerts
  /\ (forall s,
        length (Alerts.filtered alerts Alerts.filter_all s)
        = (length (Alerts.filtered alerts Alerts.filter_active s)
           + length (Alerts.filtered alerts Alerts.filter_acknowledged s))%nat)
  /\ Alerts.counts_total alerts
     = length (Alerts.filtered alerts Alerts.filter_active None).
Proof.
  split; [vm_compute; repeat split|].
  apply (reachable_alerts_active_or_acknowledged toy_md5 toy_random_text).
  exact busy_airport_reachable.
Defined.

(** ** Callers who are neither administrator nor controller *)

Lemma rls_flights_delete d user :
  rls_using public_flights DELETE (ctx_of user d) = is_ATC d user.
Proof.
  unfold rls_using, policies, is_ATC; cbn. unfold caller_has; cbn.
  now rewrite orb_false_r.
Qed.

Lemma rls_runways_delete d user :
  rls_using public_runways DELETE (ctx_of user d) = is_ATC d user.
Proof.
  unfold rls_using, policies, is_ATC; cbn. unfold caller_has; cbn.
  now rewrite orb_false_r.
Qed.

Lemma rls_flights_insert d user :
  rls_check public_flights INSERT (ctx_of user d) = is_ATC d user.
Proof.
  unfold rls_check, policies, is_ATC; cbn. unfold caller_has; cbn.
  now rewrite orb_false_r.
Qed.

Lemma rls_runways_insert d user :
  rls_check public_runways INSERT (ctx_of user d) = is_ATC d user.
Proof.
  unfold rls_check, policies, is_ATC; cbn. unfold caller_has; cbn.
  now rewrite orb_false_r.
Qed.

Lemma flights_delete_skipped d user x :
  is_ATC d user = false -> flights_delete user x d = inr d.
Proof.
  intros H. unfold flights_delete.
  now rewrite rls_using_select, rls_flights_delete, H.
Qed.

Lemma runways_update_skipped d user u x :
  is_ATC d user = false -> runways_update user u x d = inr d.
Proof.
  intros H. unfold runways_update.
  now rewrite rls_using_select, rls_runways_update, H.
Qed.

Lemma runways_delete_skipped d user x :
  is_ATC d user = false -> runways_delete user x d = inr d.
Proof.
  intros H. unfold runways_delete.
  now rewrite rls_using_select, rls_runways_delete, H.
Qed.

Lemma flights_insert_refused d user u :
  is_ATC d user = false ->
  flights_insert user u d
  = inl (default (rls_violation public_flights) (flights_conversion u)).
Proof.
  intros H. unfold flights_insert.
  destruct (flights_conversion u); [reflexivity|].
  now rewrite rls_flights_insert, H.
Qed.

Lemma runways_insert_refused d user name len st surf notes :
  is_ATC d user = false ->
  runways_insert user name len st surf notes d
  = inl (default (rls_violation public_runways) (int4_in (Some len))).
Proof.
  intros H. unfold runways_insert.
  destruct (int4_in (Some len)); [reflexivity|].
  now rewrite rls_runways_insert, H.
Qed.

(** Closes a branch of a skipped update or delete. *)
Ltac skipped_done user :=
  cbn [faults db entropy now wire toasts passed tl fst snd];
  rewrite activity_log_insert_own;
  cbn [faults db entropy now wire toasts passed tl fst snd
       flights runways passengers alerts activity_log with_activity_log];
  repeat split; eexists; eexists; repeat split.

(** X8.  When a caller who is neither administrator nor controller deletes a
    flight, edits, deletes or re-labels a runway, or acknowledges an alert
    (the Alerts page offers its Acknowledge button to every user), and no
    request is lost, the policies skip the row without an error: nothing
    changes in flights, runways, passengers and alerts, and yet the page
    reports success and writes an activity entry in the caller's name. *)
Theorem non_controller_change_is_skipped md5 random_text o user w :
  changes_controlled_row o = true ->
  caller o = Some user ->
  is_ATC (db w) user = false ->
  faults w = [] ->
  let w' := exec (run md5 random_text o) w in
  flights (db w') = flights (db w)
  /\ runways (db w') = runways (db w)
  /\ passengers (db w') = passengers (db w)
  /\ alerts (db w') = alerts (db w)
  /\ exists t e,
       toasts w' = (toasts w ++ [t])%list
       /\ Toast.destructive t = false
       /\ activity_log (db w') = (activity_log (db w) ++ [e])%list
       /\ ActivityLog.user_id e = Some user.
Proof.
  intros Ho Hc Hrole Hfaults.
  destruct w as [d t n fs wr ts ps]; cbn [faults db] in *; subst fs.
  destruct o; try discriminate Ho; cbn [caller] in Hc; injection Hc as ->;
    cbn [run changes_controlled_row] in *.
  - destruct deleteId as [x|]; [|discriminate Ho].
    unfold Flights.handleDelete. handler_unfold.
    rewrite flights_delete_skipped by exact Hrole. skipped_done user.
  - destruct editId as [x|]; [|discriminate Ho].
    unfold Runways.handleSave. apply negb_true_iff in Ho. rewrite Ho.
    handler_unfold.
    rewrite runways_update_skipped by exact Hrole. skipped_done user.
  - destruct deleteId as [x|]; [|discriminate Ho].
    unfold Runways.handleDelete. handler_unfold.
    rewrite runways_delete_skipped by exact Hrole. skipped_done user.
  - unfold Runways.handleStatusChange. apply negb_true_iff in Ho. rewrite Ho.
    handler_unfold.
    rewrite runways_update_skipped by exact Hrole. skipped_done user.
  - unfold Alerts.handleAcknowledge. handler_unfold.
    rewrite alerts_update_skipped by exact Hrole. skipped_done user.
Qed.

(** For instance, staff user 102 of the small airport acknowledges alert
    50. *)
Lemma non_controller_change_is_skipped_witness :
  let w' := exec (Alerts.handleAcknowledge 102%N 50%N) demo_world in
  flights (db w') = flights (db demo_world)
  /\ runways (db w') = runways (db demo_world)
  /\ passengers (db w') = passengers (db demo_world)
  /\ alerts (db w') = alerts (db demo_world)
  /\ exists t e,
       toasts w' = (toasts demo_world ++ [t])%list
       /\ Toast.destructive t = false
       /\ activity_log (db w') = (activity_log (db demo_world) ++ [e])%list
       /\ ActivityLog.user_id e = Some 102%N.
Proof.
  apply (non_controller_change_is_skipped demo_md5 demo_random_text
           (Alerts_handleAcknowledge 102%N 50%N) 102%N demo_world);
    reflexivity.
Defined.

Lemma flights_conversion_refusals user form dep arr editId :
  Flights.scheduled_departure form = Some dep ->
  Flights.scheduled_arrival form = Some arr ->
  match flights_conversion (Flights.payload user form dep arr) with
  | Some e => In e (payload_refusals (Flights_handleSave user form editId))
  | None => payload_refusals (Flights_handleSave user form editId) = []
  end.
Proof.
  intros Hd Ha. unfold flights_conversion, payload_refusals. rewrite Hd, Ha.
  cbn [Flights.payload Flight.set_scheduled_departure Flight.set_scheduled_arrival
       Flight.set_capacity].
  destruct (timestamptz_in (Some dep)) as [e1|]; cbn [option_list app];
    [now left|].
  destruct (timestamptz_in (Some arr)) as [e2|]; cbn [option_list app];
    [now left|].
  destruct (int4_in (Some (Flights.capacity form))) as [e3|]; cbn [option_list];
    [now left|reflexivity].
Qed.

(** X9.  A new flight or a new runway sent by a caller who is neither
    administrator nor controller is refused, with no request lost: when
    every number and time of the form fits its column, by the policy of
    the table; otherwise by the conversion of a value that does not fit,
    which comes before the policy.  The page shows the error of the store
    in an "Error" toast, and the store, the activity log included, stays as
    it was. *)
Theorem non_controller_insert_is_refused md5 random_text o user w :
  creates_controlled_row o = true ->
  caller o = Some user ->
  is_ATC (db w) user = false ->
  faults w = [] ->
  let w' := exec (run md5 random_text o) w in
  db w' = db w
  /\ exists e,
       toasts w' = (toasts w ++ [Toast.mk "Error" (error_message e) true])%list
       /\ match payload_refusals o with
          | [] => e = rls_violation public_flights \/ e = rls_violation public_runways
          | refusals => In e refusals
          end.
Proof.
  intros Ho Hc Hrole Hfaults.
  destruct w as [d t n fs wr ts ps]; cbn [faults db] in *; subst fs.
  destruct o; try discriminate Ho; cbn [caller] in Hc; injection Hc as ->;
    cbn [run creates_controlled_row] in *.
  - destruct editId; [discriminate Ho|]. unfold Flights.handleSave.
    destruct (Flights.scheduled_departure form) as [dep|] eqn:Hd; [|discriminate Ho].
    destruct (Flights.scheduled_arrival form) as [arr|] eqn:Ha; [|discriminate Ho].
    apply negb_true_iff in Ho. rewrite Ho. handler_unfold.
    rewrite flights_insert_refused by exact Hrole.
    pose proof (flights_conversion_refusals user form dep arr None Hd Ha) as Hc.
    destruct (flights_conversion _) as [e|];
      cbn [default faults db entropy now wire toasts passed tl fst snd];
      (split; [reflexivity|]); eexists; (split; [reflexivity|]).
    + destruct (payload_refusals _); [destruct Hc|exact Hc].
    + rewrite Hc. now left.
  - destruct editId; [discriminate Ho|]. unfold Runways.handleSave.
    apply negb_true_iff in Ho. rewrite Ho. handler_unfold.
    rewrite runways_insert_refused by exact Hrole.
    cbn [payload_refusals].
    destruct (int4_in _) as [e|];
      cbn [default option_list faults db entropy now wire toasts passed tl fst snd];
      (split; [reflexivity|]); eexists; (split; [reflexivity|]);
      [now left|now right].
Qed.

(** For instance, staff user 102 of the small airport adds flight AA100:
    the policy refuses it.  And the same user adds a runway of 3000000000
    metres: the length is refused before the policy is asked. *)
Lemma non_controller_insert_is_refused_witness :
  let w1 := exec (run demo_md5 demo_random_text (Flights_handleSave 102%N demo_form None))
                 demo_world in
  let o := Runways_handleSave 102%N long_runway_form None in
  let w2 := exec (run demo_md5 demo_random_text o) demo_world in
  (db w1 = db demo_world
   /\ toasts w1 = [Toast.mk "Error" (error_message (rls_violation public_flights)) true])
  /\ payload_refusals o = [integer_out_of_range 3000000000]
  /\ db w2 = db demo_world
  /\ exists e,
       toasts w2 = (toasts demo_world ++ [Toast.mk "Error" (error_message e) true])%list
       /\ match payload_refusals o with
          | [] => e = rls_violation public_flights \/ e = rls_violation public_runways
          | refusals => In e refusals
          end.
Proof.
  split; [split; reflexivity|]. split; [reflexivity|].
  apply (non_controller_insert_is_refused demo_md5 demo_random_text
           (Runways_handleSave 102%N long_runway_form None) 102%N demo_world);
    reflexivity.
Defined.

(** ** What a handler leaves alone *)

Ltac frame_send :=
  apply preserves_send;
  let E := fresh "E" in
  let H := fresh "H" in
  intros ? ? ? ? E H; issued_inv E; exact H.

Ltac frame_handler :=
  unfold logActivity; handler_steps; frame_send.

Lemma run_frame md5 random_text o t d0 :
  existsb (table_eqb t) (may_write o) = false ->
  preserves (fun d _ => same_table t d0 d) (run md5 random_text o).
Proof.
  intros Ht.
  destruct o; cbn [run]; destruct t; try discriminate Ht; clear Ht;
    cbn [same_table];
    try (apply preserves_signUp;
         let E := fresh "E" in
         intros ? ? ? ? ? ? E ?; unfold handle_new_user, user_roles_violation in E;
         stmt_inv E; assumption).
  all: unfold Flights.handleSave, Flights.handleDelete, Flights.handleStatusChange,
         ATCPanel.executeAction, ATCPanel.handleDelay, Runways.handleSave,
         Runways.handleDelete, Runways.handleStatusChange, Alerts.handleAcknowledge,
         Alerts.handleCreate, Passengers.handleSave, Passengers.handleDelete,
         Passengers.handleBoardingUpdate, Admin.handleRoleChange,
         Admin.handleRoleChange_then.
  all: frame_handler.
Qed.

(** X10.  Whatever the caller, the arguments and the requests that are lost,
    a handler changes no table outside [may_write]: the Flights page and the
    delay dialog never touch a runway (assigning a runway to a flight does
    not occupy it, deleting the flight does not release it), only the
    sign-up trigger and the role change write profiles and roles, and
    passengers change only from their own page and with their flight. *)
Theorem handlers_write_only_their_tables md5 random_text o t w :
  ~ In t (may_write o) ->
  same_table t (db w) (db (exec (run md5 random_text o) w)).
Proof.
  intros Ht.
  apply (run_frame md5 random_text o t (db w)).
  - apply not_true_is_false. intros H. apply Ht.
    apply existsb_exists in H as (t' & Hin & Heq).
    destruct t, t'; try discriminate Heq; exact Hin.
  - unfold holds. destruct t; reflexivity.
Qed.

(** For instance, administrator 100 saving flight AA100 with a runway leaves
    the runways as they were. *)
Lemma handlers_write_only_their_tables_witness :
  same_table public_runways (db fresh_airport)
    (db (exec (run demo_md5 demo_random_text
                 (Flights_handleSave 100%N demo_form None)) fresh_airport)).
Proof.
  apply (handlers_write_only_their_tables demo_md5 demo_random_text
           (Flights_handleSave 100%N demo_form None) public_runways fresh_airport).
  cbn. intros [H|[H|[]]]; discriminate H.
Defined.

(** ** Deleting a flight, deleting a runway *)

Lemma logActivity_db user action entityType entityId details w :
  exists l,
    db (snd (logActivity user user action entityType entityId details w))
    = with_activity_log l (db w).
Proof.
  destruct w as [d t n fs wr ts ps].
  unfold logActivity, bind, send, ret.
  cbn [faults db entropy now wire toasts passed tl fst snd].
  rewrite activity_log_insert_own.
  destruct fs as [|[] fs]; cbn [snd db]; eexists;
    try reflexivity; unfold with_activity_log; now rewrite Db_eta.
Qed.

Lemma flights_delete_by_ATC d user x :
  is_ATC d user = true ->
  flight_exists x d = true ->
  flights_delete user x d
  = inr (with_alerts
           (List.filter (fun a => negb (opt_uuid_eqb (Alert.flight_id a) x)) (alerts d))
        (with_passengers
           (List.filter (fun p => negb (N.eqb (Passenger.flight_id p) x)) (passengers d))
        (with_flights
           (List.filter (fun r => negb (N.eqb (Flight.id r) x)) (flights d)) d))).
Proof.
  intros H Hx. unfold flights_delete.
  now rewrite rls_using_select, rls_flights_delete, H, Hx.
Qed.

Lemma runways_delete_by_ATC d user x :
  is_ATC d user = true ->
  runway_exists x d = true ->
  runways_delete user x d
  = inr (with_alerts
           (List.filter (fun a => negb (opt_uuid_eqb (Alert.runway_id a) x)) (alerts d))
        (with_flights
           (map (fun r => if opt_uuid_eqb (Flight.runway_id r) x
                          then Flight.set_runway_null r else r) (flights d))
        (with_runways
           (List.filter (fun r => negb (N.eqb (Runway.id r) x)) (runways d)) d))).
Proof.
  intros H Hx. unfold runways_delete.
  now rewrite rls_using_select, rls_runways_delete, H, Hx.
Qed.

Lemma find_filter_out {Row : Type} (id : Row -> uuid) x rows :
  List.find (fun r => N.eqb (id r) x)
            (List.filter (fun r => negb (N.eqb (id r) x)) rows) = None.
Proof.
  induction rows as [|r rows IH]; cbn [List.filter List.find]; [reflexivity|].
  destruct (N.eqb (id r) x) eqn:E; cbn [negb List.find]; [exact IH|].
  now rewrite E.
Qed.

(** X11.  A delete of a stored flight by an administrator or controller,
    once its request is delivered, removes the flight together with its
    passengers and the alerts about it, whether or not the activity entry
    gets through; the other flights stay, and the runways stay as they were:
    the runway the flight held is not released. *)
Theorem flight_delete_cascades user cache x w f :
  is_ATC (db w) user = true ->
  next_delivered w = true ->
  stored_flight (db w) x = Some f ->
  let w' := exec (Flights.handleDelete user cache (Some x)) w in
  stored_flight (db w') x = None
  /\ flights (db w')
     = List.filter (fun r => negb (N.eqb (Flight.id r) x)) (flights (db w))
  /\ passengers (db w')
     = List.filter (fun p => negb (N.eqb (Passenger.flight_id p) x)) (passengers (db w))
  /\ alerts (db w')
     = List.filter (fun a => negb (opt_uuid_eqb (Alert.flight_id a) x)) (alerts (db w))
  /\ runways (db w') = runways (db w).
Proof.
  intros Hrole Hnext Hf.
  assert (flight_exists x (db w) = true) as Hx.
  { unfold flight_exists. eapply find_Some_existsb. exact Hf. }
  destruct w as [d t n fs wr ts ps]. cbn [db] in *.
  unfold next_delivered in Hnext. cbn [faults] in Hnext.
  unfold Flights.handleDelete, exec, bind, send, toast.
  cbn [faults db entropy now wire toasts passed tl fst snd].
  rewrite flights_delete_by_ATC by assumption.
  destruct fs as [|[] fs]; try discriminate Hnext;
    cbn [faults db entropy now wire toasts passed tl fst snd];
    match goal with
    | |- context [logActivity ?u ?u ?a ?et ?eid ?det ?W] =>
        destruct (logActivity_db u a et eid det W) as [l ->]
    end;
    cbn [db flights runways passengers alerts with_activity_log with_alerts
         with_passengers with_flights stored_flight];
    (split; [apply (find_filter_out Flight.id)|repeat split]).
Qed.

(** For instance, controller 101 deletes flight AA100 of the small airport:
    runway 1 stays occupied. *)
Lemma flight_delete_cascades_witness :
  let w' := exec (Flights.handleDelete 101%N [] (Some 10%N)) demo_world in
  stored_flight (db w') 10%N = None
  /\ flights (db w')
     = List.filter (fun r => negb (N.eqb (Flight.id r) 10%N)) (flights (db demo_world))
  /\ passengers (db w')
     = List.filter (fun p => negb (N.eqb (Passenger.flight_id p) 10%N))
                   (passengers (db demo_world))
  /\ alerts (db w')
     = List.filter (fun a => negb (opt_uuid_eqb (Alert.flight_id a) 10%N))
                   (alerts (db demo_world))
  /\ runways (db w') = runways (db demo_world).
Proof.
  apply (flight_delete_cascades 101%N [] 10%N demo_world demo_flight);
    reflexivity.
Defined.

(** X12.  A delete of a stored runway by an administrator or controller,
    once its request is delivered, removes the runway and the alerts about
    it and keeps every flight: the flights that were assigned to it stay
    stored, with no runway. *)
Theorem runway_delete_detaches_flights user cache x w r :
  is_ATC (db w) user = true ->
  next_delivered w = true ->
  stored_runway (db w) x = Some r ->
  let w' := exec (Runways.handleDelete user cache (Some x)) w in
  stored_runway (db w') x = None
  /\ map Flight.id (flights (db w')) = map Flight.id (flights (db w))
  /\ (forall f', In f' (flights (db w')) -> Flight.runway_id f' <> Some x)
  /\ (forall f, In f (flights (db w)) -> Flight.runway_id f <> Some x ->
                In f (flights (db w')))
  /\ alerts (db w')
     = List.filter (fun a => negb (opt_uuid_eqb (Alert.runway_id a) x)) (alerts (db w))
  /\ passengers (db w') = passengers (db w).
Proof.
  intros Hrole Hnext Hr.
  assert (runway_exists x (db w) = true) as Hx.
  { unfold runway_exists. eapply find_Some_existsb. exact Hr. }
  destruct w as [d t n fs wr ts ps]. cbn [db] in *.
  unfold next_delivered in Hnext. cbn [faults] in Hnext.
  unfold Runways.handleDelete, exec, bind, send, toast.
  cbn [faults db entropy now wire toasts passed tl fst snd].
  rewrite runways_delete_by_ATC by assumption.
  assert (Hopt : forall v : option uuid, opt_uuid_eqb v x = true <-> v = Some x).
  { intros [v|]; cbn [opt_uuid_eqb]; [|split; discriminate].
    rewrite N.eqb_eq. split; congruence. }
  destruct fs as [|[] fs]; try discriminate Hnext;
    cbn [faults db entropy now wire toasts passed tl fst snd];
    match goal with
    | |- context [logActivity ?u ?u ?a ?et ?eid ?det ?W] =>
        destruct (logActivity_db u a et eid det W) as [l ->]
    end;
    cbn [db flights runways passengers alerts with_activity_log with_alerts
         with_passengers with_flights with_runways stored_runway];
    (split; [apply (find_filter_out Runway.id)|]);
    (split; [rewrite map_map; apply map_ext; intros f';
             now destruct (opt_uuid_eqb (Flight.runway_id f') x)|]);
    (split; [intros f' Hin; apply in_map_iff in Hin as (f0 & <- & _);
             destruct (opt_uuid_eqb (Flight.runway_id f0) x) eqn:E;
             [discriminate|intros H; apply Hopt in H; congruence]|]);
    (split; [intros f0 Hin Hne; apply in_map_iff; exists f0;
             split; [|exact Hin];
             destruct (opt_uuid_eqb (Flight.runway_id f0) x) eqn:E;
             [apply Hopt in E; contradiction|reflexivity]|]);
    split; reflexivity.
Qed.

(** For instance, controller 101 deletes runway 1 of the small airport:
    flight AA100 stays, without a runway. *)
Lemma runway_delete_detaches_flights_witness :
  let w' := exec (Runways.handleDelete 101%N [] (Some 1%N)) demo_world in
  stored_runway (db w') 1%N = None
  /\ map Flight.id (flights (db w')) = map Flight.id (flights (db demo_world))
  /\ (forall f', In f' (flights (db w')) -> Flight.runway_id f' <> Some 1%N)
  /\ (forall f, In f (flights (db demo_world)) -> Flight.runway_id f <> Some 1%N ->
                In f (flights (db w')))
  /\ alerts (db w')
     = List.filter (fun a => negb (opt_uuid_eqb (Alert.runway_id a) 1%N))
                   (alerts (db demo_world))
  /\ passengers (db w') = passengers (db demo_world).
Proof.
  apply (runway_delete_detaches_flights 101%N [] 1%N demo_world
           (Runway.mk 1%N "Runway 01L" 3800 occupied "asphalt" None));
    reflexivity.
Defined.

(** ** References *)

Lemma existsb_filter_ne {Row : Type} (id : Row -> uuid) (x k : uuid) (rows : list Row) :
  k <> x ->
  existsb (fun q => N.eqb (id q) k)
          (List.filter (fun r => negb (N.eqb (id r) x)) rows)
  = existsb (fun q => N.eqb (id q) k) rows.
Proof.
  intros Hne. induction rows as [|r rows IH]; cbn [List.filter existsb]; [reflexivity|].
  destruct (N.eqb (id r) x) eqn:E; cbn [negb existsb]; rewrite IH; [|reflexivity].
  apply N.eqb_eq in E. subst x.
  apply N.eqb_neq in Hne. rewrite N.eqb_sym in Hne. now rewrite Hne.
Qed.

Lemma existsb_map_id {Row : Type} (id : Row -> uuid) (g : Row -> Row) (k : uuid)
    (rows : list Row) :
  (forall r, id (g r) = id r) ->
  existsb (fun q => N.eqb (id q) k) (map g rows)
  = existsb (fun q => N.eqb (id q) k) rows.
Proof.
  intros Hid. induction rows as [|r rows IH]; cbn [map existsb]; [reflexivity|].
  now rewrite Hid, IH.
Qed.

Lemma fk_app {Row : Type} (id : Row -> uuid) (v : option uuid) (rows more : list Row) :
  match v with
  | Some k => existsb (fun q => N.eqb (id q) k) rows
  | None => true
  end = true ->
  match v with
  | Some k => existsb (fun q => N.eqb (id q) k) (rows ++ more)
  | None => true
  end = true.
Proof.
  destruct v as [k|]; [|reflexivity]. intros H. now rewrite existsb_app, H.
Qed.

Lemma fk_map_id {Row : Type} (id : Row -> uuid) (g : Row -> Row) (v : option uuid)
    (rows : list Row) :
  (forall r, id (g r) = id r) ->
  match v with
  | Some k => existsb (fun q => N.eqb (id q) k) rows
  | None => true
  end = true ->
  match v with
  | Some k => existsb (fun q => N.eqb (id q) k) (map g rows)
  | None => true
  end = true.
Proof.
  destruct v as [k|]; [|reflexivity]. intros Hid H. now rewrite existsb_map_id.
Qed.

Lemma fk_filter_ne {Row : Type} (id : Row -> uuid) (x : uuid) (v : option uuid)
    (rows : list Row) :
  opt_uuid_eqb v x = false ->
  match v with
  | Some k => existsb (fun q => N.eqb (id q) k) rows
  | None => true
  end = true ->
  match v with
  | Some k => existsb (fun q => N.eqb (id q) k)
                      (List.filter (fun r => negb (N.eqb (id r) x)) rows)
  | None => true
  end = true.
Proof.
  destruct v as [k|]; [|reflexivity]. cbn [opt_uuid_eqb]. intros Hne H.
  rewrite existsb_filter_ne; [exact H|]. now apply N.eqb_neq.
Qed.

Lemma flight_where_id u x r :
  Flight.id (if N.eqb (Flight.id r) x then Flight.apply u r else r) = Flight.id r.
Proof. now destruct (N.eqb (Flight.id r) x). Qed.

Ltac references_open H :=
  destruct H as (HA & HB & HC);
  unfold references_ok, fk_ok, runway_exists, flight_exists in *;
  cbn [profiles user_roles runways flights passengers activity_log alerts
       with_profiles with_user_roles with_runways with_flights with_passengers
       with_activity_log with_alerts] in *;
  try (split; [|split]; assumption).

Lemma references_flights_insert user u d d' :
  flights_insert user u d = inr d' -> references_ok d -> references_ok d'.
Proof.
  intros E H. unfold flights_insert in E. stmt_inv E. references_open H.
  split; [|split].
  - intros f Hin. apply in_app_or in Hin as [Hin|[<-|[]]]; [now apply HA|].
    match goal with Hfk : negb _ = false |- _ => now apply negb_false_iff in Hfk end.
  - intros p Hin. now rewrite existsb_app, HB.
  - intros a Hin. destruct (HC a Hin) as [Hf Hr]. split; [|exact Hr].
    now apply (fk_app Flight.id).
Qed.

Lemma references_flights_update user u x d d' :
  flights_update user u x d = inr d' -> references_ok d -> references_ok d'.
Proof.
  intros E H. unfold flights_update in E.
  destruct (negb (_ && _)); [now injection E as <-|].
  destruct (negb (flight_exists x d)); [now injection E as <-|].
  destruct (flights_conversion u); [discriminate E|].
  destruct (negb (rls_check _ _ _)); [discriminate E|].
  destruct (match Flight.set_flight_number u with Some _ => _ | None => _ end);
    [discriminate E|].
  destruct (match Flight.set_runway_id u with Some _ => _ | None => _ end) eqn:Hfk;
    [discriminate E|].
  injection E as <-. references_open H.
  split; [|split].
  - intros f' Hin. apply in_map_iff in Hin as (f & <- & Hin).
    destruct (N.eqb (Flight.id f) x); [|now apply HA].
    cbn [Flight.apply Flight.runway_id].
    destruct (Flight.set_runway_id u) as [v|]; cbn [default]; [|now apply HA].
    now apply negb_false_iff in Hfk.
  - intros p Hin. rewrite existsb_map_id; [now apply HB|].
    intros r. apply flight_where_id.
  - intros a Hin. destruct (HC a Hin) as [Hf Hr]. split; [|exact Hr].
    apply (fk_map_id Flight.id); [|exact Hf]. intros r. apply flight_where_id.
Qed.

Lemma references_flights_delete user x d d' :
  flights_delete user x d = inr d' -> references_ok d -> references_ok d'.
Proof.
  intros E H. unfold flights_delete in E. stmt_inv E; try exact H.
  references_open H. split; [|split].
  - intros f Hin. apply filter_In in Hin as [Hin _]. now apply HA.
  - intros p Hin. apply filter_In in Hin as [Hin Hne].
    rewrite existsb_filter_ne; [now apply HB|].
    apply negb_true_iff, N.eqb_neq in Hne. exact Hne.
  - intros a Hin. apply filter_In in Hin as [Hin Hne].
    destruct (HC a Hin) as [Hf Hr]. split; [|exact Hr].
    apply (fk_filter_ne Flight.id); [|exact Hf]. now apply negb_true_iff.
Qed.

Lemma references_runways_insert user name len st surf notes d d' :
  runways_insert user name len st surf notes d = inr d' ->
  references_ok d -> references_ok d'.
Proof.
  intros E H. unfold runways_insert in E. stmt_inv E. references_open H.
  split; [|split].
  - intros f Hin. now apply (fk_app Runway.id), HA.
  - exact HB.
  - intros a Hin. destruct (HC a Hin) as [Hf Hr]. split; [exact Hf|].
    now apply (fk_app Runway.id).
Qed.

Lemma runway_where_id u x r :
  Runway.id (if N.eqb (Runway.id r) x then Runway.apply u r else r) = Runway.id r.
Proof. now destruct (N.eqb (Runway.id r) x). Qed.

Lemma references_runways_update user u x d d' :
  runways_update user u x d = inr d' -> references_ok d -> references_ok d'.
Proof.
  intros E H. unfold runways_update in E. stmt_inv E; try exact H.
  all: references_open H.
  all: split; [|split];
    [ intros f Hin; apply (fk_map_id Runway.id);
      [intros r; apply runway_where_id|now apply HA]
    | exact HB
    | intros a Hin; destruct (HC a Hin) as [Hf Hr]; split; [exact Hf|];
      apply (fk_map_id Runway.id); [intros r; apply runway_where_id|exact Hr] ].
Qed.

Lemma references_runways_delete user x d d' :
  runways_delete user x d = inr d' -> references_ok d -> references_ok d'.
Proof.
  intros E H. unfold runways_delete in E. stmt_inv E; try exact H.
  references_open H. split; [|split].
  - intros f' Hin. apply in_map_iff in Hin as (f & <- & Hin).
    destruct (opt_uuid_eqb (Flight.runway_id f) x) eqn:Ex; [reflexivity|].
    apply (fk_filter_ne Runway.id); [exact Ex|now apply HA].
  - intros p Hin. rewrite existsb_map_id; [now apply HB|].
    intros r. now destruct (opt_uuid_eqb (Flight.runway_id r) x).
  - intros a Hin. apply filter_In in Hin as [Hin Hne].
    destruct (HC a Hin) as [Hf Hr]. split.
    + apply (fk_map_id Flight.id); [|exact Hf].
      intros r. now destruct (opt_uuid_eqb (Flight.runway_id r) x).
    + apply (fk_filter_ne Runway.id); [|exact Hr]. now apply negb_true_iff.
Qed.

Lemma references_passengers_insert user ticket p d d' :
  passengers_insert user ticket p d = inr d' -> references_ok d -> references_ok d'.
Proof.
  intros E H. unfold passengers_insert in E. stmt_inv E. references_open H.
  split; [exact HA|split; [|exact HC]].
  intros q Hin. apply in_app_or in Hin as [Hin|[<-|[]]]; [now apply HB|].
  match goal with Hfk : negb _ = false |- _ => now apply negb_false_iff in Hfk end.
Qed.

Lemma references_passengers_update user f x d d' :
  passengers_update user f x d = inr d' -> references_ok d -> references_ok d'.
Proof.
  intros E H. unfold passengers_update in E.
  destruct (negb (_ && _)); [now injection E as <-|].
  destruct (negb (existsb _ (passengers d))); [now injection E as <-|].
  destruct (negb (rls_check _ _ _)); [discriminate E|].
  destruct (negb (forallb _ (passengers d))) eqn:Hfk; [discriminate E|].
  injection E as <-. references_open H.
  split; [exact HA|split; [|exact HC]].
  intros q' Hin. apply in_map_iff in Hin as (q & <- & Hin).
  apply negb_false_iff in Hfk.
  pose proof (proj1 (forallb_forall _ _) Hfk q Hin) as Hq. cbn beta in Hq.
  destruct (N.eqb (Passenger.id q) x); cbn [negb orb] in Hq; [exact Hq|].
  now apply HB.
Qed.

Lemma references_passengers_delete user x d d' :
  passengers_delete user x d = inr d' -> references_ok d -> references_ok d'.
Proof.
  intros E H. unfold passengers_delete in E. stmt_inv E; try exact H.
  references_open H. split; [exact HA|split; [|exact HC]].
  intros q Hin. apply filter_In in Hin as [Hin _]. now apply HB.
Qed.

Lemma references_alerts_insert user p d d' :
  alerts_insert user p d = inr d' -> references_ok d -> references_ok d'.
Proof.
  intros E H. unfold alerts_insert in E. stmt_inv E. references_open H.
  split; [exact HA|split; [exact HB|]].
  intros a Hin. apply in_app_or in Hin as [Hin|[<-|[]]]; [now apply HC|].
  cbn [Alert.inserted Alert.flight_id Alert.runway_id]. split; [|reflexivity].
  match goal with Hfk : negb _ = false |- _ => now apply negb_false_iff in Hfk end.
Qed.

Lemma references_alerts_acknowledge user t x d d' :
  alerts_update user (Alert.acknowledge user t) x d = inr d' ->
  references_ok d -> references_ok d'.
Proof.
  intros E H. unfold alerts_update in E. stmt_inv E; try exact H.
  references_open H. split; [exact HA|split; [exact HB|]].
  intros a' Hin. apply in_map_iff in Hin as (a & <- & Hin).
  destruct (N.eqb (Alert.id a) x);
    [cbn [Alert.acknowledge Alert.flight_id Alert.runway_id]|]; exact (HC a Hin).
Qed.

Lemma references_statements md5 random_text stmt :
  issued md5 random_text stmt ->
  stmt_preserves (fun d _ => references_ok d) stmt.
Proof.
  intros Hs n d d' ps E H. destruct Hs.
  - exact (references_flights_insert _ _ _ _ E H).
  - exact (references_flights_update _ _ _ _ _ E H).
  - exact (references_flights_update _ _ _ _ _ E H).
  - exact (references_flights_update _ _ _ _ _ E H).
  - exact (references_flights_update _ _ _ _ _ E H).
  - exact (references_flights_delete _ _ _ _ E H).
  - exact (references_runways_insert _ _ _ _ _ _ _ _ E H).
  - exact (references_runways_update _ _ _ _ _ E H).
  - exact (references_runways_delete _ _ _ _ E H).
  - exact (references_passengers_insert _ _ _ _ _ E H).
  - exact (references_passengers_update _ _ _ _ _ E H).
  - exact (references_passengers_update _ _ _ _ _ E H).
  - exact (references_passengers_delete _ _ _ _ E H).
  - exact (references_alerts_insert _ _ _ _ E H).
  - exact (references_alerts_acknowledge _ _ _ _ _ E H).
  - issued_inv E. references_open H.
  - issued_inv E; references_open H.
Qed.

Lemma references_signUp : signUp_preserves (fun d _ => references_ok d).
Proof.
  intros x fn em d d' ps E H. unfold handle_new_user, user_roles_violation in E.
  stmt_inv E. references_open H.
Qed.

(** X13.  In every world the operations can reach, every reference points to
    a stored row: the runway of a flight, the flight of a passenger, the
    flight and the runway of an alert.  The checks of the store on insert
    and update and its ON DELETE actions keep it so, whatever the pages
    send. *)
Theorem reachable_references md5 random_text w :
  reachable md5 random_text w ->
  (forall f rid,
      In f (flights (db w)) -> Flight.runway_id f = Some rid ->
      exists r, stored_runway (db w) rid = Some r)
  /\ (forall p,
        In p (passengers (db w)) ->
        exists f, stored_flight (db w) (Passenger.flight_id p) = Some f)
  /\ (forall a x,
        In a (alerts (db w)) -> Alert.flight_id a = Some x ->
        exists f, stored_flight (db w) x = Some f).
Proof.
  intros Hw.
  assert (references_ok (db w)) as (HA & HB & HC).
  { apply (reachable_issued md5 random_text (fun d _ => references_ok d)
             (references_statements md5 random_text) references_signUp);
      [|exact Hw].
    intros roles. split; [|split]; intros ? []. }
  assert (Hfind : forall (Row : Type) (p : Row -> bool) rows,
             existsb p rows = true -> exists r, List.find p rows = Some r).
  { intros Row p rows H. apply existsb_exists in H as (r & Hin & Hp).
    destruct (List.find p rows) as [r'|] eqn:E; [now exists r'|].
    pose proof (find_none _ _ E r Hin) as Hn. congruence. }
  split; [|split].
  - intros f rid Hin Hrid. specialize (HA f Hin). rewrite Hrid in HA.
    now apply Hfind.
  - intros p Hin. now apply Hfind, HB.
  - intros a x Hin Hx. destruct (HC a Hin) as [Hf _]. rewrite Hx in Hf.
    now apply Hfind.
Qed.

(** For instance, in the busy airport: flight AA100 holds runway 1, which
    is stored; passenger Ada Lovelace is booked on a stored flight; and the
    alert about the bird strike names flight 1, which is stored. *)
Lemma reachable_references_witness :
  let d := db busy_airport in
  (exists f r,
      In f (flights d) /\ Flight.flight_number f = "AA100"
      /\ Flight.runway_id f = Some 1%N /\ stored_runway d 1%N = Some r)
  /\ (exists p f,
        In p (passengers d) /\ Passenger.first_name p = "Ada"
        /\ stored_flight d (Passenger.flight_id p) = Some f)
  /\ (exists a f,
        In a (alerts d) /\ Alert.title a = "Bird strike"
        /\ Alert.flight_id a = Some 1%N /\ stored_flight d 1%N = Some f).
Proof.
  destruct (reachable_references toy_md5 toy_random_text busy_airport
              busy_airport_reachable) as (Hf & Hp & Ha).
  cbv zeta. split; [|split].
  - assert (Hin : In (Flight.mk 1%N "AA100" "American" "JFK" "LAX" scheduled 1000 2000
                        None None (Some 1%N) (Some "A1") "Boeing 737" 180 (Some 100%N)
                        None)
                     (flights (db busy_airport))) by (vm_compute; left; reflexivity).
    destruct (Hf _ 1%N Hin eq_refl) as [r Hr].
    eexists. exists r. split; [exact Hin|]. repeat split. exact Hr.
  - assert (Hin : In (Passenger.mk 1%N 1%N "Ada" "Lovelace" "P123" (Some "12A")
                        "TKT-0E400000" checked_in "UK")
                     (passengers (db busy_airport))) by (vm_compute; left; reflexivity).
    destruct (Hp _ Hin) as [f Hfl].
    eexists. exists f. split; [exact Hin|]. split; [reflexivity|exact Hfl].
  - assert (Hin : In (Alert.acknowledge 100%N 10
                        (Alert.inserted 1%N
                           (Alert.mkPayload "Bird strike" "Birds near runway 1" critical
                                            (Some 1%N) 100%N)))
                     (alerts (db busy_airport))) by (vm_compute; left; reflexivity).
    destruct (Ha _ 1%N Hin eq_refl) as [f Hfl].
    eexists. exists f. split; [exact Hin|]. repeat split. exact Hfl.
Defined.

(** ** Keys *)

Lemma gen_random_uuid_bound l x : In x l -> (x < gen_random_uuid l)%N.
Proof.
  unfold gen_random_uuid. induction l as [|y l IH]; cbn [In fold_right]; [intros []|].
  intros [->|Hin]; [lia|]. specialize (IH Hin). lia.
Qed.

Lemma gen_random_uuid_fresh l : ~ In (gen_random_uuid l) l.
Proof. intros H. apply gen_random_uuid_bound in H. lia. Qed.

Lemma NoDup_map_where_same {Row K : Type} (id : Row -> uuid) (key : Row -> K)
    (g : Row -> Row) x rows :
  (forall r, key (g r) = key r) ->
  map key (map (fun r => if N.eqb (id r) x then g r else r) rows) = map key rows.
Proof.
  intros Hg. rewrite map_map. apply map_ext. intros r.
  now destruct (N.eqb (id r) x).
Qed.

Lemma NoDup_map_where_set {Row K : Type} (id : Row -> uuid) (key : Row -> K)
    (g : Row -> Row) x (n : K) rows :
  (forall r, id (g r) = id r) ->
  (forall r, key (g r) = n) ->
  (forall r, In r rows -> id r <> x -> key r <> n) ->
  List.NoDup (map id rows) ->
  List.NoDup (map key rows) ->
  List.NoDup (map key (map (fun r => if N.eqb (id r) x then g r else r) rows)).
Proof.
  intros Hid Hg. induction rows as [|r rows IH]; intros Hn Hids Hkeys; [constructor|].
  cbn [map] in *. inversion Hids as [|? ? Hr Hids']; subst.
  inversion Hkeys as [|? ? Hk Hkeys']; subst.
  destruct (N.eqb (id r) x) eqn:E.
  - apply N.eqb_eq in E. subst x.
    rewrite map_where_absent.
    + constructor; [|exact Hkeys']. rewrite Hg. intros Hin.
      apply in_map_iff in Hin as (r' & Hr' & Hin).
      apply (Hn r' (or_intror Hin)); [|exact Hr'].
      intros Heq. apply Hr. apply in_map_iff. now exists r'.
    + apply not_true_is_false. intros Hex.
      apply existsb_exists in Hex as (r' & Hin & Heq). apply N.eqb_eq in Heq.
      apply Hr. apply in_map_iff. now exists r'.
  - apply N.eqb_neq in E. constructor.
    + intros Hin. apply in_map_iff in Hin as (r'' & Hk' & Hin).
      apply in_map_iff in Hin as (r' & <- & Hin).
      destruct (N.eqb (id r') x).
      * rewrite Hg in Hk'. apply (Hn r (or_introl eq_refl) E). now symmetry.
      * apply Hk. apply in_map_iff. now exists r'.
    + apply IH; [|exact Hids'|exact Hkeys'].
      intros r' Hin. apply Hn. now right.
Qed.

Lemma NoDup_map_where_id {Row : Type} (id : Row -> uuid) (g : Row -> Row) x rows :
  (forall r, id (g r) = id r) ->
  map id (map (fun r => if N.eqb (id r) x then g r else r) rows) = map id rows.
Proof. intros Hg. now apply NoDup_map_where_same. Qed.

Lemma NoDup_fresh {Row : Type} (id : Row -> uuid) rows row :
  id row = gen_random_uuid (map id rows) ->
  List.NoDup (map id rows) -> List.NoDup (map id (rows ++ [row])).
Proof.
  intros Hrow H. rewrite map_app. apply NoDup_snoc; [exact H|].
  cbn [map]. rewrite Hrow. apply gen_random_uuid_fresh.
Qed.

Lemma NoDup_unused {Row : Type} (key : Row -> string) rows row :
  existsb (fun r => String.eqb (key r) (key row)) rows = false ->
  List.NoDup (map key rows) -> List.NoDup (map key (rows ++ [row])).
Proof.
  intros Hnew H. rewrite map_app. apply NoDup_snoc; [exact H|].
  cbn [map]. intros Hin. apply in_map_iff in Hin as (r & Hr & Hin).
  assert (existsb (fun r => String.eqb (key r) (key row)) rows = true) as Hex.
  { apply existsb_exists. exists r. split; [exact Hin|]. now apply String.eqb_eq. }
  congruence.
Qed.

Ltac keys_open H :=
  destruct H as (Kfi & Kfn & Kri & Krn & Kpi & Kai & Kli & Kpr);
  unfold keys_ok;
  cbn [profiles user_roles runways flights passengers activity_log alerts
       with_profiles with_user_roles with_runways with_flights with_passengers
       with_activity_log with_alerts] in *.

Ltac keys_split := repeat (split; [try assumption|]); try assumption.

Lemma keys_flights_insert user u d d' :
  flights_insert user u d = inr d' -> keys_ok d -> keys_ok d'.
Proof.
  intros E H. unfold flights_insert in E. stmt_inv E. keys_open H. keys_split.
  - now apply NoDup_fresh.
  - now apply NoDup_unused.
Qed.

Lemma keys_flights_update user u x d d' :
  flights_update user u x d = inr d' -> keys_ok d -> keys_ok d'.
Proof.
  intros E H. unfold flights_update in E.
  destruct (negb (_ && _)); [now injection E as <-|].
  destruct (negb (flight_exists x d)); [now injection E as <-|].
  destruct (flights_conversion u); [discriminate E|].
  destruct (negb (rls_check _ _ _)); [discriminate E|].
  destruct (match Flight.set_flight_number u with Some _ => _ | None => _ end) eqn:Hn;
    [discriminate E|].
  destruct (match Flight.set_runway_id u with Some _ => _ | None => _ end);
    [discriminate E|].
  injection E as <-. keys_open H. keys_split.
  - now rewrite NoDup_map_where_id.
  - destruct (Flight.set_flight_number u) as [n|] eqn:En.
    + apply (NoDup_map_where_set Flight.id Flight.flight_number (Flight.apply u) x n);
        try assumption; try reflexivity.
      * intros r. cbn [Flight.apply Flight.flight_number]. now rewrite En.
      * intros r Hin Hne Heq.
        assert (existsb (fun r => negb (N.eqb (Flight.id r) x)
                                  && String.eqb (Flight.flight_number r) n)
                        (flights d) = true) as Hex.
        { apply existsb_exists. exists r. split; [exact Hin|].
          apply N.eqb_neq in Hne. rewrite Hne. cbn [negb andb].
          now apply String.eqb_eq. }
        congruence.
    + rewrite NoDup_map_where_same; [assumption|].
      intros r. cbn [Flight.apply Flight.flight_number]. now rewrite En.
Qed.

Lemma keys_flights_delete user x d d' :
  flights_delete user x d = inr d' -> keys_ok d -> keys_ok d'.
Proof.
  intros E H. unfold flights_delete in E. stmt_inv E; try exact H.
  keys_open H. keys_split; now apply NoDup_map_filter.
Qed.

Lemma keys_runways_insert user name len st surf notes d d' :
  runways_insert user name len st surf notes d = inr d' -> keys_ok d -> keys_ok d'.
Proof.
  intros E H. unfold runways_insert in E. stmt_inv E. keys_open H. keys_split.
  - now apply NoDup_fresh.
  - now apply NoDup_unused.
Qed.

Lemma keys_runways_update user u x d d' :
  runways_update user u x d = inr d' -> keys_ok d -> keys_ok d'.
Proof.
  intros E H. unfold runways_update in E.
  destruct (negb (_ && _)); [now injection E as <-|].
  destruct (negb (runway_exists x d)); [now injection E as <-|].
  destruct (int4_in (Runway.set_length_meters u)); [discriminate E|].
  destruct (negb (rls_check _ _ _)); [discriminate E|].
  destruct (match Runway.set_name u with Some _ => _ | None => _ end) eqn:Hn;
    [discriminate E|].
  injection E as <-. keys_open H. keys_split.
  - now rewrite NoDup_map_where_id.
  - destruct (Runway.set_name u) as [n|] eqn:En.
    + apply (NoDup_map_where_set Runway.id Runway.name (Runway.apply u) x n);
        try assumption; try reflexivity.
      * intros r. cbn [Runway.apply Runway.name]. now rewrite En.
      * intros r Hin Hne Heq.
        assert (existsb (fun r => negb (N.eqb (Runway.id r) x)
                                  && String.eqb (Runway.name r) n)
                        (runways d) = true) as Hex.
        { apply existsb_exists. exists r. split; [exact Hin|].
          apply N.eqb_neq in Hne. rewrite Hne. cbn [negb andb].
          now apply String.eqb_eq. }
        congruence.
    + rewrite NoDup_map_where_same; [assumption|].
      intros r. cbn [Runway.apply Runway.name]. now rewrite En.
Qed.

Lemma keys_runways_delete user x d d' :
  runways_delete user x d = inr d' -> keys_ok d -> keys_ok d'.
Proof.
  intros E H. unfold runways_delete in E. stmt_inv E; try exact H.
  keys_open H. keys_split; try now apply NoDup_map_filter.
  - rewrite map_map. erewrite map_ext; [exact Kfi|].
    intros r. now destruct (opt_uuid_eqb (Flight.runway_id r) x).
  - rewrite map_map. erewrite map_ext; [exact Kfn|].
    intros r. now destruct (opt_uuid_eqb (Flight.runway_id r) x).
Qed.

Lemma keys_passengers_insert user ticket p d d' :
  passengers_insert user ticket p d = inr d' -> keys_ok d -> keys_ok d'.
Proof.
  intros E H. unfold passengers_insert in E. stmt_inv E. keys_open H. keys_split.
  now apply NoDup_fresh.
Qed.

Lemma keys_passengers_update user f x d d' :
  (forall r, Passenger.id (f r) = Passenger.id r) ->
  passengers_update user f x d = inr d' -> keys_ok d -> keys_ok d'.
Proof.
  intros Hf E H. unfold passengers_update in E. stmt_inv E; try exact H.
  keys_open H. keys_split. now rewrite NoDup_map_where_id.
Qed.

Lemma keys_passengers_delete user x d d' :
  passengers_delete user x d = inr d' -> keys_ok d -> keys_ok d'.
Proof.
  intros E H. unfold passengers_delete in E. stmt_inv E; try exact H.
  keys_open H. keys_split. now apply NoDup_map_filter.
Qed.

Lemma keys_alerts_insert user p d d' :
  alerts_insert user p d = inr d' -> keys_ok d -> keys_ok d'.
Proof.
  intros E H. unfold alerts_insert in E. stmt_inv E. keys_open H. keys_split.
  now apply NoDup_fresh.
Qed.

Lemma keys_alerts_update user f x d d' :
  (forall r, Alert.id (f r) = Alert.id r) ->
  alerts_update user f x d = inr d' -> keys_ok d -> keys_ok d'.
Proof.
  intros Hf E H. unfold alerts_update in E. stmt_inv E; try exact H.
  keys_open H. keys_split. now rewrite NoDup_map_where_id.
Qed.

Lemma keys_activity_log_insert user uid action et eid details d d' :
  activity_log_insert user uid action et eid details d = inr d' ->
  keys_ok d -> keys_ok d'.
Proof.
  intros E H. unfold activity_log_insert in E. stmt_inv E. keys_open H. keys_split.
  now apply NoDup_fresh.
Qed.

Lemma keys_statements md5 random_text stmt :
  issued md5 random_text stmt ->
  stmt_preserves (fun d _ => keys_ok d) stmt.
Proof.
  intros Hs n d d' ps E H. destruct Hs.
  - exact (keys_flights_insert _ _ _ _ E H).
  - exact (keys_flights_update _ _ _ _ _ E H).
  - exact (keys_flights_update _ _ _ _ _ E H).
  - exact (keys_flights_update _ _ _ _ _ E H).
  - exact (keys_flights_update _ _ _ _ _ E H).
  - exact (keys_flights_delete _ _ _ _ E H).
  - exact (keys_runways_insert _ _ _ _ _ _ _ _ E H).
  - exact (keys_runways_update _ _ _ _ _ E H).
  - exact (keys_runways_delete _ _ _ _ E H).
  - exact (keys_passengers_insert _ _ _ _ _ E H).
  - exact (keys_passengers_update user (Passenger.apply p) x d d'
             (fun _ => eq_refl) E H).
  - exact (keys_passengers_update user (Passenger.set_boarding_status s) x d d'
             (fun _ => eq_refl) E H).
  - exact (keys_passengers_delete _ _ _ _ E H).
  - exact (keys_alerts_insert _ _ _ _ E H).
  - exact (keys_alerts_update user (Alert.acknowledge user t) x d d'
             (fun _ => eq_refl) E H).
  - exact (keys_activity_log_insert _ _ _ _ _ _ _ _ E H).
  - issued_inv E; exact H.
Qed.

Lemma keys_signUp : signUp_preserves (fun d _ => keys_ok d).
Proof.
  intros x fn em d d' ps E H. unfold handle_new_user, user_roles_violation in E.
  destruct (existsb _ (profiles d)) eqn:Hp; [discriminate E|].
  stmt_inv E. keys_open H. keys_split.
  rewrite map_app. apply NoDup_snoc; [exact Kpr|].
  cbn [map Profile.id]. intros Hin. apply in_map_iff in Hin as (p & Hp' & Hin).
  assert (existsb (fun p => N.eqb (Profile.id p) x) (profiles d) = true) as Hex.
  { apply existsb_exists. exists p. split; [exact Hin|]. now apply N.eqb_eq. }
  congruence.
Qed.

Lemma reachable_keys_ok md5 random_text w :
  reachable md5 random_text w -> keys_ok (db w).
Proof.
  intros Hw.
  apply (reachable_issued md5 random_text (fun d _ => keys_ok d)
           (keys_statements md5 random_text) keys_signUp); [|exact Hw].
  intros roles. unfold keys_ok. cbn.
  repeat split; repeat (constructor; [cbn; intuition discriminate|]); constructor.
Qed.

(** X14.  In every world the operations can reach, the flights, the
    runways, the passengers, the alerts and the activity entries have
    pairwise distinct ids, no two flights share a flight number, no two
    runways share a name and no two profiles belong to the same user: fresh
    ids and the UNIQUE checks on insert and update keep it so.  (The rows
    of user_roles are left out: the first of them are entered into the
    store directly.) *)
Theorem reachable_keys_distinct md5 random_text w :
  reachable md5 random_text w ->
  keys_ok (db w)
  /\ (forall f g,
        In f (flights (db w)) -> In g (flights (db w)) ->
        Flight.flight_number f = Flight.flight_number g -> f = g)
  /\ (forall r q,
        In r (runways (db w)) -> In q (runways (db w)) ->
        Runway.name r = Runway.name q -> r = q).
Proof.
  intros Hw. pose proof (reachable_keys_ok md5 random_text w Hw) as H.
  split; [exact H|].
  destruct H as (_ & Kfn & _ & Krn & _).
  assert (Hinj : forall (Row K : Type) (key : Row -> K) rows,
             List.NoDup (map key rows) ->
             forall a b, In a rows -> In b rows -> key a = key b -> a = b).
  { intros Row K key rows. induction rows as [|r rows IH]; intros Hnd a b; [intros []|].
    cbn [map] in Hnd. inversion Hnd as [|? ? Hr Hnd']; subst.
    intros [->|Ha] [->|Hb] Heq; try reflexivity.
    - exfalso. apply Hr. rewrite Heq. now apply in_map.
    - exfalso. apply Hr. rewrite <- Heq. now apply in_map.
    - now apply IH. }
  split.
  - now apply Hinj.
  - now apply Hinj.
Qed.

(** For instance, in the busy airport, with its two flights, five runways,
    two passengers, seven alerts and thirteen activity entries. *)
Lemma reachable_keys_distinct_witness :
  let d := db busy_airport in
  (map Flight.flight_number (flights d) = ["AA100"; "BA200"]
   /\ map Passenger.id (passengers d) = [1%N; 2%N]
   /\ length (alerts d) = 7%nat /\ length (activity_log d) = 13%nat)
  /\ keys_ok d
  /\ (forall f g,
        In f (flights d) -> In g (flights d) ->
        Flight.flight_number f = Flight.flight_number g -> f = g)
  /\ (forall r q,
        In r (runways d) -> In q (runways d) ->
        Runway.name r = Runway.name q -> r = q).
Proof.
  split; [vm_compute; repeat split|].
  apply (reachable_keys_distinct toy_md5 toy_random_text).
  exact busy_airport_reachable.
Defined.

(** ** Upper case *)

Lemma upper_char_idem c : upper_char (upper_char c) = upper_char c.
Proof. destruct c as [[] [] [] [] [] [] [] []]; reflexivity. Qed.

Lemma upper_idem s : upper (upper s) = upper s.
Proof.
  induction s as [|c s IH]; [reflexivity|].
  cbn [upper]. now rewrite upper_char_idem, IH.
Qed.

Lemma upper_statements md5 random_text stmt :
  issued md5 random_text stmt ->
  stmt_preserves (fun d _ => Forall flight_text_upper (flights d)) stmt.
Proof.
  intros Hs n d d' ps E H. destruct Hs; issued_inv E; try exact H.
  - apply List.Forall_app. split; [exact H|]. constructor; [|constructor].
    unfold flight_text_upper. cbn. now rewrite !upper_idem.
  - apply List.Forall_forall. intros f' Hin.
    apply in_map_iff in Hin as (f & <- & Hin).
    destruct (N.eqb (Flight.id f) x);
      [|exact (proj1 (List.Forall_forall _ _) H f Hin)].
    unfold flight_text_upper. cbn. now rewrite !upper_idem.
  - apply List.Forall_forall. intros f' Hin.
    apply in_map_iff in Hin as (f & <- & Hin).
    pose proof (proj1 (List.Forall_forall _ _) H f Hin) as Hf.
    now destruct (N.eqb (Flight.id f) x).
  - apply List.Forall_forall. intros f' Hin.
    apply in_map_iff in Hin as (f & <- & Hin).
    pose proof (proj1 (List.Forall_forall _ _) H f Hin) as Hf.
    now destruct (N.eqb (Flight.id f) x).
  - apply List.Forall_forall. intros f' Hin.
    apply in_map_iff in Hin as (f & <- & Hin).
    pose proof (proj1 (List.Forall_forall _ _) H f Hin) as Hf.
    now destruct (N.eqb (Flight.id f) x).
  - now apply Forall_filter.
  - apply List.Forall_forall. intros f' Hin.
    apply in_map_iff in Hin as (f & <- & Hin).
    pose proof (proj1 (List.Forall_forall _ _) H f Hin) as Hf.
    now destruct (opt_uuid_eqb (Flight.runway_id f) x).
Qed.

Lemma upper_signUp :
  signUp_preserves (fun d _ => Forall flight_text_upper (flights d)).
Proof.
  intros x fn em d d' ps E H. unfold handle_new_user, user_roles_violation in E.
  stmt_inv E. exact H.
Qed.

(** *** Flight forms typed in ASCII *)

Lemma reachable_ascii_reachable md5 random_text w :
  reachable_ascii md5 random_text w -> reachable md5 random_text w.
Proof.
  induction 1 as [roles t n fs|w o t fs _ IH _]; [apply reachable_seed|].
  eapply reachable_step; [exact IH|apply step_op].
Qed.

Lemma upper_char_ascii c :
  (nat_of_ascii c <? 128)%nat = true -> (nat_of_ascii (upper_char c) <? 128)%nat = true.
Proof.
  destruct c as [[] [] [] [] [] [] [] []]; vm_compute; intros H;
    first [reflexivity | discriminate H].
Qed.

Lemma ascii_text_upper s : ascii_text s = true -> ascii_text (upper s) = true.
Proof.
  unfold ascii_text. induction s as [|c s IH]; [reflexivity|].
  cbn [upper list_ascii_of_string forallb]. intros H.
  apply andb_true_iff in H as [Hc Hs]. now rewrite upper_char_ascii, IH.
Qed.

Lemma upper_lower_char c : upper_char (lower_char c) = upper_char c.
Proof. destruct c as [[] [] [] [] [] [] [] []]; reflexivity. Qed.

Lemma upper_lower s : upper (lower s) = upper s.
Proof.
  induction s as [|c s IH]; [reflexivity|].
  cbn [upper lower]. now rewrite upper_lower_char, IH.
Qed.

Lemma payload_ascii user form dep arr f :
  typed_in_ascii (Flights_handleSave user form None) = true ->
  flight_text_ascii (Flight.apply (Flights.payload user form dep arr) f) = true.
Proof.
  cbn [typed_in_ascii]. intros H.
  apply andb_true_iff in H as [H Hd]. apply andb_true_iff in H as [H Ho].
  apply andb_true_iff in H as [Hn Ha].
  unfold flight_text_ascii.
  cbn -[ascii_text upper].
  now rewrite !ascii_text_upper, Ha.
Qed.

(** Closes the goal a statement of the pages leaves: the flights are those
    of before, some of them left out, re-labelled, or saved from the
    form. *)
Ltac ascii_send Ho :=
  apply preserves_send;
  let E := fresh "E" in
  let H := fresh "H" in
  intros ? ? ? ? E H; issued_inv E;
  first
    [ exact H
    | apply Forall_filter; exact H
    | apply List.Forall_app; split; [exact H|];
      constructor; [|constructor];
      exact (payload_ascii _ _ _ _ _ Ho)
    | apply List.Forall_forall;
      let f' := fresh "f'" in
      let f := fresh "f" in
      let Hin := fresh "Hin" in
      let Hf := fresh "Hf" in
      intros f' Hin; apply in_map_iff in Hin as (f & <- & Hin);
      pose proof (proj1 (List.Forall_forall _ _) H f Hin) as Hf;
      first [ now destruct (N.eqb (Flight.id f) _)
            | now destruct (opt_uuid_eqb (Flight.runway_id f) _)
            | destruct (N.eqb (Flight.id f) _); [|exact Hf];
              exact (payload_ascii _ _ _ _ _ Ho) ] ].

Lemma run_ascii md5 random_text o :
  typed_in_ascii o = true ->
  preserves (fun d _ => Forall (fun f => flight_text_ascii f = true) (flights d))
            (run md5 random_text o).
Proof.
  intros Ho.
  destruct o; cbn [run];
    try (apply preserves_signUp;
         let E := fresh "E" in
         intros ? ? ? ? ? ? E ?; unfold handle_new_user, user_roles_violation in E;
         stmt_inv E; assumption).
  all: unfold Flights.handleSave, Flights.handleDelete, Flights.handleStatusChange,
         ATCPanel.executeAction, ATCPanel.handleDelay, Runways.handleSave,
         Runways.handleDelete, Runways.handleStatusChange, Alerts.handleAcknowledge,
         Alerts.handleCreate, Passengers.handleSave, Passengers.handleDelete,
         Passengers.handleBoardingUpdate, Admin.handleRoleChange,
         Admin.handleRoleChange_then, logActivity.
  all: handler_steps.
  all: ascii_send Ho.
Qed.

Lemma reachable_ascii_text md5 random_text w :
  reachable_ascii md5 random_text w ->
  Forall (fun f => flight_text_ascii f = true) (flights (db w)).
Proof.
  induction 1 as [roles t n fs|w o t fs _ IH Ho]; [constructor|].
  exact (run_ascii md5 random_text o Ho (environment t fs w) IH).
Qed.

(** X15.  In every world the system reaches when the flight forms are
    typed in ASCII, the flight number, airline, origin and destination of
    every flight are ASCII text, and the number, the origin and the
    destination are stored in upper case (the Flights form is the only
    writer of these columns and upper-cases them); with the UNIQUE
    constraint this makes flight numbers distinct even when case is
    ignored. *)
Theorem reachable_flight_numbers_upper md5 random_text w :
  reachable_ascii md5 random_text w ->
  Forall (fun f => flight_text_ascii f = true) (flights (db w))
  /\ Forall flight_text_upper (flights (db w))
  /\ forall f g,
       In f (flights (db w)) -> In g (flights (db w)) ->
       lower (Flight.flight_number f) = lower (Flight.flight_number g) -> f = g.
Proof.
  intros Hascii. pose proof (reachable_ascii_reachable _ _ _ Hascii) as Hw.
  split; [now apply (reachable_ascii_text md5 random_text)|].
  assert (Forall flight_text_upper (flights (db w))) as H.
  { apply (reachable_issued md5 random_text
             (fun d _ => Forall flight_text_upper (flights d))
             (upper_statements md5 random_text) upper_signUp); [|exact Hw].
    intros roles. constructor. }
  split; [exact H|]. intros f g Hf Hg Heq.
  destruct (proj1 (List.Forall_forall _ _) H f Hf) as [Uf _].
  destruct (proj1 (List.Forall_forall _ _) H g Hg) as [Ug _].
  assert (Heq' : Flight.flight_number f = Flight.flight_number g).
  { rewrite <- Uf, <- Ug. rewrite <- (upper_lower (Flight.flight_number f)),
      <- (upper_lower (Flight.flight_number g)). now rewrite Heq. }
  destruct (reachable_keys_ok md5 random_text w Hw) as (_ & Kfn & _).
  clear - Kfn Hf Hg Heq'. revert f g Hf Hg Heq'.
  induction (flights (db w)) as [|r rows IH]; intros f g; [intros []|].
  cbn [map] in Kfn. inversion Kfn as [|? ? Hr Hnd]; subst.
  intros [->|Hf] [->|Hg] Heq; try reflexivity.
  - exfalso. apply Hr. rewrite Heq. now apply in_map.
  - exfalso. apply Hr. rewrite <- Heq. now apply in_map.
  - now apply IH.
Qed.

(** For instance, in the busy airport, whose two flights were typed as
    aa100 and ba200. *)
Lemma reachable_flight_numbers_upper_witness :
  let flights := flights (db busy_airport) in
  map Flight.flight_number flights = ["AA100"; "BA200"]
  /\ Forall (fun f => flight_text_ascii f = true) flights
  /\ Forall flight_text_upper flights
  /\ forall f g,
       In f flights -> In g flights ->
       lower (Flight.flight_number f) = lower (Flight.flight_number g) -> f = g.
Proof.
  split; [vm_compute; reflexivity|].
  apply (reachable_flight_numbers_upper toy_md5 toy_random_text).
  unfold busy_airport. cbv beta zeta.
  repeat (apply reachable_ascii_step; [|reflexivity]).
  apply reachable_ascii_seed.
Defined.

(** ** Ticket validation *)

Lemma filter_key_absent {Row : Type} (key : Row -> string) (k : string)
    (rows : list Row) :
  ~ In k (map key rows) ->
  List.filter (fun r => String.eqb (key r) k) rows = [].
Proof.
  induction rows as [|q rows IH]; intros Hk; [reflexivity|].
  cbn [List.filter]. destruct (String.eqb (key q) k) eqn:E.
  - apply String.eqb_eq in E. exfalso. apply Hk. now left.
  - apply IH. intros Hin. apply Hk. now right.
Qed.

Lemma single_filter_unique {Row : Type} (key : Row -> string) (k : string)
    (rows : list Row) :
  List.NoDup (map key rows) ->
  single (List.filter (fun r => String.eqb (key r) k) rows)
  = List.find (fun r => String.eqb (key r) k) rows.
Proof.
  induction rows as [|r rows IH]; intros Hnd; [reflexivity|].
  cbn [map] in Hnd. inversion Hnd as [|? ? Hr Hnd']; subst.
  cbn [List.filter List.find].
  destruct (String.eqb (key r) k) eqn:E; [|now apply IH].
  apply String.eqb_eq in E. subst k.
  now rewrite filter_key_absent.
Qed.

Lemma validateTicket_delivered ticketSearch w :
  trim ticketSearch <> EmptyString ->
  next_delivered w = true ->
  let data :=
    single (List.filter
              (fun p => String.eqb (Passenger.ticket_id p) (upper (trim ticketSearch)))
              (passengers (db w))) in
  fst (Passengers.validateTicket ticketSearch w) = Some data
  /\ db (exec (Passengers.validateTicket ticketSearch) w) = db w
  /\ toasts (exec (Passengers.validateTicket ticketSearch) w)
     = match data with
       | Some _ => toasts w
       | None =>
           (toasts w
            ++ [Toast.mk "Not Found" "No passenger found with that ticket ID." true])%list
       end.
Proof.
  intros Hs Hnext. cbv zeta.
  unfold Passengers.validateTicket.
  apply String.eqb_neq in Hs. rewrite Hs.
  destruct w as [d t n fs wr ts ps]. unfold next_delivered in Hnext.
  cbn [faults db] in *.
  unfold exec, bind, select, toast, ret.
  cbn [faults db entropy now wire toasts passed tl fst snd].
  destruct fs as [|[] fs]; try discriminate Hnext;
    destruct (single _); repeat split.
Qed.

(** X16.  Ticket validation of a search text in ASCII, when its request is
    delivered and ticket identifiers are distinct: the text typed is
    trimmed and upper-cased, the passenger shown is the stored passenger
    with that ticket identifier, if there is one, and "Not Found" is shown
    exactly when there is none.  Nothing is written. *)
Theorem validateTicket_finds_ticket ticketSearch w :
  ascii_text ticketSearch = true ->
  trim ticketSearch <> EmptyString ->
  next_delivered w = true ->
  List.NoDup (map Passenger.ticket_id (passengers (db w))) ->
  let found :=
    List.find (fun p => String.eqb (Passenger.ticket_id p) (upper (trim ticketSearch)))
              (passengers (db w)) in
  fst (Passengers.validateTicket ticketSearch w) = Some found
  /\ db (exec (Passengers.validateTicket ticketSearch) w) = db w
  /\ toasts (exec (Passengers.validateTicket ticketSearch) w)
     = match found with
       | Some _ => toasts w
       | None =>
           (toasts w
            ++ [Toast.mk "Not Found" "No passenger found with that ticket ID." true])%list
       end.
Proof.
  intros _ Hs Hnext Hnd. cbv zeta.
  destruct (validateTicket_delivered ticketSearch w Hs Hnext) as (Hf & Hd & Ht).
  rewrite (single_filter_unique Passenger.ticket_id) in Hf, Ht by exact Hnd.
  split; [exact Hf|]. split; [exact Hd|exact Ht].
Qed.

(** For instance, the ticket of the stored passenger, typed in lower case
    with blanks around it. *)
Lemma validateTicket_finds_ticket_witness :
  let found :=
    List.find (fun p => String.eqb (Passenger.ticket_id p)
                                   (upper (trim "  tkt-d41d8cd9 ")))
              (passengers (db demo_world_with_passenger)) in
  fst (Passengers.validateTicket "  tkt-d41d8cd9 " demo_world_with_passenger)
  = Some found
  /\ db (exec (Passengers.validateTicket "  tkt-d41d8cd9 ") demo_world_with_passenger)
     = db demo_world_with_passenger
  /\ toasts (exec (Passengers.validateTicket "  tkt-d41d8cd9 ") demo_world_with_passenger)
     = match found with
       | Some _ => toasts demo_world_with_passenger
       | None =>
           (toasts demo_world_with_passenger
            ++ [Toast.mk "Not Found" "No passenger found with that ticket ID." true])%list
       end.
Proof.
  apply (validateTicket_finds_ticket "  tkt-d41d8cd9 " demo_world_with_passenger).
  - reflexivity.
  - vm_compute. discriminate.
  - reflexivity.
  - vm_compute. constructor; [intros []|constructor].
Defined.

(** X17.  Ticket validation of a search text in ASCII: a blank text (empty,
    or spaces, tabs and line breaks only) sends nothing and shows nothing;
    a request that is lost is reported like a ticket that does not
    exist. *)
Theorem validateTicket_blank_or_lost ticketSearch w :
  ascii_text ticketSearch = true ->
  (trim ticketSearch = EmptyString ->
   Passengers.validateTicket ticketSearch w = (None, w))
  /\ (trim ticketSearch <> EmptyString ->
      next_delivered w = false ->
      fst (Passengers.validateTicket ticketSearch w) = Some None
      /\ toasts (exec (Passengers.validateTicket ticketSearch) w)
         = (toasts w
            ++ [Toast.mk "Not Found" "No passenger found with that ticket ID." true])%list).
Proof.
  intros _. unfold Passengers.validateTicket. split.
  - intros ->. reflexivity.
  - intros Hs Hnext. apply String.eqb_neq in Hs. rewrite Hs.
    destruct w as [d t n fs wr ts ps]. unfold next_delivered in Hnext.
    cbn [faults] in Hnext.
    destruct fs as [|[] fs]; try discriminate Hnext. split; reflexivity.
Qed.

(** For instance, blanks only; and a search in the small airport when the
    transport loses the request. *)
Lemma validateTicket_blank_or_lost_witness :
  Passengers.validateTicket "   " demo_world = (None, demo_world)
  /\ fst (Passengers.validateTicket "TKT-D41D8CD9"
            (environment 0 [true] demo_world_with_passenger)) = Some None.
Proof.
  split.
  - apply (proj1 (validateTicket_blank_or_lost "   " demo_world eq_refl)). reflexivity.
  - apply (proj2 (validateTicket_blank_or_lost "TKT-D41D8CD9"
                    (environment 0 [true] demo_world_with_passenger) eq_refl)).
    + vm_compute. discriminate.
    + reflexivity.
Defined.

(** ** Sign-up *)

Lemma existsb_ext_eq {A : Type} (p q : A -> bool) l :
  (forall a, p a = q a) -> existsb p l = existsb q l.
Proof.
  intros H. induction l as [|a l IH]; cbn [existsb]; [reflexivity|].
  now rewrite H, IH.
Qed.

Lemma app_role_eqb_sym a b : app_role_eqb a b = app_role_eqb b a.
Proof. now destruct a, b. Qed.

Lemma user_roles_violation_has_role new_id x r rows :
  user_roles_violation (UserRole.mk new_id x r) rows
  = if has_role rows x r
    then Some (unique_violation "user_roles_user_id_role_key") else None.
Proof.
  unfold user_roles_violation, has_role.
  rewrite (existsb_ext_eq _
             (fun r0 => N.eqb (UserRole.user_id r0) x
                        && app_role_eqb (UserRole.role r0) r)); [reflexivity|].
  intros b. unfold user_roles_collide.
  cbn. rewrite andb_true_r. now rewrite N.eqb_sym, app_role_eqb_sym.
Qed.

Lemma no_role_no_rows rows u :
  (forall r, has_role rows u r = false) ->
  List.filter (fun r => N.eqb (UserRole.user_id r) u) rows = [].
Proof.
  unfold has_role. induction rows as [|row rows IH]; intros H; [reflexivity|].
  cbn [List.filter]. destruct (N.eqb (UserRole.user_id row) u) eqn:E.
  - specialize (H (UserRole.role row)). cbn [existsb] in H. rewrite E in H.
    now destruct (UserRole.role row).
  - apply IH. intros r. specialize (H r). cbn [existsb] in H.
    now rewrite E in H.
Qed.

Lemma has_role_app rows more u r :
  has_role (rows ++ more) u r = has_role rows u r || has_role more u r.
Proof. unfold has_role. apply existsb_app. Qed.

Lemma roleMap_last rows row :
  Admin.roleMap (rows ++ [row]) !! UserRole.user_id row = Some (UserRole.role row).
Proof.
  unfold Admin.roleMap. rewrite fold_left_app. cbn [fold_left].
  apply lookup_insert_eq.
Qed.

(** X18.  Signing up a user who has no profile and holds no role yet gives
    the user a profile and the role staff, and nothing else: the user is
    neither administrator nor controller, the roles of the other users are
    as before, and the Admin page lists the user as staff. *)
Theorem signUp_makes_staff x full_name email w :
  existsb (fun p => N.eqb (Profile.id p) x) (profiles (db w)) = false ->
  (forall r, has_role (user_roles (db w)) x r = false) ->
  let d' := db (exec (signUp x full_name email) w) in
  profiles d'
  = (profiles (db w)
     ++ [Profile.mk x (default EmptyString full_name) (default EmptyString email)])%list
  /\ get_user_role (user_roles d') x = Some staff
  /\ (forall r, has_role (user_roles d') x r = app_role_eqb staff r)
  /\ is_ATC d' x = false
  /\ (forall u r, u <> x ->
        has_role (user_roles d') u r = has_role (user_roles (db w)) u r)
  /\ In (Admin.mkUser x (default EmptyString full_name) (default EmptyString email) staff)
        (Admin.fetchUsers d').
Proof.
  intros Hp Hr. cbv zeta. destruct w as [d t n fs wr ts ps]. cbn [db] in *.
  unfold exec, signUp, handle_new_user. cbn [db]. rewrite Hp.
  rewrite user_roles_violation_has_role.
  cbn [user_roles with_profiles]. rewrite Hr. cbn [snd db].
  cbn [profiles user_roles with_user_roles with_profiles].
  assert (forall r, has_role (user_roles d ++ [UserRole.mk
              (gen_random_uuid (map UserRole.id (user_roles d))) x staff]) x r
            = app_role_eqb staff r) as Hnew.
  { intros r. rewrite has_role_app, Hr. unfold has_role. cbn.
    now rewrite N.eqb_refl, orb_false_r. }
  split; [reflexivity|]. split; [|split; [exact Hnew|split; [|split]]].
  - unfold get_user_role. rewrite List.filter_app, (no_role_no_rows _ _ Hr).
    cbn. now rewrite N.eqb_refl.
  - unfold is_ATC. now rewrite !Hnew.
  - intros u r Hu. rewrite has_role_app. unfold has_role at 2. cbn.
    apply N.eqb_neq in Hu. rewrite N.eqb_sym in Hu. rewrite Hu.
    now rewrite orb_false_r.
  - unfold Admin.fetchUsers. cbn [profiles user_roles].
    apply in_map_iff.
    exists (Profile.mk x (default EmptyString full_name) (default EmptyString email)).
    split; [|apply in_or_app; right; now left].
    cbn [Profile.id Profile.full_name Profile.email].
    pose proof (roleMap_last (user_roles d)
                  (UserRole.mk (gen_random_uuid (map UserRole.id (user_roles d)))
                               x staff)) as Hlast.
    cbn [UserRole.user_id UserRole.role] in Hlast.
    cbn [user_roles with_user_roles with_profiles]. now rewrite Hlast.
Qed.

(** For instance, user 200 signs up at the small airport. *)
Lemma signUp_makes_staff_witness :
  let d' := db (exec (signUp 200%N (Some "Grace") (Some "grace@example.org")) demo_world) in
  profiles d'
  = (profiles (db demo_world) ++ [Profile.mk 200%N "Grace" "grace@example.org"])%list
  /\ get_user_role (user_roles d') 200%N = Some staff
  /\ (forall r, has_role (user_roles d') 200%N r = app_role_eqb staff r)
  /\ is_ATC d' 200%N = false
  /\ (forall u r, u <> 200%N ->
        has_role (user_roles d') u r = has_role (user_roles (db demo_world)) u r)
  /\ In (Admin.mkUser 200%N "Grace" "grace@example.org" staff) (Admin.fetchUsers d').
Proof.
  apply (signUp_makes_staff 200%N (Some "Grace") (Some "grace@example.org") demo_world).
  - reflexivity.
  - intros []; reflexivity.
Defined.

(** ** The ATC panel after an action *)

(** X20.  After an action confirmed on the ATC panel by an administrator or
    controller, with no request lost: the flight has the status of the
    action; after a landing, a takeoff or a cancellation it is no longer
    listed on the panel; after an emergency it stays listed, and no button
    of its row is enabled any more. *)
Theorem panel_after_action user cache f a pa note w :
  ATCPanel.confirmAction f a = Some pa ->
  stored_flight (db w) (Flight.id f) = Some f ->
  is_ATC (db w) user = true ->
  faults w = [] ->
  let w' := exec (ATCPanel.executeAction user cache (Some pa) note) w in
  exists g,
    stored_flight (db w') (Flight.id f) = Some g
    /\ Flight.status g = ATCPanel.statusMap a
    /\ (In g (fst (ATCPanel.fetchData (db w'))) <-> a = ATCPanel.act_emergency)
    /\ (a = ATCPanel.act_emergency -> forall b, ATCPanel.enabled g b = false).
Proof.
  intros Hpa Hf Hatc Hfaults. cbv zeta.
  assert (ATCPanel.flightId pa = Flight.id f /\ ATCPanel.newStatus pa = ATCPanel.statusMap a
          /\ a <> ATCPanel.delay) as (Hid & Hst & Ha).
  { destruct a; try discriminate Hpa; injection Hpa as <-; repeat split; discriminate. }
  pose proof (executeAction_flights user cache pa note w Hatc Hfaults) as Hfl.
  rewrite Hid, Hst in Hfl.
  set (u := ATCPanel.updates (ATCPanel.statusMap a) (now w) (takes_runway_branch cache pa)) in *.
  exists (Flight.apply u f).
  assert (In (Flight.apply u f)
             (flights (db (exec (ATCPanel.executeAction user cache (Some pa) note) w))))
    as Hin.
  { rewrite Hfl. apply in_map_iff. exists f. unfold stored_flight in Hf.
    apply find_some in Hf as [Hin Heq]. rewrite Heq. now split. }
  split; [|split; [|split]].
  - unfold stored_flight. rewrite Hfl.
    rewrite find_map_where by reflexivity. unfold stored_flight in Hf. now rewrite Hf.
  - reflexivity.
  - unfold ATCPanel.fetchData. cbn [fst]. rewrite order_by_In, filter_In.
    cbn [Flight.apply Flight.status u ATCPanel.updates Flight.set_status default].
    split.
    + intros [_ H]. destruct a; try discriminate H; [contradiction|reflexivity].
    + intros ->. split; [exact Hin|reflexivity].
  - intros -> b. unfold ATCPanel.enabled. now destruct b.
Qed.

(** For instance, controller 101 approves the landing of flight AA100 of the
    small airport. *)
Lemma panel_after_action_witness :
  let w' := exec (ATCPanel.executeAction 101%N [demo_flight] (Some demo_landing)
                    EmptyString) demo_world in
  exists g,
    stored_flight (db w') (Flight.id demo_flight) = Some g
    /\ Flight.status g = ATCPanel.statusMap ATCPanel.landing
    /\ (In g (fst (ATCPanel.fetchData (db w')))
        <-> ATCPanel.landing = ATCPanel.act_emergency)
    /\ (ATCPanel.landing = ATCPanel.act_emergency ->
        forall b, ATCPanel.enabled g b = false).
Proof.
  apply (panel_after_action 101%N [demo_flight] demo_flight ATCPanel.landing
           demo_landing EmptyString demo_world); reflexivity.
Defined.

(** X21.  Declaring an emergency or cancelling a flight on the ATC panel, by
    an administrator or controller with no request lost, adds exactly one
    alert about the flight, open and unacknowledged: of severity emergency
    with the operator's note as its message (or a standard text when the
    note is empty), respectively of severity critical.  An emergency changes
    no runway and leaves the flight on its runway. *)
Theorem executeAction_raises_alert user cache f a pa note w :
  ATCPanel.confirmAction f a = Some pa ->
  a = ATCPanel.act_emergency \/ a = ATCPanel.cancel ->
  stored_flight (db w) (Flight.id f) = Some f ->
  is_ATC (db w) user = true ->
  faults w = [] ->
  let w' := exec (ATCPanel.executeAction user cache (Some pa) note) w in
  (exists al,
     alerts (db w') = (alerts (db w) ++ [al])%list
     /\ Alert.flight_id al = Some (Flight.id f)
     /\ Alert.is_active al = true /\ Alert.is_acknowledged al = false
     /\ Alert.created_by al = Some user
     /\ Alert.severity al
        = match a with ATCPanel.act_emergency => sev_emergency | _ => critical end
     /\ Alert.message al
        = or_else note (Flight.flight_number f +:+ " status changed to "
                        +:+ flight_status_text (ATCPanel.statusMap a)))
  /\ (a = ATCPanel.act_emergency ->
      runways (db w') = runways (db w)
      /\ map Flight.runway_id (flights (db w')) = map Flight.runway_id (flights (db w))).
Proof.
  intros Hpa Ha Hf Hatc Hfaults. cbv zeta.
  assert (flight_exists (Flight.id f) (db w) = true) as Hex.
  { unfold flight_exists. eapply find_Some_existsb. exact Hf. }
  destruct w as [d t n fs wr ts ps]; cbn [faults db] in *; subst fs.
  destruct Ha as [-> | ->]; injection Hpa as <-;
    unfold exec, ATCPanel.executeAction, logActivity, bind, Date_now, send, toast, ret;
    cbn [faults db entropy now wire toasts passed tl fst snd
         ATCPanel.newStatus ATCPanel.flightId ATCPanel.flightNumber ATCPanel.title
         ATCPanel.action ATCPanel.statusMap ATCPanel.releases_runway
         ATCPanel.raises_alert flight_status_eqb andb negb].
  - (* emergency *)
    rewrite flights_update_plain
      by (first [ now rewrite Hatc | reflexivity | now left ]).
    cbn [faults db entropy now wire toasts passed tl fst snd].
    rewrite activity_log_insert_own.
    cbn [faults db entropy now wire toasts passed tl fst snd].
    rewrite alerts_insert_ok.
    + cbn [faults db entropy now wire toasts passed tl fst snd
           alerts runways flights with_alerts with_activity_log with_flights].
      split.
      * eexists. split; [reflexivity|]. cbn. repeat split.
      * intros _. split; [reflexivity|].
        rewrite map_map. apply map_ext. intros r.
        now destruct (N.eqb (Flight.id r) (Flight.id f)).
    + unfold is_ATC in *. cbn [user_roles with_activity_log with_flights].
      now rewrite Hatc.
    + cbn [fk_ok Alert.p_flight_id]. unfold flight_exists.
      cbn [flights with_activity_log with_flights].
      rewrite existsb_map_where by reflexivity. exact Hex.
  - (* cancel *)
    split; [|discriminate].
    destruct (List.find _ cache) as [c|]; [destruct (Flight.runway_id c) as [rid|]|];
      cbn [faults db entropy now wire toasts passed tl fst snd].
    1: rewrite runways_update_status by exact Hatc;
       cbn [faults db entropy now wire toasts passed tl fst snd].
    all: rewrite flights_update_plain
           by (first [ cbn [user_roles with_runways]; unfold is_ATC in *;
                       cbn [user_roles with_runways]; now rewrite Hatc
                     | reflexivity | now left | now right ]).
    all: cbn [faults db entropy now wire toasts passed tl fst snd].
    all: rewrite activity_log_insert_own.
    all: cbn [faults db entropy now wire toasts passed tl fst snd].
    all: rewrite alerts_insert_ok;
         [ cbn [faults db entropy now wire toasts passed tl fst snd
                alerts runways flights with_alerts with_activity_log with_flights
                with_runways];
           eexists; split; [reflexivity|]; cbn; repeat split
         | unfold is_ATC in *;
           cbn [user_roles with_activity_log with_flights with_runways];
           now rewrite Hatc
         | cbn [fk_ok Alert.p_flight_id]; unfold flight_exists;
           cbn [flights with_activity_log with_flights with_runways];
           rewrite existsb_map_where by reflexivity; exact Hex ].
Qed.

(** For instance, controller 101 declares an emergency for flight AA100 of
    the small airport, with a note. *)
Lemma executeAction_raises_alert_witness :
  let pa := ATCPanel.mkPending 10%N "AA100" ATCPanel.act_emergency emergency
              "Activate Emergency"
              "Declare EMERGENCY for AA100? This will trigger alerts." in
  let w' := exec (ATCPanel.executeAction 101%N [demo_flight] (Some pa) "Engine fire")
                 demo_world in
  (exists al,
     alerts (db w') = (alerts (db demo_world) ++ [al])%list
     /\ Alert.flight_id al = Some (Flight.id demo_flight)
     /\ Alert.is_active al = true /\ Alert.is_acknowledged al = false
     /\ Alert.created_by al = Some 101%N
     /\ Alert.severity al = sev_emergency
     /\ Alert.message al
        = or_else "Engine fire"
            (Flight.flight_number demo_flight +:+ " status changed to "
             +:+ flight_status_text (ATCPanel.statusMap ATCPanel.act_emergency)))
  /\ (ATCPanel.act_emergency = ATCPanel.act_emergency ->
      runways (db w') = runways (db demo_world)
      /\ map Flight.runway_id (flights (db w'))
         = map Flight.runway_id (flights (db demo_world))).
Proof.
  apply (executeAction_raises_alert 101%N [demo_flight] demo_flight
           ATCPanel.act_emergency
           (ATCPanel.mkPending 10%N "AA100" ATCPanel.act_emergency emergency
              "Activate Emergency"
              "Declare EMERGENCY for AA100? This will trigger alerts.")
           "Engine fire" demo_world);
    first [ reflexivity | now left ].
Defined.

(** ** Errors leave the store as it was *)

Lemma quiet_ret {A : Type} (a : A) : quiet (ret a).
Proof. intros w. reflexivity. Qed.

Lemma quiet_bind {A B : Type} (m : M A) (k : A -> M B) :
  quiet m -> (forall a, quiet (k a)) -> quiet (bind m k).
Proof.
  intros Hm Hk w. unfold bind. specialize (Hm w).
  destruct (m w) as [a w1]. cbn [snd] in Hm. now rewrite Hk.
Qed.

Lemma quiet_send rq stmt : quiet (send rq stmt).
Proof.
  intros [d t n fs wr ts ps]. unfold send.
  cbn [faults db entropy now wire toasts passed].
  destruct fs as [|[] fs]; try reflexivity; now destruct (stmt n d).
Qed.

Lemma quiet_logActivity session userId action entityType entityId details :
  quiet (logActivity session userId action entityType entityId details).
Proof.
  unfold logActivity. apply quiet_bind; [apply quiet_send|intros; apply quiet_ret].
Qed.

(** A request either comes back without an error, or comes back with one
    and has left the store as it was. *)
Lemma send_outcome rq stmt w :
  toasts (snd (send rq stmt w)) = toasts w
  /\ (fst (send rq stmt w) = None
      \/ exists e, fst (send rq stmt w) = Some e /\ db (snd (send rq stmt w)) = db w).
Proof.
  split; [apply quiet_send|].
  destruct w as [d t n fs wr ts ps]. unfold send.
  cbn [faults db entropy now wire toasts passed].
  destruct fs as [|[] fs]; try (right; eexists; split; reflexivity);
    destruct (stmt n d); try (now left); right; eexists; split; reflexivity.
Qed.

(** The shape of every handler of the pages after its own checks: one
    statement, then an error toast, or a success toast and the rest. *)
Lemma send_then_report rq stmt title description (tail : M unit) w :
  quiet tail ->
  changed_only_with_success w
    (exec (bind (send rq stmt)
             (fun error =>
                match error with
                | Some e => toast "Error" (error_message e) true
                | None => bind (toast title description false) (fun _ => tail)
                end)) w).
Proof.
  intros Htail. unfold changed_only_with_success, exec, bind.
  destruct (send_outcome rq stmt w) as [Ht Hr].
  destruct (send rq stmt w) as [r w1]. cbn [fst snd] in *.
  destruct Hr as [-> | (e & -> & Hd)].
  - exists [Toast.mk title description false]. split.
    + unfold toast at 1. rewrite Htail. cbn [toasts]. now rewrite Ht.
    + right. eexists. split; reflexivity.
  - exists [Toast.mk "Error" (error_message e) true]. split.
    + unfold toast. cbn [snd toasts]. now rewrite Ht.
    + left. exact Hd.
Qed.

Lemma only_a_toast title description destructive w :
  changed_only_with_success w (exec (toast title description destructive) w).
Proof. eexists. split; [reflexivity|]. now left. Qed.

Lemma nothing_done w : changed_only_with_success w (exec (ret tt) w).
Proof. exists []. split; [now rewrite app_nil_r|]. now left. Qed.

Ltac report_tail :=
  repeat lazymatch goal with
         | |- quiet (logActivity _ _ _ _ _ _) => apply quiet_logActivity
         | |- quiet (send _ _) => apply quiet_send
         | |- quiet (ret _) => apply quiet_ret
         | |- quiet (bind _ _) => apply quiet_bind; [|intros ?]
         end.

(** X19.  Whatever the caller, the arguments and the requests that are lost,
    a page handler other than [executeAction] changes the store only when it
    reports success: after an error toast, a refusal, or no toast at all,
    the store is as it was before. *)
Theorem handlers_change_only_with_success md5 random_text o w :
  single_statement_page o = true ->
  changed_only_with_success w (exec (run md5 random_text o) w).
Proof.
  intros Ho. destruct o; try discriminate Ho; clear Ho; cbn [run].
  - unfold Flights.handleSave.
    destruct (Flights.scheduled_departure form), (Flights.scheduled_arrival form);
      try apply only_a_toast.
    destruct (_ || _); [apply only_a_toast|].
    destruct editId; apply send_then_report; report_tail.
  - unfold Flights.handleDelete.
    destruct deleteId; [|apply nothing_done].
    apply send_then_report; report_tail.
  - unfold Flights.handleStatusChange. apply send_then_report; report_tail.
  - unfold ATCPanel.handleDelay.
    destruct showDelay; [|apply nothing_done].
    destruct (negb _); [apply nothing_done|].
    apply send_then_report; report_tail.
  - unfold Runways.handleSave.
    destruct (String.eqb _ _); [apply only_a_toast|].
    destruct editId; apply send_then_report; report_tail.
  - unfold Runways.handleDelete.
    destruct deleteId; [|apply nothing_done].
    apply send_then_report; report_tail.
  - unfold Runways.handleStatusChange.
    destruct (_ && _); [apply only_a_toast|].
    apply send_then_report; report_tail.
  - unfold Alerts.handleAcknowledge, exec, bind, Date_now.
    apply send_then_report; report_tail.
  - unfold Alerts.handleCreate.
    destruct (_ || _); [apply only_a_toast|].
    apply send_then_report; report_tail.
  - unfold Passengers.handleSave.
    destruct (Passengers.flight_id form); [|apply only_a_toast].
    destruct (_ || _); [apply only_a_toast|].
    destruct editId; apply send_then_report; report_tail.
  - unfold Passengers.handleDelete.
    destruct deleteId; [|apply nothing_done].
    apply send_then_report; report_tail.
  - unfold Passengers.handleBoardingUpdate. apply send_then_report; report_tail.
  - destruct (handleRoleChange_refused session userId newRole w) as [Hd [e He]].
    eexists. split; [exact He|]. now left.
Qed.

(** For instance, controller 101 of the small airport saves a new runway
    of 3000000000 metres: the store refuses the length, the page shows the
    error and the store is as it was. *)
Lemma handlers_change_only_with_success_witness :
  let w' := exec (run demo_md5 demo_random_text
                    (Runways_handleSave 101%N long_runway_form None)) demo_world in
  changed_only_with_success demo_world w'
  /\ db w' = db demo_world
  /\ toasts w'
     = [Toast.mk "Error" (error_message (integer_out_of_range 3000000000)) true].
Proof.
  split; [|split; reflexivity].
  apply (handlers_change_only_with_success demo_md5 demo_random_text
           (Runways_handleSave 101%N long_runway_form None) demo_world).
  reflexivity.
Defined.

(** ** Ticket identifiers are written once *)

Ltac tickets_send :=
  apply preserves_send;
  let E := fresh "E" in
  let H := fresh "H" in
  intros ? ? ? ? E H; issued_inv E; try exact H;
  unfold tickets_kept in *;
  cbn [profiles user_roles runways flights passengers activity_log alerts
       with_profiles with_user_roles with_runways with_flights with_passengers
       with_activity_log with_alerts] in *;
  try exact H;
  let p' := fresh "p'" in
  let Hin := fresh "Hin" in
  intros p' Hin;
  first
    [ apply filter_In in Hin as [Hin _]; exact (H p' Hin)
    | let q := fresh "q" in
      apply in_map_iff in Hin as (q & <- & Hin);
      destruct (H q Hin) as (p0 & Hp0 & Hid & Htk);
      exists p0; split; [exact Hp0|];
      destruct (N.eqb (Passenger.id q) _); split; assumption ].

Lemma run_keeps_tickets md5 random_text o d0 :
  match o with
  | Passengers_handleSave _ _ None => False
  | _ => True
  end ->
  preserves (fun d _ => tickets_kept d0 d) (run md5 random_text o).
Proof.
  intros Ho. destruct o; cbn [run].
  15: { apply preserves_signUp. intros ? ? ? ? ? ? E H.
        unfold handle_new_user, user_roles_violation in E. stmt_inv E. exact H. }
  11: { destruct editId as [x|]; [|contradiction].
        unfold Passengers.handleSave, logActivity. handler_steps; tickets_send. }
  all: unfold Flights.handleSave, Flights.handleDelete, Flights.handleStatusChange,
         ATCPanel.executeAction, ATCPanel.handleDelay, Runways.handleSave,
         Runways.handleDelete, Runways.handleStatusChange, Alerts.handleAcknowledge,
         Alerts.handleCreate, Passengers.handleDelete,
         Passengers.handleBoardingUpdate, Admin.handleRoleChange,
         Admin.handleRoleChange_then, logActivity.
  all: handler_steps; tickets_send.
Qed.

Lemma run_appends_passengers md5 random_text user form d0 :
  preserves (fun d _ => exists l, passengers d = (passengers d0 ++ l)%list)
            (run md5 random_text (Passengers_handleSave user form None)).
Proof.
  cbn [run]. unfold Passengers.handleSave, logActivity.
  handler_steps;
    (apply preserves_send; intros ? ? ? ? E H; issued_inv E; try exact H).
  destruct H as [l ->]. eexists. rewrite <- app_assoc. reflexivity.
Qed.

Lemma same_id_same_row {Row : Type} (id : Row -> uuid) rows a b :
  List.NoDup (map id rows) -> In a rows -> In b rows -> id a = id b -> a = b.
Proof.
  induction rows as [|r rows IH]; intros Hnd; [intros []|].
  cbn [map] in Hnd. inversion Hnd as [|? ? Hr Hnd']; subst.
  intros [->|Ha] [->|Hb] Heq; try reflexivity.
  - exfalso. apply Hr. rewrite Heq. now apply in_map.
  - exfalso. apply Hr. rewrite <- Heq. now apply in_map.
  - now apply IH.
Qed.

(** X22.  From a world the operations can reach, no operation, whatever its
    caller and arguments and whichever requests are lost, changes the ticket
    identifier of a stored passenger: a passenger found under the same id
    afterwards carries the same ticket identifier. *)
Theorem ticket_id_is_written_once md5 random_text w o t fs p p' :
  reachable md5 random_text w ->
  In p (passengers (db w)) ->
  In p' (passengers (db (exec (run md5 random_text o) (environment t fs w)))) ->
  Passenger.id p' = Passenger.id p ->
  Passenger.ticket_id p' = Passenger.ticket_id p.
Proof.
  intros Hw Hp Hp' Hid.
  pose proof (reachable_keys_ok md5 random_text w Hw) as (_ & _ & _ & _ & Kp & _).
  assert (reachable md5 random_text (exec (run md5 random_text o) (environment t fs w)))
    as Hw' by (eapply reachable_step; [exact Hw|apply step_op]).
  pose proof (reachable_keys_ok md5 random_text _ Hw') as (_ & _ & _ & _ & Kp' & _).
  assert (match o with
          | Passengers_handleSave _ _ None => False
          | _ => True
          end \/ exists user form, o = Passengers_handleSave user form None) as [Ho|Ho].
  { destruct o; try (left; exact I). destruct editId; [left; exact I|right; eauto]. }
  - pose proof (run_keeps_tickets md5 random_text o (db w) Ho (environment t fs w)) as H.
    unfold holds in H. cbn [db environment] in H.
    destruct (H (fun q Hq => ex_intro _ q (conj Hq (conj eq_refl eq_refl))) p' Hp')
      as (p0 & Hp0 & Hid0 & Htk0).
    assert (p0 = p) as ->; [|now symmetry].
    apply (same_id_same_row Passenger.id (passengers (db w))); try assumption.
    congruence.
  - destruct Ho as (user & form & ->).
    pose proof (run_appends_passengers md5 random_text user form (db w)
                  (environment t fs w)) as H.
    unfold holds in H. cbn [db environment] in H.
    destruct (H (ex_intro _ [] (eq_sym (app_nil_r _)))) as [l Hl].
    assert (p' = p) as ->; [|reflexivity].
    apply (same_id_same_row Passenger.id _ p' p Kp'); try assumption.
    rewrite Hl. apply in_or_app. now left.
Qed.

Lemma passenger_added_reachable : reachable demo_md5 demo_random_text passenger_added.
Proof.
  unfold passenger_added, flight_added.
  eapply reachable_step; [eapply reachable_step; [apply reachable_seed|]|];
    apply step_op.
Qed.

(** For instance, the administrator sets the passenger added to flight
    AA100 to boarded: the passenger keeps ticket TKT-D41D8CD9. *)
Lemma ticket_id_is_written_once_witness :
  Passenger.ticket_id
    (Passenger.mk 1%N 1%N "Ada" "Lovelace" "P123" None "TKT-D41D8CD9" boarded "Unknown")
  = Passenger.ticket_id
      (Passenger.mk 1%N 1%N "Ada" "Lovelace" "P123" None "TKT-D41D8CD9" checked_in
                    "Unknown").
Proof.
  apply (ticket_id_is_written_once demo_md5 demo_random_text passenger_added
           (Passengers_handleBoardingUpdate 100%N [] 1%N boarded) 30 []).
  - exact passenger_added_reachable.
  - vm_compute. left. reflexivity.
  - vm_compute. left. reflexivity.
  - reflexivity.
Defined.

(** ** Forms with a required field left empty *)

Lemma sends_on_ret {A : Type} (a : A) : sends_on (ret a).
Proof. intros w. exists []. now rewrite app_nil_r. Qed.

Lemma sends_on_toast title description destructive :
  sends_on (toast title description destructive).
Proof. intros w. exists []. cbn. now rewrite app_nil_r. Qed.

Lemma sends_on_send rq stmt : sends_on (send rq stmt).
Proof.
  intros [d t n fs wr ts ps]. exists [rq]. unfold send.
  cbn [faults db entropy now wire toasts passed].
  destruct fs as [|[] fs]; try reflexivity; now destruct (stmt n d).
Qed.

Lemma sends_on_bind {A B : Type} (m : M A) (k : A -> M B) :
  sends_on m -> (forall a, sends_on (k a)) -> sends_on (bind m k).
Proof.
  intros Hm Hk w. unfold bind. destruct (Hm w) as [l Hl].
  destruct (m w) as [a w1]. cbn [snd] in Hl.
  destruct (Hk a w1) as [l' Hl']. exists (l ++ l')%list.
  now rewrite Hl', Hl, app_assoc.
Qed.

Ltac sends_on_steps :=
  repeat lazymatch goal with
         | |- sends_on (ret _) => apply sends_on_ret
         | |- sends_on (toast _ _ _) => apply sends_on_toast
         | |- sends_on (send _ _) => apply sends_on_send
         | |- sends_on (logActivity _ _ _ _ _ _) => unfold logActivity
         | |- sends_on (bind _ _) => apply sends_on_bind; [|intros ?]
         | |- sends_on (match ?x with _ => _ end) => destruct x
         end.

(** A first request, then more. *)
Lemma send_first rq stmt {B : Type} (k : option PgError -> M B) w :
  (forall a, sends_on (k a)) ->
  exists more, wire (exec (bind (send rq stmt) k) w) = (wire w ++ rq :: more)%list.
Proof.
  intros Hk. unfold exec, bind.
  assert (wire (snd (send rq stmt w)) = (wire w ++ [rq])%list) as Hw.
  { destruct w as [d t n fs wr ts ps]. unfold send.
    cbn [faults db entropy now wire toasts passed].
    destruct fs as [|[] fs]; try reflexivity; now destruct (stmt n d). }
  destruct (send rq stmt w) as [a w1]. cbn [snd] in Hw.
  destruct (Hk a w1) as [l Hl]. exists l. rewrite Hl, Hw.
  now rewrite <- app_assoc.
Qed.

(** X23.  The four forms (flight, runway, alert, passenger): when a required
    field is empty the handler sends nothing, changes nothing and shows one
    "Validation Error" toast; otherwise it sends its request, to the table
    of its page, whatever the caller's role. *)
Theorem incomplete_form_sends_nothing md5 random_text o w :
  saves_form o = true ->
  let w' := exec (run md5 random_text o) w in
  if form_incomplete o
  then db w' = db w /\ wire w' = wire w
       /\ exists description,
            toasts w' = (toasts w ++ [Toast.mk "Validation Error" description true])%list
  else exists rq more,
         wire w' = (wire w ++ rq :: more)%list
         /\ In (rq_table rq) (may_write o)
         /\ rq_table rq <> public_activity_log.
Proof.
  intros Ho. cbv zeta.
  destruct o; try discriminate Ho; clear Ho; cbn [run form_incomplete may_write].
  - unfold Flights.handleSave.
    destruct (String.eqb (Flights.flight_number form) EmptyString);
      destruct (String.eqb (Flights.airline form) EmptyString);
      destruct (String.eqb (Flights.origin form) EmptyString);
      destruct (String.eqb (Flights.destination form) EmptyString);
      destruct (Flights.scheduled_departure form);
      destruct (Flights.scheduled_arrival form);
      cbn [orb];
      try (split; [reflexivity|split; [reflexivity|eexists; reflexivity]]).
    destruct editId;
      (edestruct send_first as [more Hmore];
       [|eexists; exists more; split; [exact Hmore|split; [now left|discriminate]]]);
      intros ?; cbv beta; sends_on_steps.
  - unfold Runways.handleSave.
    destruct (String.eqb (Runways.name form) EmptyString);
      try (split; [reflexivity|split; [reflexivity|eexists; reflexivity]]).
    destruct editId;
      (edestruct send_first as [more Hmore];
       [|eexists; exists more; split; [exact Hmore|split; [now left|discriminate]]]);
      intros ?; cbv beta; sends_on_steps.
  - unfold Alerts.handleCreate.
    destruct (String.eqb (Alerts.title form) EmptyString);
      destruct (String.eqb (Alerts.message form) EmptyString);
      cbn [orb];
      try (split; [reflexivity|split; [reflexivity|eexists; reflexivity]]).
    edestruct send_first as [more Hmore];
      [|eexists; exists more; split; [exact Hmore|split; [now left|discriminate]]];
      intros ?; cbv beta; sends_on_steps.
  - unfold Passengers.handleSave.
    destruct (Passengers.flight_id form);
      destruct (String.eqb (Passengers.first_name form) EmptyString);
      destruct (String.eqb (Passengers.last_name form) EmptyString);
      destruct (String.eqb (Passengers.passport_number form) EmptyString);
      cbn [orb];
      try (split; [reflexivity|split; [reflexivity|eexists; reflexivity]]).
    destruct editId;
      (edestruct send_first as [more Hmore];
       [|eexists; exists more; split; [exact Hmore|split; [now left|discriminate]]]);
      intros ?; cbv beta; sends_on_steps.
Qed.

(** For instance, the form of flight AA100 with its airline left empty. *)
Lemma incomplete_form_sends_nothing_witness :
  let form := Flights.mkForm "aa100" EmptyString "jfk" "lax" scheduled (Some 1000)
                (Some 2000) None EmptyString "Boeing 737" 180 EmptyString in
  let w' := exec (Flights.handleSave 100%N form None) demo_world in
  db w' = db demo_world /\ wire w' = wire demo_world
  /\ exists description,
       toasts w' = (toasts demo_world
                    ++ [Toast.mk "Validation Error" description true])%list.
Proof.
  apply (incomplete_form_sends_nothing demo_md5 demo_random_text
           (Flights_handleSave 100%N
              (Flights.mkForm "aa100" EmptyString "jfk" "lax" scheduled (Some 1000)
                 (Some 2000) None EmptyString "Boeing 737" 180 EmptyString) None)
           demo_world).
  reflexivity.
Defined.

(** ** The activity log and the roles along runs *)

(** X24.  The policy of the activity log: an entry is accepted exactly when
    it names its own author, the caller; an entry in another user's name or
    with no user is refused.  An accepted entry is added at the end and the
    entries before it stay as they are. *)
Theorem activity_entries_are_signed uid user_id action entity_type entity_id details d :
  match activity_log_insert uid user_id action entity_type entity_id details d with
  | inr d' =>
      user_id = Some uid
      /\ exists e,
           activity_log d' = (activity_log d ++ [e])%list
           /\ ActivityLog.user_id e = Some uid
           /\ ActivityLog.action e = action
  | inl e => user_id <> Some uid /\ e = rls_violation public_activity_log
  end.
Proof.
  unfold activity_log_insert, rls_check, policies. cbn. unfold uid_is. cbn.
  destruct user_id as [v|]; cbn.
  - destruct (N.eqb uid v) eqn:E; cbn.
    + apply N.eqb_eq in E. subst v. split; [reflexivity|].
      eexists. repeat split.
    + apply N.eqb_neq in E. split; [congruence|reflexivity].
  - split; [discriminate|reflexivity].
Qed.

Lemma run_log md5 random_text o d0 :
  preserves (fun d _ => exists l,
                 activity_log d = (activity_log d0 ++ l)%list
                 /\ Forall (fun e => ActivityLog.user_id e = caller o) l)
            (run md5 random_text o).
Proof.
  destruct o; cbn [run caller].
  15: { apply preserves_signUp. intros ? ? ? ? ? ? E H.
        unfold handle_new_user, user_roles_violation in E. stmt_inv E. exact H. }
  all: unfold Flights.handleSave, Flights.handleDelete, Flights.handleStatusChange,
         ATCPanel.executeAction, ATCPanel.handleDelay, Runways.handleSave,
         Runways.handleDelete, Runways.handleStatusChange, Alerts.handleAcknowledge,
         Alerts.handleCreate, Passengers.handleSave, Passengers.handleDelete,
         Passengers.handleBoardingUpdate, Admin.handleRoleChange,
         Admin.handleRoleChange_then, logActivity.
  all: handler_steps;
    (apply preserves_send; intros ? ? ? ? E H; issued_inv E;
     first [ exact H
           | destruct H as (l & -> & Hl); eexists;
             split;
             [ rewrite <- app_assoc; reflexivity
             | apply List.Forall_app; split; [exact Hl|now repeat constructor] ] ]).
Qed.

(** X25.  Whatever the operation, its caller and the requests that are lost,
    the activity log only grows: the entries it held stay as they were, in
    order, and every entry added is in the name of the caller of the handler
    (the sign-up trigger adds none). *)
Theorem activity_log_only_grows md5 random_text o w :
  exists l,
    activity_log (db (exec (run md5 random_text o) w)) = (activity_log (db w) ++ l)%list
    /\ Forall (fun e => ActivityLog.user_id e = caller o) l.
Proof.
  apply (run_log md5 random_text o (db w) w).
  exists []. split; [now rewrite app_nil_r|constructor].
Qed.

Lemma roles_statements md5 random_text d0 stmt :
  issued md5 random_text stmt ->
  stmt_preserves (fun d _ => exists l,
                      user_roles d = (user_roles d0 ++ l)%list
                      /\ Forall (fun r => UserRole.role r = staff) l) stmt.
Proof.
  intros Hs n d d' ps E H. destruct Hs.
  17: { rewrite user_roles_upsert_rejected in E. discriminate E. }
  all: issued_inv E; exact H.
Qed.

Lemma roles_signUp d0 :
  signUp_preserves (fun d _ => exists l,
                        user_roles d = (user_roles d0 ++ l)%list
                        /\ Forall (fun r => UserRole.role r = staff) l).
Proof.
  intros x fn em d d' ps E H. unfold handle_new_user, user_roles_violation in E.
  stmt_inv E. cbn [user_roles with_user_roles with_profiles].
  destruct H as (l & -> & Hl). eexists. split; [rewrite <- app_assoc; reflexivity|].
  apply List.Forall_app. split; [exact Hl|]. now repeat constructor.
Qed.

Lemma has_role_staff_rows l u r :
  Forall (fun row => UserRole.role row = staff) l ->
  r <> staff -> has_role l u r = false.
Proof.
  intros Hl Hr. unfold has_role. induction Hl as [|row l Hrow _ IH]; [reflexivity|].
  cbn [existsb]. rewrite IH, Hrow.
  destruct r; try contradiction; cbn; now rewrite andb_false_r.
Qed.

(** X26.  No operation of the program grants or withdraws the role of
    administrator or controller: whatever the operation, its caller and the
    requests that are lost, every user is administrator, and controller,
    after it exactly when the user was before.  (Sign-up adds staff rows
    only, and the role change of the Admin page is refused by the store.) *)
Theorem privileges_never_change md5 random_text o w u :
  has_role (user_roles (db (exec (run md5 random_text o) w))) u admin
  = has_role (user_roles (db w)) u admin
  /\ has_role (user_roles (db (exec (run md5 random_text o) w))) u atc
     = has_role (user_roles (db w)) u atc
  /\ is_ATC (db (exec (run md5 random_text o) w)) u = is_ATC (db w) u.
Proof.
  destruct (run_issues md5 random_text _
              (roles_statements md5 random_text (db w)) (roles_signUp (db w)) o w)
    as (l & Hl & Hstaff).
  { exists []. split; [now rewrite app_nil_r|constructor]. }
  unfold is_ATC. rewrite Hl, !has_role_app.
  rewrite !(has_role_staff_rows l u) by (assumption || discriminate).
  now rewrite !orb_false_r.
Qed.

(** ** Every stored ticket can be validated *)

Lemma upper_alnum_char c :
  upper_alnum c = true ->
  is_space c = false /\ upper_char c = c
  /\ is_space (lower_char c) = false /\ upper_char (lower_char c) = c.
Proof.
  destruct c as [[] [] [] [] [] [] [] []]; intros H; try discriminate H;
    repeat split.
Qed.

Lemma trim_end_no_space s :
  forallb (fun c => negb (is_space c)) (list_ascii_of_string s) = true ->
  trim_end s = s.
Proof.
  induction s as [|c s IH]; [reflexivity|].
  cbn [list_ascii_of_string forallb trim_end]. intros H.
  apply andb_true_iff in H as [Hc Hs]. rewrite (IH Hs).
  apply negb_true_iff in Hc. rewrite Hc. now destruct s.
Qed.

Lemma ticket_as_typed t :
  matches_ticket_pattern t = true ->
  upper (trim t) = t /\ upper (trim (lower t)) = t.
Proof.
  unfold matches_ticket_pattern.
  destruct t as [|c1 t]; [discriminate|].
  destruct c1 as [[] [] [] [] [] [] [] []]; try discriminate.
  destruct t as [|c2 t]; [discriminate|].
  destruct c2 as [[] [] [] [] [] [] [] []]; try discriminate.
  destruct t as [|c3 t]; [discriminate|].
  destruct c3 as [[] [] [] [] [] [] [] []]; try discriminate.
  destruct t as [|c4 rest]; [discriminate|].
  destruct c4 as [[] [] [] [] [] [] [] []]; try discriminate.
  intros H. apply andb_true_iff in H as [_ H].
  assert (forallb (fun c => negb (is_space c)) (list_ascii_of_string rest) = true
          /\ upper rest = rest
          /\ forallb (fun c => negb (is_space c)) (list_ascii_of_string (lower rest)) = true
          /\ upper (lower rest) = rest) as (H1 & H2 & H3 & H4).
  { induction rest as [|c rest IH]; [repeat split|].
    cbn [list_ascii_of_string forallb] in H.
    apply andb_true_iff in H as [Hc Hrest].
    destruct (IH Hrest) as (I1 & I2 & I3 & I4).
    destruct (upper_alnum_char c Hc) as (C1 & C2 & C3 & C4).
    cbn [list_ascii_of_string forallb upper lower].
    rewrite C1, C2, C3, C4, I1, I2, I3, I4. repeat split. }
  unfold trim. cbn [lower]. split.
  - change (trim_start (String "T" (String "K" (String "T" (String "-" rest)))))
      with (String "T" (String "K" (String "T" (String "-" rest)))).
    rewrite trim_end_no_space by (cbn [list_ascii_of_string forallb]; now rewrite H1).
    cbn [upper]. now rewrite H2.
  - change (trim_start (String (lower_char "T") (String (lower_char "K")
              (String (lower_char "T") (String (lower_char "-") (lower rest))))))
      with (String "t" (String "k" (String "t" (String "-" (lower rest))))).
    rewrite trim_end_no_space by (cbn [list_ascii_of_string forallb]; now rewrite H3).
    cbn [upper]. now rewrite H4.
Qed.

Lemma find_by_unique_key {Row : Type} (key : Row -> string) rows p :
  List.NoDup (map key rows) -> In p rows ->
  List.find (fun r => String.eqb (key r) (key p)) rows = Some p.
Proof.
  induction rows as [|r rows IH]; intros Hnd; [intros []|].
  cbn [map] in Hnd. inversion Hnd as [|? ? Hr Hnd']; subst.
  cbn [List.find]. intros [->|Hin].
  - now rewrite String.eqb_refl.
  - destruct (String.eqb (key r) (key p)) eqn:E; [|now apply IH].
    apply String.eqb_eq in E. exfalso. apply Hr. rewrite E. now apply in_map.
Qed.

(** X27.  With [md5] returning digests: in every world the operations can
    reach, typing the ticket identifier of a stored passenger into the
    ticket validation, in upper or in lower case, finds that passenger when
    the request is delivered, and shows no "Not Found". *)
Theorem stored_ticket_is_found md5 random_text w p ticketSearch :
  (forall s, is_md5_digest (md5 s) = true) ->
  reachable md5 random_text w ->
  In p (passengers (db w)) ->
  next_delivered w = true ->
  ticketSearch = Passenger.ticket_id p \/ ticketSearch = lower (Passenger.ticket_id p) ->
  fst (Passengers.validateTicket ticketSearch w) = Some (Some p)
  /\ toasts (exec (Passengers.validateTicket ticketSearch) w) = toasts w.
Proof.
  intros Hmd5 Hw Hp Hnext Hs.
  destruct (reachable_tickets_ok md5 random_text Hmd5 w Hw) as [Hnd Hpat].
  pose proof (proj1 (List.Forall_forall _ _) Hpat p Hp) as Hm. cbn beta in Hm.
  destruct (ticket_as_typed _ Hm) as [Hu Hl].
  assert (upper (trim ticketSearch) = Passenger.ticket_id p) as Hkey
    by (destruct Hs as [-> | ->]; assumption).
  assert (trim ticketSearch <> EmptyString) as Hne.
  { intros He. rewrite He in Hkey. cbn in Hkey. rewrite <- Hkey in Hm. discriminate Hm. }
  destruct (validateTicket_delivered ticketSearch w Hne Hnext) as (Hf & _ & Ht).
  rewrite (single_filter_unique Passenger.ticket_id) in Hf, Ht by exact Hnd.
  rewrite Hkey, (find_by_unique_key Passenger.ticket_id _ p Hnd Hp) in Hf, Ht.
  now split.
Qed.

(** For instance, the ticket of the passenger added to flight AA100, typed
    in lower case. *)
Lemma stored_ticket_is_found_witness :
  fst (Passengers.validateTicket "tkt-d41d8cd9" passenger_added)
  = Some (Some (Passenger.mk 1%N 1%N "Ada" "Lovelace" "P123" None "TKT-D41D8CD9"
                             checked_in "Unknown"))
  /\ toasts (exec (Passengers.validateTicket "tkt-d41d8cd9") passenger_added)
     = toasts passenger_added.
Proof.
  apply (stored_ticket_is_found demo_md5 demo_random_text passenger_added
           (Passenger.mk 1%N 1%N "Ada" "Lovelace" "P123" None "TKT-D41D8CD9"
                         checked_in "Unknown") "tkt-d41d8cd9").
  - intros s. reflexivity.
  - exact passenger_added_reachable.
  - vm_compute. left. reflexivity.
  - reflexivity.
  - right. reflexivity.
Defined.

(** ** Creating an alert *)

Lemma filter_snoc {A : Type} (p : A -> bool) l x :
  List.filter p (l ++ [x]) = (List.filter p l ++ (if p x then [x] else []))%list.
Proof. rewrite List.filter_app. reflexivity. Qed.

(** X28.  Any user who holds a role (staff included) can create an alert:
    with a title and a message, about no flight or about a stored one, and
    the request delivered, the alert is stored as the last one, open and not
    acknowledged, with the fields of the form; the Alerts page lists it
    under "active", and its open-alert counters, the total and the one of
    the alert's severity, go up by one. *)
Theorem handleCreate_opens_alert user form w :
  is_ATC (db w) user || has_role (user_roles (db w)) user staff = true ->
  Alerts.title form <> EmptyString ->
  Alerts.message form <> EmptyString ->
  fk_ok flight_exists (Alerts.flight_id form) (db w) = true ->
  next_delivered w = true ->
  let w' := exec (Alerts.handleCreate user form) w in
  exists a,
    alerts (db w') = (alerts (db w) ++ [a])%list
    /\ Alert.title a = Alerts.title form
    /\ Alert.message a = Alerts.message form
    /\ Alert.severity a = Alerts.severity form
    /\ Alert.flight_id a = Alerts.flight_id form
    /\ Alert.created_by a = Some user
    /\ In a (Alerts.filtered (alerts (db w')) Alerts.filter_active None)
    /\ Alerts.counts_total (alerts (db w')) = S (Alerts.counts_total (alerts (db w)))
    /\ Alerts.counts (alerts (db w')) (Alerts.severity form)
       = S (Alerts.counts (alerts (db w)) (Alerts.severity form)).
Proof.
  intros Hrole Ht Hm Hfk Hnext. cbv zeta.
  destruct w as [d t n fs wr ts ps]. cbn [db] in *.
  unfold next_delivered in Hnext. cbn [faults] in Hnext.
  unfold Alerts.handleCreate.
  apply String.eqb_neq in Ht, Hm. rewrite Ht, Hm. cbn [orb].
  unfold exec, bind, send, toast.
  cbn [faults db entropy now wire toasts passed tl fst snd].
  rewrite alerts_insert_ok by assumption.
  destruct fs as [|[] fs]; try discriminate Hnext;
    cbn [faults db entropy now wire toasts passed tl fst snd];
    match goal with
    | |- context [logActivity ?u ?u ?a ?et ?eid ?det ?W] =>
        destruct (logActivity_db u a et eid det W) as [l ->]
    end;
    cbn [db alerts with_activity_log with_alerts];
    eexists; (split; [reflexivity|]);
    cbn [Alert.inserted Alert.title Alert.message Alert.severity Alert.flight_id
         Alert.created_by Alert.p_title Alert.p_message Alert.p_severity
         Alert.p_flight_id Alert.p_created_by];
    repeat (split; [reflexivity|]);
    (split; [unfold Alerts.filtered; rewrite filter_snoc;
             cbn [Alert.inserted Alert.is_active Alert.is_acknowledged negb andb];
             apply in_or_app; right; now left|]);
    (split; [unfold Alerts.counts_total; rewrite filter_snoc;
             cbn [Alert.inserted Alert.is_acknowledged negb];
             rewrite length_app; cbn [length]; lia|]);
    unfold Alerts.counts; rewrite filter_snoc;
    cbn [Alert.inserted Alert.is_acknowledged negb]; rewrite filter_snoc;
    cbn [Alert.inserted Alert.severity Alert.p_severity];
    (assert (Alerts.alert_severity_eqb (Alerts.severity form) (Alerts.severity form) = true)
       as -> by now destruct (Alerts.severity form));
    rewrite length_app; cbn [length]; lia.
Qed.

(** For instance, staff user 102 of the small airport reports a critical
    alert about flight AA100. *)
Lemma handleCreate_opens_alert_witness :
  let form := Alerts.mkForm "Fuel spill" "Stand A1" critical (Some 10%N) in
  let w' := exec (Alerts.handleCreate 102%N form) demo_world in
  exists a,
    alerts (db w') = (alerts (db demo_world) ++ [a])%list
    /\ Alert.title a = Alerts.title form
    /\ Alert.message a = Alerts.message form
    /\ Alert.severity a = Alerts.severity form
    /\ Alert.flight_id a = Alerts.flight_id form
    /\ Alert.created_by a = Some 102%N
    /\ In a (Alerts.filtered (alerts (db w')) Alerts.filter_active None)
    /\ Alerts.counts_total (alerts (db w')) = S (Alerts.counts_total (alerts (db demo_world)))
    /\ Alerts.counts (alerts (db w')) (Alerts.severity form)
       = S (Alerts.counts (alerts (db demo_world)) (Alerts.severity form)).
Proof.
  apply (handleCreate_opens_alert 102%N
           (Alerts.mkForm "Fuel spill" "Stand A1" critical (Some 10%N)) demo_world);
    first [ reflexivity | discriminate ].
Defined.

(** ** The dashboard *)

Lemma flight_cards_total d :
  let s := Dashboard.stats (Dashboard.fetchData d) in
  Dashboard.totalFlights s
  = (Dashboard.scheduledFlights s + Dashboard.activeFlights s
     + Dashboard.delayedFlights s + Dashboard.emergencies s
     + Dashboard.cancelledFlights s
     + length (List.filter (Dashboard.has_status landed) (flights d)))%nat.
Proof.
  cbv zeta. unfold Dashboard.fetchData.
  cbn [Dashboard.stats Dashboard.totalFlights Dashboard.scheduledFlights
       Dashboard.activeFlights Dashboard.delayedFlights Dashboard.emergencies
       Dashboard.cancelledFlights].
  unfold Dashboard.has_status.
  induction (flights d) as [|f l IH]; [reflexivity|].
  cbn [List.filter length].
  destruct (Flight.status f); cbn [flight_status_eqb orb length]; lia.
Qed.

Lemma In_firstn {A : Type} (x : A) n l : In x (firstn n l) -> In x l.
Proof.
  revert l. induction n as [|n IH]; intros [|y l]; cbn [firstn In]; try tauto.
  intros [->|H]; [now left|right; now apply IH].
Qed.

(** X29.  The eight cards of the dashboard, once [fetchData] has read the
    store.  The "Total Flights" card is the sum of the "Scheduled",
    "Active Flights" (boarding or departed), "Delayed" and "Emergencies"
    cards plus the cancelled and the landed flights, which no card shows;
    the "Passengers" card counts the stored passengers.  In every world
    the operations can reach, the "Active Alerts" card shows the
    open-alert total of the Alerts page capped at five, and the alerts
    listed are open ones. *)
Theorem dashboard_cards md5 random_text w :
  reachable md5 random_text w ->
  let data := Dashboard.fetchData (db w) in
  exists total active late emerg pax free sched open,
    Dashboard.statCards data
    = [ ("Total Flights", total); ("Active Flights", active); ("Delayed", late);
        ("Emergencies", emerg); ("Passengers", pax); ("Available Runways", free);
        ("Scheduled", sched); ("Active Alerts", open) ]
    /\ total
       = (sched + active + late + emerg
          + length (List.filter (Dashboard.has_status cancelled) (flights (db w)))
          + length (List.filter (Dashboard.has_status landed) (flights (db w))))%nat
    /\ pax = length (passengers (db w))
    /\ open = Nat.min 5 (Alerts.counts_total (alerts (db w)))
    /\ forall a, In a (Dashboard.alerts_shown data) ->
                 In a (Alerts.filtered (alerts (db w)) Alerts.filter_active None).
Proof.
  intros Hw. cbv zeta. do 8 eexists.
  split; [reflexivity|]. split; [exact (flight_cards_total (db w))|].
  split; [reflexivity|].
  assert (Forall (fun a => alert_flags_ok a = true) (alerts (db w))) as H.
  { apply (reachable_issued md5 random_text
             (fun d _ => Forall (fun a => alert_flags_ok a = true) (alerts d))
             (alert_flags_statements md5 random_text) alert_flags_signUp);
      [|exact Hw].
    intros roles. constructor. }
  unfold Dashboard.fetchData. cbn [Dashboard.alerts_shown]. split.
  - rewrite length_firstn, length_rev. unfold Alerts.counts_total. f_equal. f_equal.
    apply filter_ext_in. intros a Ha.
    pose proof (proj1 (List.Forall_forall _ _) H a Ha) as Hf.
    unfold alert_flags_ok in Hf.
    destruct (Alert.is_active a), (Alert.is_acknowledged a);
      try discriminate Hf; reflexivity.
  - intros a Ha. apply In_firstn in Ha. apply in_rev in Ha.
    unfold Alerts.filtered. erewrite filter_ext; [exact Ha|].
    intros b. cbn. now rewrite andb_true_r.
Qed.

(** For instance, in the busy airport: two flights, one scheduled and one
    departed; two passengers; six open alerts, of which the card counts
    five. *)
Lemma dashboard_cards_witness :
  let data := Dashboard.fetchData (db busy_airport) in
  Dashboard.statCards data
  = [ ("Total Flights", 2); ("Active Flights", 1); ("Delayed", 0);
      ("Emergencies", 0); ("Passengers", 2); ("Available Runways", 4);
      ("Scheduled", 1); ("Active Alerts", 5) ]%nat
  /\ Alerts.counts_total (alerts (db busy_airport)) = 6%nat
  /\ exists total active late emerg pax free sched open,
       Dashboard.statCards data
       = [ ("Total Flights", total); ("Active Flights", active); ("Delayed", late);
           ("Emergencies", emerg); ("Passengers", pax); ("Available Runways", free);
           ("Scheduled", sched); ("Active Alerts", open) ]
       /\ total
          = (sched + active + late + emerg
             + length (List.filter (Dashboard.has_status cancelled)
                                   (flights (db busy_airport)))
             + length (List.filter (Dashboard.has_status landed)
                                   (flights (db busy_airport))))%nat
       /\ pax = length (passengers (db busy_airport))
       /\ open = Nat.min 5 (Alerts.counts_total (alerts (db busy_airport)))
       /\ forall a, In a (Dashboard.alerts_shown data) ->
                    In a (Alerts.filtered (alerts (db busy_airport))
                            Alerts.filter_active None).
Proof.
  split; [vm_compute; reflexivity|]. split; [vm_compute; reflexivity|].
  apply (dashboard_cards toy_md5 toy_random_text).
  exact busy_airport_reachable.
Defined.
